(* ===== verification/_CoqProject ===== *)
-Q . S2P
Prelude.v
Models.v
Supabase.v
Repository.v
Prompts.v
Service.v
Pipeline.v
Routes.v
Progress.v
Validation.v
Responses.v
Concurrency.v
Client.v
Server.v
Provenance.v
