(* ===== verification/Prelude.v ===== *)
(** * WordWeaver: a verification development of the script-writing backend

    The program (src/server) is a FastAPI backend that drafts a script
    outline with a language model, stores user-approved outlines in two
    Supabase tables, and then writes the prose of each outline section
    one at a time: the first section synchronously, the rest in a
    background task, each section's prompt conditioned on the stored
    content of the section before it.

    ** Parts of the program and where they are modelled

    - [Prelude] (this file): Python's exceptions as the inductive
      [PyExc]; the effect of Python code as the state-and-exception monad
      [PyM S A = S -> res A * S], in which an exception does not roll
      back the state (Python and Supabase have no transactions across
      calls); [try_except] for [try/except]; Python truthiness of strings
      and list indexing with [IndexError]; the invariant combinator
      [preserves] and its hint database [pym].
    - [Models] (src/server/models/content.py): the pydantic classes as
      records with their fields; the validation of
      [GenerateOutlineSectionContentInput] (a [None] section id is a
      [ValidationError]); attribute access on the request object of the
      complete-script endpoints as the class [ScriptInput].
    - [Supabase] (the database behind the client of
      src/server/db/supabase.py; the table semantics are modelled from
      the spec, section 6): the two tables
      [outlines] and [outline_sections] as [gmap]s keyed by row id, the
      id generator, and the five queries the repository issues
      (insert, select by id, select by outline id ordered by position,
      update by id).  The store enforces the spec's unique
      (outline_id, position) constraint: an insert that would break it
      raises [APIError] and changes nothing.
    - [Repository] (src/server/repository/content.py): the six
      [ContentRepository] methods, each with its "no data" checks.
    - [Prompts] (src/server/service/content.py, the pure parts):
      [sections_count] ([max(1, int(word_count / 700))]),
      [clean_section], the 1000-character truncation of the previous
      section's content, [previous_content_instruction], and the two
      template-variable records passed to the prompts.
    - [Service] (src/server/service/content.py): the five [ContentService]
      methods over a world made of the store and a trace of model calls
      and log lines; the language model is a record of two functions of
      the prompt variables and of the trace so far (so it may answer the
      same prompt differently over time), and every property holds for
      every such model.  The driver [generate_complete_script_incremental]
      returns the first section with the list of queued background tasks.
    - [Pipeline]: the abstract carry-forward pipeline [carry_forward]
      (sections written in order, each prompt conditioned on the content
      generated for the section before, first failure ends the run) and
      the refinement proof that the background loop
      [generate_remaining_sections] implements it.
    - [Routes] (src/server/routes/content.py): the six handlers of the
      router in the module [Router], each turning exceptions into an
      [HTTPException] response (404 for [ValueError] in
      [GET /outline/{outline_id}], 500 otherwise); [handle] dispatches a
      request and then runs the background tasks its handler queued, as
      Starlette does after the response; [serve] handles requests in
      sequence.
    - [Progress] (spec section 5): the phases of one complete-script
      run as the inductive [Phase] and the code's atomic steps between
      them as the executable [advance]; polls of the sections may come
      between any two steps.
    - [Validation] (the pydantic classes as FastAPI applies them to
      request bodies): JSON values, the validators of the classes the
      routes take (pydantic v2 rules: no number-to-string coercion,
      required [Optional] fields without default, extra keys ignored),
      the 422 answer to an invalid body, the validators of the
      response classes, and the seven documented examples of
      src/server/examples.py (request bodies and responses).
    - [Concurrency] (the background task as the framework's worker
      threads run it): one iteration of
      [generate_remaining_sections] split at the model call into two
      atomic actions ([section_content_call]: read of the previous
      content and model call; [section_content_write]: the row update
      and the progress line), the [Thread] states and the step
      [thread_step] of one worker.
    - [Responses] (FastAPI's handling of a handler's return value):
      [model_dump()] of each class with the class [JsonModel] and its
      roundtrip law, the [response_model] of each route,
      [serialize_response], and the application [serve_http] from a JSON
      request to the reply on the wire; [dispatch] (a handler with the
      tasks it queued) is what [Server] runs on arrival of a request.
    - [Client] (src/server/db/supabase.py): [load_dotenv()], [os.getenv]
      and [create_client]'s checks; [start_and_serve]: a failed import
      of the client module means no request is served.
    - [Server] (the event loop and Starlette's worker threads): a
      configuration of the world, the workers (one per queued background
      task, each a [Concurrency.Thread]) and the responses sent;
      [server_step] runs a whole handler ([Arrive]: the handlers are
      [async def] without [await], so none interleaves with another) or
      one atomic action of a worker ([Work n]); [run_server] runs a
      schedule, and [server_reaches] relates a configuration to every
      one some schedule reaches from it.
    - [Provenance] (no code of its own): the invariant that every
      stored section content is empty or an answer of the model to a
      section-content call recorded in the trace ([answered],
      [contents_ok]), the lemmas that every query, repository method,
      service method, handler ([dispatch]) and worker action
      ([thread_step]) keeps it and only appends to the trace, and its
      lift to every schedule of [Server] ([server_prov]).

    How the parts interact: a route calls the service (or the
    repository directly for the two GET routes); the service calls the
    repository through [db] and the model through [invoke_outline] and
    [invoke_section]; the repository issues Supabase queries.  The
    request object of the complete-script routes is used through the
    class [ScriptInput]: its instance for [GenerateCompleteScriptInput]
    (the class the routes declare) fails on every generation parameter,
    its instance for [CompleteScriptRequest] (the body
    [example_complete_script_input] documents) resolves them, and the
    theorems about the pipeline are stated for any instance whose
    attributes resolve.
    Around the router, FastAPI validates the request body ([Validation])
    and serializes the handler's return value ([Responses]); before any
    of this, importing the application imports the client module
    ([Client]), whose failure means that no request is served.

    ** What the theorems show (see PROJECT.json for the list of claims)

    - as deployed, the complete-script driver and both complete routes
      fail on every request (C1, C22): the request class drops the
      generation parameters the service reads;
    - the background task refines the abstract pipeline (C2): its k-th
      write goes to section start + k and stores the model's answer to
      the call made for that section (C3), whose prompt carries the
      content of the write before (C4); failures are logged and never
      raised (C9); with a resolving request and a model that always
      answers, every section is filled (C24);
    - one section's generation: no store change on failure (C5), the
      content persisted on success (C6), the prompt built from the
      stored previous content (C7) and not from [context] (C19);
    - saving: exact rows on success (C10), no rollback of the outline row
      when the section insert fails (C11), and the save/GET round trip
      (C20);
    - the store invariant (row ids match keys, ids are fresh below the id
      counter, unique (outline_id, position), every section row
      references an existing outline) is preserved by every query, every
      repository method and every service operation (C12);
    - the HTTP layer: every request answered with a documented status
      (C21), 404 exactly for a missing outline (C23), polling the
      sections never fails (C25), and the invariant holds across any
      sequence of requests (C26);
    - the run state machine is the code (C29), and a poll between any
      two of its steps sees exactly a prefix of the sections filled
      (C30);
    - drafting never persists and ignores language, style and tone
      (C27); a section without id ends the background run (C28);
    - at the JSON level, no body gets a 202 from the complete-script
      routes (C32); a section id that is the empty string gets content
      returned but never stored (C33);
    - concurrency: on the server, where handlers run one at a time on
      the event loop and workers interleave with them, every schedule
      keeps the store invariant (C17), and every content it stores is
      empty or an answer the model gave, computed on the events before
      the call (C14);
    - startup: when the Supabase client is created, it carries the URL
      and key from the environment or else the [.env] file, non-empty,
      with an http(s) URL (C31);
    - bounds: the truncated previous content has at most 1003 characters
      (C13); the section count is [trunc(w/700)], and 1 below 700
      words, one less than the spec's rounding when w mod 700 > 350
      (C15, C16); concurrent updates: last write wins (C18).

    ** Bounds and modelling choices

    - Python [int] is [Z].  [int(w / 700)] is modelled as [Z.quot w 700]
      (truncation toward zero); the float division of the source agrees
      with it for |w| < 2^52, beyond which the float quotient rounds.
    - Python [str] is [string]; one Rocq [ascii] stands for one code
      point, so [len] and slicing are exact on ASCII text (the em dashes
      of the documented responses are kept as their UTF-8 bytes, and
      no length is taken of them).
    - Row ids are generated by the store from a counter ("row-" followed
      by the counter's decimal digits); Supabase generates UUIDs, and all
      the code needs of them is that they are fresh and non-empty.  Ids
      are strings throughout: with an integer id column (the examples
      document integer section ids), building an [OutlineSection] from a
      row in [get_outline] would raise [ValidationError] and answer 404, which
      this model does not cover.
    - The loops are structural ([for_range] over a count), so no fuel is
      needed: every operation of the model is a total function.  The
      server of [Server] runs a finite schedule of actions
      ([run_server]); its theorems quantify over every configuration
      reachable by any schedule ([server_reaches]).
    - [Routes] handles requests one at a time and runs a request's
      background tasks to completion before the next request.  The
      interleavings of [Concurrency] and [Server] are at the grain of one
      model call: each row update is atomic, the Supabase client is not
      split further, and a handler is one action (the workers may also
      run during a handler's blocking calls on the real server, so the
      schedules modelled are a subset of the real ones; the invariants
      of C14 and C17 hold at the finer grain too, because every single
      store operation preserves them).

    ** Not modelled

    - [print] calls, the [updated_at] timestamp, the text of the prompt
      templates (a prompt is determined by its variables), LangChain's
      rendering and the model's output parsing (the model returns the
      parsed value or an exception);
    - the format check supabase-py applies to the anon key (it differs
      between releases; any non-empty key is accepted), the parsing of
      the [.env] file itself (it is given as its list of assignments),
      the parsing of JSON text (the model starts from the parsed JSON
      value), and the ASGI server;
    - the remaining lines of the sources are imports and the creation of
      the logger and the router objects, which have no behaviour to
      model.
*)

From stdpp Require Export base gmap strings list sorting pretty.
From Stdlib Require Export ZArith Ascii.

Open Scope string_scope.

(** ** Python exceptions *)

(** The exception classes the code raises or lets escape. [ModelError]
    is any failure of a language-model call (network, provider, schema
    mismatch): the code does not tell them apart. [APIError] is the
    exception the Supabase client raises when a query is rejected. *)
Inductive PyExc : Type :=
| ValueError (msg : string)
| AttributeError (msg : string)
| ValidationError (msg : string)
| IndexError (msg : string)
| APIError (msg : string)
| ModelError (msg : string).

#[export] Instance PyExc_eq_dec : EqDecision PyExc.
Proof. solve_decision. Defined.

(** [str(e)] *)
Definition exc_str (e : PyExc) : string :=
  match e with
  | ValueError m | AttributeError m | ValidationError m
  | IndexError m | APIError m | ModelError m => m
  end.

(** The outcome of a Python computation: a value or an exception. *)
Inductive res (A : Type) : Type :=
| Ok (a : A)
| Err (e : PyExc).
Arguments Ok {A} a.
Arguments Err {A} e.

Definition res_bind {A B} (r : res A) (k : A -> res B) : res B :=
  match r with Ok a => k a | Err e => Err e end.

(** ** The state-and-exception monad *)

Definition PyM (S A : Type) : Type := S -> res A * S.

Definition ret {S A} (a : A) : PyM S A := fun s => (Ok a, s).
Definition raise {S A} (e : PyExc) : PyM S A := fun s => (Err e, s).
Definition lift_res {S A} (r : res A) : PyM S A := fun s => (r, s).

(** An exception keeps the state reached when it was raised. *)
Definition bind {S A B} (m : PyM S A) (k : A -> PyM S B) : PyM S B :=
  fun s => match m s with
           | (Ok a, s') => k a s'
           | (Err e, s') => (Err e, s')
           end.

(** [try: m except Exception as e: h(e)] *)
Definition try_except {S A} (m : PyM S A) (h : PyExc -> PyM S A) : PyM S A :=
  fun s => match m s with
           | (Err e, s') => h e s'
           | r => r
           end.

Declare Scope py_scope.
Delimit Scope py_scope with py.
Notation "'let*' x ':=' m 'in' k" := (bind m (fun x => k))
  (at level 65, x name, m at next level, right associativity,
   format "'[v' 'let*'  x  ':='  m  'in' '/' k ']'") : py_scope.
Notation "'let?' x ':=' r 'in' k" := (res_bind r (fun x => k))
  (at level 65, x name, r at next level, right associativity,
   format "'[v' 'let?'  x  ':='  r  'in' '/' k ']'") : py_scope.
Open Scope py_scope.

(** ** Python values *)

(** Truthiness of a [str]: only the empty string is false. *)
Definition str_truthy (s : string) : bool :=
  match s with EmptyString => false | String _ _ => true end.

Lemma str_truthy_true s : str_truthy s = true <-> s <> "".
Proof. destruct s; simpl; split; congruence. Qed.

(** [l[i]] for a non-negative index. *)
Definition py_index {A} (l : list A) (i : nat) : res A :=
  match l !! i with
  | Some x => Ok x
  | None => Err (IndexError "list index out of range")
  end.

(** [s[:n]] *)
Definition py_slice_upto (n : nat) (s : string) : string := String.substring 0 n s.

(** [len(s)] *)
Definition py_len (s : string) : nat := String.length s.

Create Rewrite HintDb pystr.

(** [String.append] does not unfold by [simpl] under stdpp. *)
Lemma string_app_cons c (s1 s2 : string) : String c s1 ++ s2 = String c (s1 ++ s2).
Proof. reflexivity. Qed.

Lemma py_len_app (s1 s2 : string) : py_len (s1 ++ s2) = py_len s1 + py_len s2.
Proof.
  unfold py_len. induction s1 as [|c s1 IH]; [done|].
  rewrite string_app_cons. cbn [String.length]. by rewrite IH.
Qed.

Lemma py_len_slice_upto n s : py_len (py_slice_upto n s) = Nat.min n (py_len s).
Proof.
  unfold py_len, py_slice_upto. revert n.
  induction s as [|c s IH]; intros [|n]; simpl; try done. by rewrite IH.
Qed.

(** A slice is a prefix of the string it is taken from. *)
Lemma py_slice_upto_prefix n s : exists rest, s = py_slice_upto n s ++ rest.
Proof.
  unfold py_slice_upto. revert n.
  induction s as [|c s IH]; intros [|n]; simpl.
  - by exists "".
  - by exists "".
  - by exists (String c s).
  - destruct (IH n) as [rest Hr]. exists rest. rewrite string_app_cons. by rewrite <- Hr.
Qed.

#[export] Hint Rewrite py_len_app py_len_slice_upto : pystr.

(** ** Running the monad *)

Create HintDb pym discriminated.

Section Run.
Context {S A B : Type}.

Lemma run_bind_Ok (m : PyM S A) (k : A -> PyM S B) s a s' :
  m s = (Ok a, s') -> bind m k s = k a s'.
Proof. intros H. unfold bind. by rewrite H. Qed.

Lemma run_bind_Err (m : PyM S A) (k : A -> PyM S B) s e s' :
  m s = (Err e, s') -> bind m k s = (Err e, s').
Proof. intros H. unfold bind. by rewrite H. Qed.

Lemma bind_assoc_run {C} (m : PyM S A) (f : A -> PyM S B) (g : B -> PyM S C) s :
  bind (bind m f) g s = bind m (fun x => bind (f x) g) s.
Proof. unfold bind. by destruct (m s) as [[a|e] s']. Qed.

Lemma run_try_Ok (m : PyM S A) h s a s' :
  m s = (Ok a, s') -> try_except m h s = (Ok a, s').
Proof. intros H. unfold try_except. by rewrite H. Qed.

Lemma run_try_Err (m : PyM S A) h s e s' :
  m s = (Err e, s') -> try_except m h s = h e s'.
Proof. intros H. unfold try_except. by rewrite H. Qed.

Lemma py_index_lookup (l : list A) i x : l !! i = Some x -> py_index l i = Ok x.
Proof. intros H. unfold py_index. by rewrite H. Qed.

Lemma py_index_lt (l : list A) i : i < length l -> exists x, py_index l i = Ok x /\ l !! i = Some x.
Proof.
  intros Hi. destruct (lookup_lt_is_Some_2 l i Hi) as [x Hx].
  exists x. split; [by apply py_index_lookup | done].
Qed.
End Run.

(** Rewrite the first bind of a goal [bind m k s = _] with a known run of
    [m]. *)
Ltac run_step H :=
  first [ rewrite (run_bind_Ok _ _ _ _ _ H)
        | rewrite (run_bind_Err _ _ _ _ _ H)
        | rewrite (run_try_Ok _ _ _ _ _ H)
        | rewrite (run_try_Err _ _ _ _ _ H) ].

(** ** Invariants of effectful code *)

(** [m] preserves [P]: from a state satisfying [P], whatever [m] returns
    or raises, the state it leaves satisfies [P]. *)
Definition preserves {S A} (P : S -> Prop) (m : PyM S A) : Prop :=
  forall s, P s -> P (snd (m s)).

Section Preserves.
Context {S : Type} (P : S -> Prop).

Lemma preserves_ret {A} (a : A) : preserves P (ret a).
Proof. by intros s Hs. Qed.

Lemma preserves_raise {A} e : preserves P (@raise S A e).
Proof. by intros s Hs. Qed.

Lemma preserves_lift_res {A} (r : res A) : preserves P (lift_res r).
Proof. by intros s Hs. Qed.

Lemma preserves_bind {A B} (m : PyM S A) (k : A -> PyM S B) :
  preserves P m -> (forall a, preserves P (k a)) -> preserves P (bind m k).
Proof.
  intros Hm Hk s Hs. unfold bind.
  specialize (Hm s Hs). destruct (m s) as [[a|e] s']; simpl in *; auto.
  by apply Hk.
Qed.

Lemma preserves_try {A} (m : PyM S A) h :
  preserves P m -> (forall e, preserves P (h e)) -> preserves P (try_except m h).
Proof.
  intros Hm Hh s Hs. unfold try_except.
  specialize (Hm s Hs). destruct (m s) as [[a|e] s']; simpl in *; auto.
  by apply Hh.
Qed.

Lemma preserves_if {A} (b : bool) (m1 m2 : PyM S A) :
  preserves P m1 -> preserves P m2 -> preserves P (if b then m1 else m2).
Proof. by destruct b. Qed.
End Preserves.

#[export] Hint Resolve preserves_ret preserves_raise preserves_lift_res
  preserves_bind preserves_try preserves_if : pym.

(** Close a [preserves] goal by the structure of the program, using the
    component lemmas registered in [pym]. *)
Ltac solve_preserves :=
  repeat first
    [ progress intros
    | solve [eauto with pym]
    | match goal with
      | |- preserves _ (bind _ _) => apply preserves_bind
      | |- preserves _ (try_except _ _) => apply preserves_try
      | |- preserves _ (if ?b then _ else _) => destruct b
      | |- preserves _ (match ?x with _ => _ end) => destruct x
      end ].

(** [for index in range(start, start + count): body(index)] *)
Fixpoint for_range {St} (start count : nat) (body : nat -> PyM St unit) : PyM St unit :=
  match count with
  | 0 => ret tt
  | S c => bind (body start) (fun _ => for_range (S start) c body)
  end.

Lemma for_range_S {St} start c (body : nat -> PyM St unit) :
  for_range start (S c) body = bind (body start) (fun _ => for_range (S start) c body).
Proof. reflexivity. Qed.

Lemma preserves_for_range {St} (P : St -> Prop) start count body :
  (forall i, preserves P (body i)) -> preserves P (for_range start count body).
Proof.
  intros Hb. revert start. induction count as [|c IH]; intros start; simpl; eauto with pym.
Qed.

#[export] Hint Resolve preserves_for_range : pym.

(** ** Lists ordered by an integer key

    [.order("position")] returns rows sorted by their position; when
    the positions are distinct, a list sorted by its keys is determined
    by its elements. *)

Lemma NoDup_fmap_elem_inj {A B} (f : A -> B) (l : list A) x y :
  NoDup (f <$> l) -> x ∈ l -> y ∈ l -> f x = f y -> x = y.
Proof.
  intros Hnd (i & Hi)%list_elem_of_lookup (j & Hj)%list_elem_of_lookup Hf.
  assert (i = j) as ->; [|congruence].
  apply (NoDup_lookup (f <$> l) i j (f x) Hnd); rewrite list_lookup_fmap; [by rewrite Hi|].
  by rewrite Hj, Hf.
Qed.

Section KeySorted.
Context {A : Type} (key : A -> Z).

Definition key_le (a b : A) : Prop := (key a <= key b)%Z.

#[export] Instance key_le_dec : RelDecision key_le.
Proof. intros a b. unfold key_le. apply _. Defined.

#[export] Instance key_le_total : Total key_le.
Proof. intros a b. unfold key_le. lia. Qed.

#[export] Instance key_le_trans : Transitive key_le.
Proof. intros a b c. unfold key_le. lia. Qed.

Lemma key_sorted_unique (l1 l2 : list A) :
  Sorted key_le l1 -> Sorted key_le l2 -> NoDup (key <$> l1) -> NoDup (key <$> l2) ->
  (forall x, x ∈ l1 <-> x ∈ l2) -> l1 = l2.
Proof.
  intros S1 S2 N1 N2 Hmem. apply Sorted_unique_strong with (R := key_le); [apply _| |done..|].
  - intros x1 x2 H1 H2 Hle Hge. apply (NoDup_fmap_elem_inj key l1); [done|done|by apply Hmem|].
    unfold key_le in *. lia.
  - apply NoDup_Permutation; [eapply NoDup_fmap_1, N1 | eapply NoDup_fmap_1, N2 | done].
Qed.

Lemma Sorted_of_fmap_key (R : relation Z) (R2 : relation A) (l : list A) :
  (forall a b, R (key a) (key b) -> R2 a b) -> Sorted R (key <$> l) -> Sorted R2 l.
Proof.
  intros HR. induction l as [|x l IH]; intros Hs; [constructor|].
  inversion Hs as [|? ? Hl Hhd]; subst. constructor; [by apply IH|].
  destruct l as [|y l]; constructor. inversion Hhd. by apply HR.
Qed.

(** A list already sorted by distinct keys is its own [merge_sort]. *)
Lemma merge_sort_key_sorted (l : list A) :
  Sorted Z.lt (key <$> l) -> NoDup (key <$> l) -> merge_sort key_le l = l.
Proof.
  intros Hs Hnd. apply key_sorted_unique.
  - apply Sorted_merge_sort, _.
  - apply (Sorted_of_fmap_key Z.lt); [|done]. intros a b. unfold key_le. lia.
  - by rewrite (merge_sort_Permutation _ l).
  - done.
  - intros x. by rewrite (merge_sort_Permutation _ l).
Qed.
End KeySorted.
