(* ===== verification/Models.v ===== *)
(** * Models: the pydantic classes of src/server/models/content.py

    Each [BaseModel] class is a record whose fields keep the source's
    names behind a short prefix (projections are global names in Rocq).
    [Optional[str]] is [option string], [int] is [Z], [List[...]] is
    [list].  Constructing [GenerateOutlineSectionContentInput] validates
    its fields: the only check that can fail on the values the service
    passes is [section_id: str] given [None].  The complete-script
    endpoints receive a [GenerateCompleteScriptInput], whose only
    declared field is [outline]; the service reads further attributes
    of it, which the class [ScriptInput] models as attribute access. *)

From S2P Require Import Prelude.

(** [class OutlineSection(BaseModel)] *)
Record OutlineSection : Type := mkOutlineSection {
  sec_id : option string;
  sec_outline_id : option string;
  sec_position : Z;
  sec_title : string;
  sec_description : string;
  sec_instructions : string
}.

#[export] Instance OutlineSection_eq_dec : EqDecision OutlineSection.
Proof. solve_decision. Defined.

(** [class Outline(BaseModel)] *)
Record Outline : Type := mkOutline {
  ol_id : option string;
  ol_sections : list OutlineSection
}.

(** [class OutlineReference(BaseModel)]; no route or method uses it. *)
Record OutlineReference : Type := mkOutlineReference {
  oref_outline_id : string
}.

(** [class GenerateOutlineInput(BaseModel)] *)
Record GenerateOutlineInput : Type := mkGenerateOutlineInput {
  goi_id : option string;
  goi_script_title : string;
  goi_word_count : Z;
  goi_language : string;
  goi_audience : string;
  goi_style : string;
  goi_tone : string;
  goi_model : string;
  goi_additional_data : string
}.

(** [class GenerateOutlineSectionsInput(BaseModel)]; no route or method
    uses it. *)
Record GenerateOutlineSectionsInput : Type := mkGenerateOutlineSectionsInput {
  gsi_section_id : Z;
  gsi_section_title : string;
  gsi_script_title : string;
  gsi_description : string;
  gsi_n_person_view : string;
  gsi_excluded_words : string;
  gsi_prev_section_title : option string;
  gsi_next_section_title : option string
}.

(** [class GenerateOutlineSectionContentInput(BaseModel)] *)
Record GenerateOutlineSectionContentInput : Type := mkGenerateOutlineSectionContentInput {
  gci_section_id : string;
  gci_current_section : OutlineSection;
  gci_previous_section : option OutlineSection;
  gci_next_section : option OutlineSection;
  gci_script_title : string;
  gci_context : string;
  gci_n_person_view : string;
  gci_excluded_words : string;
  gci_model : string
}.

(** [GenerateOutlineSectionContentInput(section_id=..., ...)]: pydantic
    validates the keyword arguments; [section_id: str] rejects [None]. *)
Definition validate_section_content_input (section_id : option string)
    (current_section : OutlineSection) (previous_section next_section : option OutlineSection)
    (script_title context n_person_view excluded_words model : string)
    : res GenerateOutlineSectionContentInput :=
  match section_id with
  | None => Err (ValidationError "section_id: Input should be a valid string")
  | Some sid =>
      Ok {| gci_section_id := sid; gci_current_section := current_section;
            gci_previous_section := previous_section; gci_next_section := next_section;
            gci_script_title := script_title; gci_context := context;
            gci_n_person_view := n_person_view; gci_excluded_words := excluded_words;
            gci_model := model |}
  end.

(** [class GenerateOutlineSectionContentOutput(BaseModel)] *)
Record GenerateOutlineSectionContentOutput : Type := mkGenerateOutlineSectionContentOutput {
  gco_content : string
}.

(** [class GenerateCompleteScriptInput(BaseModel)]: one declared field.
    With pydantic's default [extra='ignore'], the other keys of the
    request body are dropped at validation. *)
Record GenerateCompleteScriptInput : Type := mkGenerateCompleteScriptInput {
  gcs_outline : Outline
}.

(** [class WrittenOutlineSection(BaseModel)] *)
Record WrittenOutlineSection : Type := mkWrittenOutlineSection {
  ws_id : option string;
  ws_title : string;
  ws_description : string;
  ws_instructions : string;
  ws_content : string
}.

(** [class GenerateCompleteScriptOutput(BaseModel)]; declared as the
    output of a complete script, returned by no route. *)
Record GenerateCompleteScriptOutput : Type := mkGenerateCompleteScriptOutput {
  gcso_sections : list WrittenOutlineSection
}.

(** [class SaveOutlineInput(BaseModel)] *)
Record SaveOutlineInput : Type := mkSaveOutlineInput {
  soi_script_title : string;
  soi_word_count : Z;
  soi_language : string;
  soi_audience : string;
  soi_style : string;
  soi_tone : string;
  soi_model : string;
  soi_additional_data : string;
  soi_sections : list OutlineSection
}.

(** [class OutlineResponse(BaseModel)] *)
Record OutlineResponse : Type := mkOutlineResponse {
  or_outline_id : string
}.

(** ** Attribute access on the complete-script request *)

(** The attributes that [generate_complete_script_incremental] and
    [generate_remaining_sections] read from their [input], besides
    [input.outline], in the order the keyword arguments are evaluated. *)
Inductive ScriptAttr : Type :=
| attr_script_title
| attr_context
| attr_n_person_view
| attr_excluded_words
| attr_model.

Definition attr_name (a : ScriptAttr) : string :=
  match a with
  | attr_script_title => "script_title"
  | attr_context => "context"
  | attr_n_person_view => "n_person_view"
  | attr_excluded_words => "excluded_words"
  | attr_model => "model"
  end.

(** What the service needs of its [input] object: [input.outline] and
    the string attributes above (Python resolves them when they are
    read, raising [AttributeError] when the object has none). *)
Class ScriptInput (I : Type) : Type := {
  script_outline : I -> Outline;
  script_attr : I -> ScriptAttr -> res string
}.

(** A pydantic model has exactly its declared fields:
    [GenerateCompleteScriptInput] declares [outline] only, so every
    other attribute read raises [AttributeError]. *)
#[export] Instance GenerateCompleteScriptInput_ScriptInput : ScriptInput GenerateCompleteScriptInput := {
  script_outline := gcs_outline;
  script_attr _ a :=
    Err (AttributeError ("'GenerateCompleteScriptInput' object has no attribute '"
                         ++ attr_name a ++ "'"))
}.

(** The request body documented by [example_complete_script_input] in
    src/server/examples.py: the outline together with the generation
    parameters the service reads. *)
Record CompleteScriptRequest : Type := mkCompleteScriptRequest {
  csr_outline : Outline;
  csr_script_title : string;
  csr_context : string;
  csr_n_person_view : string;
  csr_excluded_words : string;
  csr_model : string
}.

Definition csr_attr (r : CompleteScriptRequest) (a : ScriptAttr) : string :=
  match a with
  | attr_script_title => csr_script_title r
  | attr_context => csr_context r
  | attr_n_person_view => csr_n_person_view r
  | attr_excluded_words => csr_excluded_words r
  | attr_model => csr_model r
  end.

#[export] Instance CompleteScriptRequest_ScriptInput : ScriptInput CompleteScriptRequest := {
  script_outline := csr_outline;
  script_attr r a := Ok (csr_attr r a)
}.

Lemma csr_attr_ok (r : CompleteScriptRequest) a : script_attr r a = Ok (csr_attr r a).
Proof. reflexivity. Qed.
