(* ===== verification/Supabase.v ===== *)
(** * Supabase: the two tables and the queries the repository issues

    The Supabase client (src/server/db/supabase.py) is an external
    collaborator; the semantics of its queries are modelled from the
    spec (section 6: insert returns the rows with their generated ids,
    select and update return the matching rows, "no data" is an empty
    list) and from the data model of section 3 (sections are unique per
    (outline_id, position)).

    A table is a [gmap] from the primary key [id] to the row; the store
    keeps the counter from which fresh ids are generated.  A multi-row
    insert is one statement: it checks the unique constraint on the
    whole batch first and either inserts every row or raises [APIError]
    and changes nothing.

    [store_wf] is the store invariant: each row is stored under its own
    id, every id was generated below the counter, and no two section
    rows share (outline_id, position).  Every query preserves it. *)

From S2P Require Import Prelude.
From S2P Require Import Models.

(** ** Rows *)

(** The dict built by [ContentService.save_outline] for [outlines]. *)
Record OutlineData : Type := mkOutlineData {
  od_script_title : string;
  od_word_count : Z;
  od_language : string;
  od_audience : string;
  od_style : string;
  od_tone : string;
  od_model : string;
  od_additional_data : string
}.

Record OutlineRow : Type := mkOutlineRow {
  orow_id : string;
  orow_data : OutlineData
}.

(** The dict built by [ContentService.save_outline] for each section. *)
Record SectionData : Type := mkSectionData {
  sd_outline_id : string;
  sd_position : Z;
  sd_title : string;
  sd_description : string;
  sd_instructions : string;
  sd_content : string
}.

Record SectionRow : Type := mkSectionRow {
  srow_id : string;
  srow_outline_id : string;
  srow_position : Z;
  srow_title : string;
  srow_description : string;
  srow_instructions : string;
  srow_content : string
}.

#[export] Instance SectionRow_eq_dec : EqDecision SectionRow.
Proof. solve_decision. Defined.

Definition section_row_of (id : string) (d : SectionData) : SectionRow :=
  {| srow_id := id; srow_outline_id := sd_outline_id d; srow_position := sd_position d;
     srow_title := sd_title d; srow_description := sd_description d;
     srow_instructions := sd_instructions d; srow_content := sd_content d |}.

Definition set_content (c : string) (r : SectionRow) : SectionRow :=
  {| srow_id := srow_id r; srow_outline_id := srow_outline_id r;
     srow_position := srow_position r; srow_title := srow_title r;
     srow_description := srow_description r;
     srow_instructions := srow_instructions r; srow_content := c |}.

(** The unique key of [outline_sections]. *)
Definition section_key (r : SectionRow) : string * Z := (srow_outline_id r, srow_position r).
Definition data_key (d : SectionData) : string * Z := (sd_outline_id d, sd_position d).

(** ** The store *)

Record Store : Type := mkStore {
  outlines : gmap string OutlineRow;
  outline_sections : gmap string SectionRow;
  next_row : N
}.

Definition empty_store : Store := mkStore ∅ ∅ 0%N.

(** The id the store gives to the [n]-th inserted row. *)
Definition row_id (n : N) : string := "row-" +:+ pretty n.

(** ** Queries *)

(** [table("outlines").insert(data).execute()] *)
Definition insert_outlines (d : OutlineData) : PyM Store (list OutlineRow) :=
  fun st =>
    let r := mkOutlineRow (row_id (next_row st)) d in
    (Ok [r], mkStore (<[orow_id r := r]> (outlines st)) (outline_sections st) (N.succ (next_row st))).

(** The key [k] is used by no row of [secs]. *)
Definition key_free (secs : gmap string SectionRow) (k : string * Z) : Prop :=
  map_Forall (fun _ r => section_key r <> k) secs.

(** A batch keeps the unique constraint. *)
Definition batch_ok (secs : gmap string SectionRow) (ds : list SectionData) : bool :=
  bool_decide (Forall (fun d => key_free secs (data_key d)) ds /\ NoDup (data_key <$> ds)).

Definition insert_section_row (st : Store) (d : SectionData) : Store * SectionRow :=
  let r := section_row_of (row_id (next_row st)) d in
  (mkStore (outlines st) (<[srow_id r := r]> (outline_sections st)) (N.succ (next_row st)), r).

Fixpoint insert_section_rows (st : Store) (ds : list SectionData) : Store * list SectionRow :=
  match ds with
  | [] => (st, [])
  | d :: ds' =>
      let '(st1, r) := insert_section_row st d in
      let '(st2, rs) := insert_section_rows st1 ds' in
      (st2, r :: rs)
  end.

(** [table("outline_sections").insert(rows).execute()] *)
Definition insert_outline_sections (ds : list SectionData) : PyM Store (list SectionRow) :=
  fun st =>
    if batch_ok (outline_sections st) ds
    then let '(st', rs) := insert_section_rows st ds in (Ok rs, st')
    else (Err (APIError "duplicate key value violates unique constraint"), st).

(** [table("outlines").select("*").eq("id", id).execute()]: [id] is the
    primary key. *)
Definition select_outlines_eq_id (id : string) : PyM Store (list OutlineRow) :=
  fun st => (Ok (from_option (fun r => [r]) [] (outlines st !! id)), st).

(** [table("outline_sections").select("*").eq("id", id).execute()] *)
Definition select_sections_eq_id (id : string) : PyM Store (list SectionRow) :=
  fun st => (Ok (from_option (fun r => [r]) [] (outline_sections st !! id)), st).

Definition position_le (r1 r2 : SectionRow) : Prop := (srow_position r1 <= srow_position r2)%Z.

#[export] Instance position_le_dec : RelDecision position_le.
Proof. intros r1 r2. unfold position_le. apply _. Defined.

(** [table("outline_sections").select("*").eq("outline_id", oid).order("position").execute()] *)
Definition select_sections_eq_outline_id_order (oid : string) : PyM Store (list SectionRow) :=
  fun st =>
    (Ok (merge_sort position_le
           (filter (fun r => srow_outline_id r = oid) (snd <$> map_to_list (outline_sections st)))),
     st).

(** [table("outline_sections").update({"content": c, ...}).eq("id", id).execute()] *)
Definition update_sections_content_eq_id (id c : string) : PyM Store (list SectionRow) :=
  fun st =>
    match outline_sections st !! id with
    | Some r =>
        let r' := set_content c r in
        (Ok [r'], mkStore (outlines st) (<[id := r']> (outline_sections st)) (next_row st))
    | None => (Ok [], st)
    end.

(** ** The store invariant *)

Definition id_below (n : N) (k : string) : Prop := exists m, (m < n)%N /\ k = row_id m.

Definition store_wf (st : Store) : Prop :=
  map_Forall (fun k r => orow_id r = k /\ id_below (next_row st) k) (outlines st) /\
  map_Forall (fun k r => srow_id r = k /\ id_below (next_row st) k) (outline_sections st) /\
  (forall k1 k2 r1 r2, outline_sections st !! k1 = Some r1 -> outline_sections st !! k2 = Some r2 ->
     section_key r1 = section_key r2 -> k1 = k2).

(** ** Ids *)

Lemma row_id_inj m n : row_id m = row_id n -> m = n.
Proof. unfold row_id. intros H. simplify_eq. by apply (inj pretty). Qed.

Lemma row_id_truthy n : str_truthy (row_id n) = true.
Proof. reflexivity. Qed.

Lemma id_below_succ n k : id_below n k -> id_below (N.succ n) k.
Proof. intros (m & Hm & ->). exists m. split; [lia | done]. Qed.

Lemma id_below_next n : id_below (N.succ n) (row_id n).
Proof. exists n. split; [lia | done]. Qed.

Lemma row_id_not_below n : ~ id_below n (row_id n).
Proof. intros (m & Hm & Heq). apply row_id_inj in Heq. lia. Qed.

#[export] Hint Resolve id_below_succ id_below_next : pym.

Section Wf.
Context (st : Store) (Hwf : store_wf st).

Lemma wf_outline_key k r : outlines st !! k = Some r -> orow_id r = k.
Proof. intros H. by destruct (proj1 Hwf k r H). Qed.

Lemma wf_section_key k r : outline_sections st !! k = Some r -> srow_id r = k.
Proof. intros H. by destruct (proj1 (proj2 Hwf) k r H). Qed.

Lemma wf_fresh_outline : outlines st !! row_id (next_row st) = None.
Proof.
  destruct (outlines st !! _) as [r|] eqn:E; [|done].
  destruct (proj1 Hwf _ _ E) as [_ Hb]. by apply row_id_not_below in Hb.
Qed.

Lemma wf_fresh_section : outline_sections st !! row_id (next_row st) = None.
Proof.
  destruct (outline_sections st !! _) as [r|] eqn:E; [|done].
  destruct (proj1 (proj2 Hwf) _ _ E) as [_ Hb]. by apply row_id_not_below in Hb.
Qed.

Lemma wf_section_unique k1 k2 r1 r2 :
  outline_sections st !! k1 = Some r1 -> outline_sections st !! k2 = Some r2 ->
  section_key r1 = section_key r2 -> k1 = k2.
Proof. apply (proj2 (proj2 Hwf)). Qed.
End Wf.

(** ** The queries preserve the invariant *)

Lemma map_Forall_id_below_succ {V} (P : string -> V -> Prop) (m : gmap string V) n :
  map_Forall (fun k r => P k r /\ id_below n k) m ->
  map_Forall (fun k r => P k r /\ id_below (N.succ n) k) m.
Proof. intros H. eapply map_Forall_impl; [exact H|]. intros k r [? ?]. eauto with pym. Qed.

Lemma insert_outlines_wf d : preserves store_wf (insert_outlines d).
Proof.
  intros st (Ho & Hs & Hu). simpl. split; [|split]; simpl.
  - apply map_Forall_insert_2; [eauto with pym | by apply map_Forall_id_below_succ].
  - by apply map_Forall_id_below_succ.
  - exact Hu.
Qed.

Lemma key_free_insert secs id r k :
  key_free secs k -> section_key r <> k -> key_free (<[id := r]> secs) k.
Proof. intros H Hr. by apply map_Forall_insert_2. Qed.

Lemma key_free_insert_inv secs id r k :
  secs !! id = None -> key_free (<[id := r]> secs) k -> key_free secs k.
Proof.
  intros Hn H j r' Hj. apply (H j r'). rewrite lookup_insert_ne; [done|]. congruence.
Qed.

Lemma insert_section_row_wf st d :
  store_wf st -> key_free (outline_sections st) (data_key d) ->
  store_wf (fst (insert_section_row st d)).
Proof.
  intros Hwf Hfree. pose proof Hwf as (Ho & Hs & Hu). simpl.
  split; [|split]; simpl.
  - by apply map_Forall_id_below_succ.
  - apply map_Forall_insert_2; [eauto with pym | by apply map_Forall_id_below_succ].
  - intros k1 k2 r1 r2 H1 H2 Hk.
    apply lookup_insert_Some in H1 as [[<- <-]|[N1 H1]];
    apply lookup_insert_Some in H2 as [[<- <-]|[N2 H2]]; [done | | | by eauto].
    + exfalso. apply (Hfree k2 r2 H2). by rewrite <- Hk.
    + exfalso. apply (Hfree k1 r1 H1). by rewrite Hk.
Qed.

Lemma insert_section_rows_cons st d ds :
  insert_section_rows st (d :: ds) =
  (fst (insert_section_rows (fst (insert_section_row st d)) ds),
   snd (insert_section_row st d) :: snd (insert_section_rows (fst (insert_section_row st d)) ds)).
Proof. simpl. by destruct (insert_section_rows _ ds). Qed.

Lemma insert_section_rows_wf st ds :
  store_wf st -> Forall (fun d => key_free (outline_sections st) (data_key d)) ds ->
  NoDup (data_key <$> ds) -> store_wf (fst (insert_section_rows st ds)).
Proof.
  revert st. induction ds as [|d ds IH]; intros st Hwf Hfree Hnd; [done|].
  rewrite insert_section_rows_cons. inversion Hfree as [|? ? Hd Hds]; subst.
  rewrite fmap_cons in Hnd. apply NoDup_cons in Hnd as [Hnin Hnd].
  apply IH; [by apply insert_section_row_wf | | done].
  apply Forall_forall. intros d' Hin. simpl. apply key_free_insert.
  - by apply (proj1 (Forall_forall _ _) Hds).
  - change (section_key (section_row_of (row_id (next_row st)) d)) with (data_key d).
    intros Heq. apply Hnin. rewrite Heq. apply list_elem_of_fmap. by exists d'.
Qed.

Lemma insert_outline_sections_wf ds : preserves store_wf (insert_outline_sections ds).
Proof.
  intros st Hwf. unfold insert_outline_sections.
  destruct (batch_ok _ ds) eqn:B; [|done].
  apply bool_decide_eq_true in B as [Hfree Hnd].
  pose proof (insert_section_rows_wf st ds Hwf Hfree Hnd).
  by destruct (insert_section_rows st ds).
Qed.

Lemma update_sections_content_eq_id_wf id c : preserves store_wf (update_sections_content_eq_id id c).
Proof.
  intros st Hwf. pose proof Hwf as (Ho & Hs & Hu). unfold update_sections_content_eq_id.
  destruct (outline_sections st !! id) as [r|] eqn:E; [|done].
  split; [|split]; simpl; [done| |].
  - apply map_Forall_insert_2; [exact (Hs id r E)|done].
  - intros k1 k2 r1 r2 H1 H2 Hk.
    apply lookup_insert_Some in H1 as [[<- <-]|[N1 H1]];
    apply lookup_insert_Some in H2 as [[<- <-]|[N2 H2]]; [done| | |by eauto];
    eapply Hu; eauto.
Qed.

Lemma select_outlines_eq_id_wf id : preserves store_wf (select_outlines_eq_id id).
Proof. by intros st. Qed.

Lemma select_sections_eq_id_wf id : preserves store_wf (select_sections_eq_id id).
Proof. by intros st. Qed.

Lemma select_sections_eq_outline_id_order_wf oid :
  preserves store_wf (select_sections_eq_outline_id_order oid).
Proof. by intros st. Qed.

#[export] Hint Resolve insert_outlines_wf insert_outline_sections_wf
  update_sections_content_eq_id_wf select_outlines_eq_id_wf select_sections_eq_id_wf
  select_sections_eq_outline_id_order_wf : pym.

(** ** The store after a batch insert *)

Lemma insert_section_rows_outlines st ds : outlines (fst (insert_section_rows st ds)) = outlines st.
Proof. revert st. induction ds as [|d ds IH]; intros st; [done|]. rewrite insert_section_rows_cons. cbn [fst]. by rewrite IH. Qed.

Lemma insert_section_rows_next st ds :
  next_row (fst (insert_section_rows st ds)) = (next_row st + N.of_nat (length ds))%N.
Proof.
  revert st. induction ds as [|d ds IH]; intros st; [simpl; lia|].
  rewrite insert_section_rows_cons. cbn [fst]. rewrite IH. simpl. lia.
Qed.

(** Row [i] of the batch gets the id [row_id (next_row st + i)]; every
    other row is an old one. *)
Lemma insert_section_rows_lookup st ds k r :
  outline_sections (fst (insert_section_rows st ds)) !! k = Some r <->
  (exists i d, ds !! i = Some d /\ k = row_id (next_row st + N.of_nat i) /\ r = section_row_of k d) \/
  (outline_sections st !! k = Some r /\ forall i, i < length ds -> k <> row_id (next_row st + N.of_nat i)).
Proof.
  revert st. induction ds as [|d ds IH]; intros st.
  - simpl. split; [intros H; right; split; [done | intros i Hi; lia] | intros [(i & d & Hi & _)|[H _]]; done].
  - rewrite insert_section_rows_cons. cbn [fst]. rewrite IH. simpl. rewrite lookup_insert_Some. split.
    + intros [(i & d' & Hi & -> & ->)|[[[<- <-]|[Hne Hk]] Hnot]].
      * left. exists (S i), d'. split; [done|]. split; [f_equal; lia | done].
      * left. exists 0, d. split; [done|]. split; [f_equal; lia | done].
      * right. split; [done|]. intros [|i] Hi; [intros ->; apply Hne; f_equal; lia|].
        intros ->. apply (Hnot i); [lia|]. f_equal. lia.
    + intros [([|i] & d' & Hi & -> & ->)|[Hk Hnot]].
      * simpl in Hi. injection Hi as <-. cbn [N.of_nat]. rewrite N.add_0_r.
        right. split; [by left|].
        intros i Hi Heq. apply row_id_inj in Heq. lia.
      * left. exists i, d'. split; [done|]. split; [f_equal; lia | done].
      * right. split.
        -- right. split; [|done]. intros Heq. apply (Hnot 0); [lia|]. rewrite <- Heq. f_equal. lia.
        -- intros i Hi Heq. apply (Hnot (S i)); [lia|]. rewrite Heq. f_equal. lia.
Qed.

(** The returned rows are the batch with its ids. *)
Lemma insert_section_rows_result st ds i :
  snd (insert_section_rows st ds) !! i =
  (fun d => section_row_of (row_id (next_row st + N.of_nat i)) d) <$> ds !! i.
Proof.
  revert st i. induction ds as [|d ds IH]; intros st i; [done|].
  rewrite insert_section_rows_cons. destruct i as [|i]; simpl.
  - f_equal. f_equal. f_equal. lia.
  - rewrite IH. simpl. do 3 f_equal. lia.
Qed.

(** Every section row belongs to a stored outline.  The database does
    not enforce it; the service keeps it by inserting an outline before
    its sections. *)
Definition sections_reference_outlines (st : Store) : Prop :=
  map_Forall (fun _ r => is_Some (outlines st !! srow_outline_id r)) (outline_sections st).

Definition store_inv (st : Store) : Prop := store_wf st /\ sections_reference_outlines st.

Lemma key_free_fresh_outline st oid p :
  sections_reference_outlines st -> outlines st !! oid = None ->
  key_free (outline_sections st) (oid, p).
Proof.
  intros Hrefs Hnone k r Hr Heq. destruct (Hrefs k r Hr) as [o Ho].
  unfold section_key in Heq. simplify_eq.
Qed.

Lemma insert_outlines_inv d : preserves store_inv (insert_outlines d).
Proof.
  intros st [Hwf Hrefs]. split; [by apply insert_outlines_wf|].
  intros k r Hk. simpl in *. rewrite lookup_insert_is_Some'. right. exact (Hrefs k r Hk).
Qed.

Lemma update_sections_content_eq_id_inv id c : preserves store_inv (update_sections_content_eq_id id c).
Proof.
  intros st [Hwf Hrefs]. split; [by apply update_sections_content_eq_id_wf|].
  unfold update_sections_content_eq_id.
  destruct (outline_sections st !! id) as [r|] eqn:E; [|done].
  intros k r' Hk. cbn in Hk |- *. apply lookup_insert_Some in Hk as [[<- <-]|[_ Hk]].
  - exact (Hrefs id r E).
  - exact (Hrefs k r' Hk).
Qed.

(** The selects change nothing. *)
Lemma select_outlines_eq_id_pres (P : Store -> Prop) id : preserves P (select_outlines_eq_id id).
Proof. by intros st. Qed.

Lemma select_sections_eq_id_pres (P : Store -> Prop) id : preserves P (select_sections_eq_id id).
Proof. by intros st. Qed.

Lemma select_sections_eq_outline_id_order_pres (P : Store -> Prop) oid :
  preserves P (select_sections_eq_outline_id_order oid).
Proof. by intros st. Qed.

#[export] Hint Resolve insert_outlines_inv update_sections_content_eq_id_inv
  select_outlines_eq_id_pres select_sections_eq_id_pres select_sections_eq_outline_id_order_pres : pym.

(** ** The rows of one outline, ordered by position *)

Definition outline_rows (st : Store) (oid : string) : list SectionRow :=
  filter (fun r => srow_outline_id r = oid) (snd <$> map_to_list (outline_sections st)).

Lemma select_sections_eq_outline_id_order_run oid st :
  select_sections_eq_outline_id_order oid st =
  (Ok (merge_sort position_le (outline_rows st oid)), st).
Proof. reflexivity. Qed.

Lemma elem_of_outline_rows st oid r :
  r ∈ outline_rows st oid <-> srow_outline_id r = oid /\ exists k, outline_sections st !! k = Some r.
Proof.
  unfold outline_rows. rewrite list_elem_of_filter, list_elem_of_fmap. split.
  - intros [Ho ([k r'] & -> & Hin)]. split; [done|]. exists k. by apply elem_of_map_to_list.
  - intros [Ho [k Hk]]. split; [done|]. exists (k, r). split; [done|]. by apply elem_of_map_to_list.
Qed.

(** Within one outline the unique constraint makes positions distinct. *)
Lemma outline_rows_positions_NoDup st oid :
  store_wf st -> NoDup (srow_position <$> outline_rows st oid).
Proof.
  intros Hwf. apply NoDup_fmap_2_strong.
  - intros x y (Hx & kx & Hkx)%elem_of_outline_rows (Hy & ky & Hky)%elem_of_outline_rows Hp.
    assert (kx = ky) as ->; [|congruence].
    apply (wf_section_unique st Hwf kx ky x y Hkx Hky). unfold section_key. congruence.
  - apply NoDup_filter, (NoDup_fmap_1 srow_id). rewrite <- list_fmap_compose.
    rewrite (list_fmap_ext (srow_id ∘ snd) fst); [apply NoDup_fst_map_to_list|].
    intros i [k r] Hi. apply list_elem_of_lookup_2, elem_of_map_to_list in Hi.
    by apply (wf_section_key st Hwf).
Qed.
