(* ===== verification/Repository.v ===== *)
(** * Repository: [ContentRepository] (src/server/repository/content.py)

    Each static method is a computation of [PyM Store]: it issues one
    Supabase query and checks the returned data the way the source
    does ([if not response.data: raise ValueError(...)]).  The lemmas
    give the result of each method on every branch and show that each
    preserves [store_wf]. *)

From S2P Require Import Prelude.
From S2P Require Import Models.
From S2P Require Import Supabase.

(** [create_outline(outline_data)] *)
Definition create_outline (outline_data : OutlineData) : PyM Store OutlineRow :=
  let* data := insert_outlines outline_data in
  match data with
  | [] => raise (ValueError "Failed to create outline in database")
  | r :: _ => ret r
  end.

(** [get_outline(outline_id)] *)
Definition get_outline (outline_id : string) : PyM Store OutlineRow :=
  let* data := select_outlines_eq_id outline_id in
  match data with
  | [] => raise (ValueError ("Outline with ID " ++ outline_id ++ " not found"))
  | r :: _ => ret r
  end.

(** [create_outline_sections(outline_sections)] *)
Definition create_outline_sections (sections_data : list SectionData) : PyM Store (list SectionRow) :=
  match sections_data with
  | [] => ret []
  | _ :: _ =>
      let* data := insert_outline_sections sections_data in
      match data with
      | [] => raise (ValueError "Failed to create outline sections in database")
      | _ :: _ => ret data
      end
  end.

(** [update_section_content(section_id, content)] *)
Definition update_section_content (section_id content : string) : PyM Store SectionRow :=
  let* data := update_sections_content_eq_id section_id content in
  match data with
  | [] => raise (ValueError ("Failed to update content for section " ++ section_id))
  | r :: _ => ret r
  end.

(** [get_outline_sections(outline_id)]: [response.data or []]. *)
Definition get_outline_sections (outline_id : string) : PyM Store (list SectionRow) :=
  let* data := select_sections_eq_outline_id_order outline_id in
  ret data.

(** [get_outline_section(section_id)]: the first row, or [None]. *)
Definition get_outline_section (section_id : string) : PyM Store (option SectionRow) :=
  let* data := select_sections_eq_id section_id in
  ret (head data).

(** ** Behaviour of each method *)

Lemma create_outline_run d st :
  create_outline d st =
  (Ok (mkOutlineRow (row_id (next_row st)) d),
   mkStore (<[row_id (next_row st) := mkOutlineRow (row_id (next_row st)) d]> (outlines st))
           (outline_sections st) (N.succ (next_row st))).
Proof. reflexivity. Qed.

Lemma get_outline_found oid st r :
  outlines st !! oid = Some r -> get_outline oid st = (Ok r, st).
Proof. intros H. unfold get_outline, bind, select_outlines_eq_id. by rewrite H. Qed.

Lemma get_outline_missing oid st :
  outlines st !! oid = None ->
  get_outline oid st = (Err (ValueError ("Outline with ID " ++ oid ++ " not found")), st).
Proof. intros H. unfold get_outline, bind, select_outlines_eq_id. by rewrite H. Qed.

Lemma create_outline_sections_nil st : create_outline_sections [] st = (Ok [], st).
Proof. reflexivity. Qed.

Lemma create_outline_sections_rejected ds st :
  batch_ok (outline_sections st) ds = false -> ds <> [] ->
  create_outline_sections ds st =
  (Err (APIError "duplicate key value violates unique constraint"), st).
Proof.
  intros B Hne. destruct ds as [|d ds]; [done|].
  unfold create_outline_sections, bind, insert_outline_sections. by rewrite B.
Qed.

Lemma insert_section_rows_length st ds : length (snd (insert_section_rows st ds)) = length ds.
Proof.
  revert st. induction ds as [|d ds IH]; intros st; [done|].
  rewrite insert_section_rows_cons. simpl. by rewrite IH.
Qed.

Lemma create_outline_sections_accepted ds st :
  batch_ok (outline_sections st) ds = true ->
  create_outline_sections ds st =
  (Ok (snd (insert_section_rows st ds)), fst (insert_section_rows st ds)).
Proof.
  intros B. destruct ds as [|d ds]; [done|].
  unfold create_outline_sections, bind, insert_outline_sections. rewrite B.
  pose proof (insert_section_rows_length st (d :: ds)) as Hl.
  destruct (insert_section_rows st (d :: ds)) as [st' [|r rs]]; simpl in *; done.
Qed.

Lemma update_section_content_found sid c st r :
  outline_sections st !! sid = Some r ->
  update_section_content sid c st =
  (Ok (set_content c r),
   mkStore (outlines st) (<[sid := set_content c r]> (outline_sections st)) (next_row st)).
Proof. intros H. unfold update_section_content, bind, update_sections_content_eq_id. by rewrite H. Qed.

Lemma update_section_content_missing sid c st :
  outline_sections st !! sid = None ->
  update_section_content sid c st =
  (Err (ValueError ("Failed to update content for section " ++ sid)), st).
Proof. intros H. unfold update_section_content, bind, update_sections_content_eq_id. by rewrite H. Qed.

Lemma get_outline_section_run sid st :
  get_outline_section sid st = (Ok (outline_sections st !! sid), st).
Proof.
  unfold get_outline_section, bind, select_sections_eq_id.
  by destruct (outline_sections st !! sid).
Qed.

(** ** Every method preserves the store invariant *)

Lemma create_outline_wf d : preserves store_wf (create_outline d).
Proof. unfold create_outline. solve_preserves. Qed.

Lemma get_outline_wf oid : preserves store_wf (get_outline oid).
Proof. unfold get_outline. solve_preserves. Qed.

Lemma create_outline_sections_wf ds : preserves store_wf (create_outline_sections ds).
Proof. unfold create_outline_sections. solve_preserves. Qed.

Lemma update_section_content_wf sid c : preserves store_wf (update_section_content sid c).
Proof. unfold update_section_content. solve_preserves. Qed.

Lemma get_outline_sections_wf oid : preserves store_wf (get_outline_sections oid).
Proof. unfold get_outline_sections. solve_preserves. Qed.

Lemma get_outline_section_wf sid : preserves store_wf (get_outline_section sid).
Proof. unfold get_outline_section. solve_preserves. Qed.

#[export] Hint Resolve create_outline_wf get_outline_wf create_outline_sections_wf
  update_section_content_wf get_outline_sections_wf get_outline_section_wf : pym.

(** ** The methods other than [create_outline_sections] keep every
    section row pointing at a stored outline *)

Lemma create_outline_inv d : preserves store_inv (create_outline d).
Proof. unfold create_outline. solve_preserves. Qed.

Lemma get_outline_inv oid : preserves store_inv (get_outline oid).
Proof. unfold get_outline. solve_preserves. Qed.

Lemma update_section_content_inv sid c : preserves store_inv (update_section_content sid c).
Proof. unfold update_section_content. solve_preserves. Qed.

Lemma get_outline_sections_inv oid : preserves store_inv (get_outline_sections oid).
Proof. unfold get_outline_sections. solve_preserves. Qed.

Lemma get_outline_section_inv sid : preserves store_inv (get_outline_section sid).
Proof. unfold get_outline_section. solve_preserves. Qed.

#[export] Hint Resolve create_outline_inv get_outline_inv update_section_content_inv
  get_outline_sections_inv get_outline_section_inv : pym.

(** ** Last write wins *)

(** C18: two updates of the same section, one after the other: a read
    of the section afterwards returns the row with the second content
    (there is no version check; the first content is lost). *)
Theorem update_section_content_last_write_wins sid c1 c2 st r :
  outline_sections st !! sid = Some r ->
  let st2 := snd (update_section_content sid c2 (snd (update_section_content sid c1 st))) in
  fst (get_outline_section sid st2) = Ok (Some (set_content c2 r)).
Proof.
  intros Hr st2. subst st2. rewrite (update_section_content_found _ _ _ _ Hr). cbn [snd].
  rewrite (update_section_content_found sid c2 _ (set_content c1 r)) by (cbn; apply lookup_insert_eq).
  cbn [snd]. rewrite get_outline_section_run. cbn [fst outline_sections]. by rewrite lookup_insert_eq.
Qed.

Lemma update_section_content_last_write_wins_witness :
  fst (get_outline_section "s1"
         (snd (update_section_content "s1" "second"
                 (snd (update_section_content "s1" "first"
                         (mkStore ∅ {["s1" := mkSectionRow "s1" "o1" 0 "t" "d" "i" ""]} 1%N)))))) =
  Ok (Some (set_content "second" (mkSectionRow "s1" "o1" 0 "t" "d" "i" ""))).
Proof. apply update_section_content_last_write_wins. cbn [outline_sections]. by rewrite lookup_singleton_eq. Defined.
