(* ===== verification/Prompts.v ===== *)
(** * Prompts: the pure parts of prompt construction
    (src/server/service/content.py)

    The two chains of the service fill a prompt template from a dict of
    variables; the template text is a constant, so a prompt is determined
    by its variables, which are modelled as the records
    [OutlinePromptVars] (lines 55-60) and [SectionPromptVars]
    (lines 195-203).  This file also holds the section count of the
    outline draft, [clean_section], the 1000-character truncation and
    the previous-content instruction, with their bounds. *)

From S2P Require Import Prelude.
From S2P Require Import Models.

(** ** Outline drafting *)

(** [max(1, int(input.word_count / 700))] *)
Definition sections_count (word_count : Z) : Z := Z.max 1 (Z.quot word_count 700).

(** The variables of the outline chain. *)
Record OutlinePromptVars : Type := mkOutlinePromptVars {
  opv_context : string;
  opv_script_title : string;
  opv_audience : string;
  opv_sections_count : Z
}.

Definition outline_prompt_vars (inp : GenerateOutlineInput) (count : Z) : OutlinePromptVars :=
  {| opv_context := goi_additional_data inp;
     opv_script_title := goi_script_title inp;
     opv_audience := goi_audience inp;
     opv_sections_count := count |}.

(** ** Section content *)

(** [section.model_dump()] without [id] and [outline_id]. *)
Record CleanSection : Type := mkCleanSection {
  cs_position : Z;
  cs_title : string;
  cs_description : string;
  cs_instructions : string
}.

(** [clean_section(section)]: a pydantic model is always truthy, so a
    section is always dumped; [None] stays [None]. *)
Definition clean_section (section : option OutlineSection) : option CleanSection :=
  match section with
  | Some s => Some {| cs_position := sec_position s; cs_title := sec_title s;
                      cs_description := sec_description s;
                      cs_instructions := sec_instructions s |}
  | None => None
  end.

(** [previous_content[:1000] + "..."] when [len(previous_content) > 1000]. *)
Definition truncate_previous_content (previous_content : string) : string :=
  if Nat.ltb 1000 (py_len previous_content)
  then py_slice_upto 1000 previous_content ++ "..."
  else previous_content.

Definition newline : string := String "010"%char EmptyString.
Definition indent16 : string := "                ".

(** The text of the f-string around [{previous_content}]. *)
Definition instruction_head : string :=
  newline ++ indent16 ++
  "Here is the content from the previous section. DO NOT REPEAT phrases, examples, or sentence structures from this:"
  ++ newline ++ indent16 ++ newline ++ indent16.

Definition instruction_tail : string :=
  newline ++ indent16 ++ newline ++ indent16 ++
  "Your content should be completely different in wording and examples while maintaining narrative coherence."
  ++ newline ++ indent16.

(** [previous_content_instruction], lines 181-193. *)
Definition previous_content_instruction (previous_content : string) : string :=
  if str_truthy previous_content
  then instruction_head ++ truncate_previous_content previous_content ++ instruction_tail
  else "".

(** The variables of the section chain. *)
Record SectionPromptVars : Type := mkSectionPromptVars {
  spv_current_section : option CleanSection;
  spv_script_title : string;
  spv_previous_section : option CleanSection;
  spv_next_section : option CleanSection;
  spv_n_person_view : string;
  spv_excluded_words : string;
  spv_previous_content_instruction : string
}.

(** The dict of lines 195-203. *)
Definition section_prompt_vars (inp : GenerateOutlineSectionContentInput) (instruction : string)
    : SectionPromptVars :=
  {| spv_current_section := clean_section (Some (gci_current_section inp));
     spv_script_title := gci_script_title inp;
     spv_previous_section := clean_section (gci_previous_section inp);
     spv_next_section := clean_section (gci_next_section inp);
     spv_n_person_view := gci_n_person_view inp;
     spv_excluded_words := gci_excluded_words inp;
     spv_previous_content_instruction := instruction |}.

(** ** The section count *)

(** The formula of the spec (section 4.1): [max(1, round(W / 700))] with
    Python's [round] (half to even), for [W >= 0]. *)
Definition spec_sections_count (w : Z) : Z :=
  (let q := w / 700 in
   let r := w mod 700 in
   Z.max 1 (if 2 * r <? 700 then q
            else if 700 <? 2 * r then q + 1
            else if Z.even q then q else q + 1))%Z.

Lemma quot_700_nonneg w : (0 <= w)%Z -> Z.quot w 700 = (w / 700)%Z.
Proof. intros Hw. apply Z.quot_div_nonneg; lia. Qed.

(** The drafted outline always asks for at least one section. *)
Theorem sections_count_pos w : (1 <= sections_count w)%Z.
Proof. unfold sections_count. lia. Qed.

(** C15: for a non-negative word count [w], the section count is
    [w / 700] rounded down, and 1 below 700 words:
    [700 * n <= max(700, w) < 700 * (n + 1)]. *)
Theorem sections_count_floor w :
  (0 <= w)%Z ->
  (700 * sections_count w <= Z.max 700 w < 700 * sections_count w + 700)%Z.
Proof.
  intros Hw. unfold sections_count. rewrite quot_700_nonneg by done.
  pose proof (Z.div_mod w 700 ltac:(lia)). pose proof (Z.mod_pos_bound w 700 ltac:(lia)).
  destruct (Z.le_gt_cases 700 w).
  - assert (1 <= w / 700)%Z by (apply Z.div_le_lower_bound; lia). lia.
  - rewrite (Z.div_small w 700) by lia. lia.
Qed.

(** C16: the code truncates where the spec rounds: when the remainder of
    [w / 700] is more than half of 700, the code asks for one section
    fewer than the spec's formula. *)
Theorem sections_count_below_spec w :
  (700 <= w)%Z -> (350 < w mod 700)%Z -> spec_sections_count w = (sections_count w + 1)%Z.
Proof.
  intros Hw Hr. unfold spec_sections_count, sections_count.
  rewrite quot_700_nonneg by lia.
  assert (1 <= w / 700)%Z by (apply Z.div_le_lower_bound; lia).
  destruct (Z.ltb_spec (2 * (w mod 700)) 700); [lia|].
  destruct (Z.ltb_spec 700 (2 * (w mod 700))); lia.
Qed.

(** ** Truncation of the previous content *)

Lemma truncate_short c : py_len c <= 1000 -> truncate_previous_content c = c.
Proof.
  intros H. unfold truncate_previous_content.
  destruct (Nat.ltb_spec 1000 (py_len c)); [lia | done].
Qed.

Lemma truncate_long c :
  1000 < py_len c -> truncate_previous_content c = py_slice_upto 1000 c ++ "...".
Proof.
  intros H. unfold truncate_previous_content.
  destruct (Nat.ltb_spec 1000 (py_len c)); [done | lia].
Qed.

Lemma truncate_long_length c : 1000 < py_len c -> py_len (truncate_previous_content c) = 1003.
Proof. intros H. rewrite (truncate_long c H). autorewrite with pystr. change (py_len "...") with 3. lia. Qed.

(** C13: content longer than 1000 characters is cut to its first 1000
    characters followed by "...", 1003 characters in all (the spec says
    "at most 1000 characters"). *)
Theorem truncate_previous_content_long c :
  1000 < py_len c ->
  py_len (truncate_previous_content c) = 1003 /\
  exists rest, c = py_slice_upto 1000 c ++ rest /\
               truncate_previous_content c = py_slice_upto 1000 c ++ "...".
Proof.
  intros H. split; [by apply truncate_long_length|].
  rewrite (truncate_long c H). destruct (py_slice_upto_prefix 1000 c) as [rest Hr]. by exists rest.
Qed.

(** Whatever the previous content, at most 1003 characters of it
    reach the prompt, and content of at most 1000 characters is kept
    whole. *)
Theorem truncate_previous_content_bound c :
  py_len (truncate_previous_content c) <= 1003 /\
  (py_len c <= 1000 -> truncate_previous_content c = c).
Proof.
  split; [|apply truncate_short].
  destruct (Nat.le_gt_cases (py_len c) 1000) as [H|H].
  - rewrite truncate_short by done. lia.
  - by rewrite truncate_long_length.
Qed.

(** ** The previous-content instruction *)

Lemma previous_content_instruction_empty : previous_content_instruction "" = "".
Proof. reflexivity. Qed.

Lemma previous_content_instruction_nonempty c :
  c <> "" ->
  previous_content_instruction c = instruction_head ++ truncate_previous_content c ++ instruction_tail.
Proof. intros H. unfold previous_content_instruction. by destruct c. Qed.

(** [clean_section] forgets the two identifiers. *)
Lemma clean_section_ids s i o :
  clean_section (Some s) =
  clean_section (Some (mkOutlineSection i o (sec_position s) (sec_title s) (sec_description s)
                                        (sec_instructions s))).
Proof. reflexivity. Qed.

(** ** Concrete runs *)

Fixpoint str_repeat (n : nat) (c : ascii) : string :=
  match n with 0 => EmptyString | S n => String c (str_repeat n c) end.

Lemma sections_count_floor_witness :
  (700 * sections_count 2100 <= Z.max 700 2100 < 700 * sections_count 2100 + 700)%Z.
Proof. apply sections_count_floor. lia. Defined.

Lemma sections_count_below_spec_witness : spec_sections_count 1399 = (sections_count 1399 + 1)%Z.
Proof. apply sections_count_below_spec; [lia | reflexivity]. Defined.

Lemma truncate_previous_content_long_witness :
  py_len (truncate_previous_content (str_repeat 1001 "a")) = 1003.
Proof. apply (truncate_previous_content_long (str_repeat 1001 "a")). vm_compute. lia. Defined.

Lemma truncate_previous_content_bound_witness :
  truncate_previous_content (str_repeat 1000 "a") = str_repeat 1000 "a".
Proof. apply (truncate_previous_content_bound (str_repeat 1000 "a")). vm_compute. lia. Defined.

(** The examples of the spec (section 8): 2100 words give 3 sections,
    300 and 699 give 1, 1401 gives 2; and 1050 words, which the spec's
    rounding makes 2 sections, give 1. *)
Example sections_count_examples :
  sections_count 2100 = 3%Z /\ sections_count 300 = 1%Z /\ sections_count 699 = 1%Z /\
  sections_count 1401 = 2%Z /\ sections_count 1050 = 1%Z /\ spec_sections_count 1050 = 2%Z.
Proof. vm_compute. repeat split. Qed.
