(* ===== verification/Service.v ===== *)
(** * Service: [ContentService] (src/server/service/content.py)

    The service runs in [PyM World]: a world is the Supabase store and
    the trace of what the service did that is not a database write,
    namely the language-model calls (with the model name and the prompt
    variables) and the log lines.  The language model is a
    [ChatModel]: for each call, a function of the model name, the prompt
    variables and the trace so far, so one model may answer the same
    prompt differently at different times; nothing is assumed of it.

    [BackgroundTasks] is the list of tasks the request handler queues;
    the only task the code queues is [generate_remaining_sections]. *)

From S2P Require Import Prelude.
From S2P Require Import Models.
From S2P Require Import Supabase.
From S2P Require Import Repository.
From S2P Require Import Prompts.

Inductive Event : Type :=
| EvModelOutline (model : string) (vars : OutlinePromptVars)
| EvModelSection (model : string) (vars : SectionPromptVars)
| EvLogError (msg : string)
| EvLogInfo (msg : string).

Record World : Type := mkWorld {
  store : Store;
  trace : list Event
}.

(** [ChatOpenAI(model=..., temperature=0.0).with_structured_output(...)]
    followed by [chain.invoke({})]. *)
Record ChatModel : Type := mkChatModel {
  outline_output : string -> OutlinePromptVars -> list Event -> res Outline;
  section_output : string -> SectionPromptVars -> list Event -> res GenerateOutlineSectionContentOutput
}.

(** A queued background task: [background_tasks.add_task(
    ContentService.generate_remaining_sections, input=..., start_index=...)]. *)
Inductive BackgroundTask (I : Type) : Type :=
| GenerateRemainingSections (input : I) (start_index : nat).
Arguments GenerateRemainingSections {I} input start_index.

(** ** World operations *)

Definition emit (e : Event) : PyM World unit :=
  fun w => (Ok tt, mkWorld (store w) (trace w ++ [e])).

(** A repository call. *)
Definition db {A} (m : PyM Store A) : PyM World A :=
  fun w => let '(r, st') := m (store w) in (r, mkWorld st' (trace w)).

(** [except Exception as e: logger.error(f"{what}: {str(e)}"); raise] *)
Definition log_and_reraise {A} (what : string) (m : PyM World A) : PyM World A :=
  try_except m (fun e => bind (emit (EvLogError (what ++ ": " ++ exc_str e))) (fun _ => raise e)).

Section Service.
Context (llm : ChatModel).

Definition invoke_outline (model : string) (vars : OutlinePromptVars) : PyM World Outline :=
  fun w => (outline_output llm model vars (trace w),
            mkWorld (store w) (trace w ++ [EvModelOutline model vars])).

Definition invoke_section (model : string) (vars : SectionPromptVars)
    : PyM World GenerateOutlineSectionContentOutput :=
  fun w => (section_output llm model vars (trace w),
            mkWorld (store w) (trace w ++ [EvModelSection model vars])).

(** [generate_outline_draft(input)], lines 19-67. *)
Definition generate_outline_draft (input : GenerateOutlineInput) : PyM World Outline :=
  log_and_reraise "Error generating outline draft"
    (let count := sections_count (goi_word_count input) in
     invoke_outline (goi_model input) (outline_prompt_vars input count)).

Definition outline_data_of (input : SaveOutlineInput) : OutlineData :=
  {| od_script_title := soi_script_title input; od_word_count := soi_word_count input;
     od_language := soi_language input; od_audience := soi_audience input;
     od_style := soi_style input; od_tone := soi_tone input; od_model := soi_model input;
     od_additional_data := soi_additional_data input |}.

Definition section_data_of (outline_id : string) (section : OutlineSection) : SectionData :=
  {| sd_outline_id := outline_id; sd_position := sec_position section;
     sd_title := sec_title section; sd_description := sec_description section;
     sd_instructions := sec_instructions section; sd_content := "" |}.

(** [save_outline(input)], lines 69-116. *)
Definition save_outline (input : SaveOutlineInput) : PyM World string :=
  log_and_reraise "Error saving outline"
    (let* stored_outline := db (create_outline (outline_data_of input)) in
     let outline_id := orow_id stored_outline in
     let outline_sections := section_data_of outline_id <$> soi_sections input in
     let* _ := db (create_outline_sections outline_sections) in
     ret outline_id).

(** Lines 135-140: the stored content of the previous section. *)
Definition previous_section_content (previous_section : option OutlineSection) : PyM World string :=
  match previous_section with
  | Some p =>
      match sec_id p with
      | Some pid =>
          if str_truthy pid then
            let* previous_section_data := db (get_outline_section pid) in
            ret (match previous_section_data with
                 | Some r => if str_truthy (srow_content r) then srow_content r else ""
                 | None => ""
                 end)
          else ret ""
      | None => ret ""
      end
  | None => ret ""
  end.

(** [generate_outline_section_content(input)], lines 118-214. *)
Definition generate_outline_section_content (input : GenerateOutlineSectionContentInput)
    : PyM World GenerateOutlineSectionContentOutput :=
  log_and_reraise "Error generating section content"
    (let* previous_content := previous_section_content (gci_previous_section input) in
     let instruction := previous_content_instruction previous_content in
     let* content_output := invoke_section (gci_model input) (section_prompt_vars input instruction) in
     let* _ := (if str_truthy (gci_section_id input)
                then bind (db (update_section_content (gci_section_id input) (gco_content content_output)))
                          (fun _ => ret tt)
                else ret tt) in
     ret content_output).

Context {I : Type} `{ScriptInput I}.

(** [GenerateOutlineSectionContentInput(section_id=section.id, ...)] as
    the driver builds it: the attributes of [input] are read in the
    order of the keyword arguments, then pydantic validates. *)
Definition section_content_input (input : I) (section : OutlineSection)
    (previous_section next_section : option OutlineSection) : res GenerateOutlineSectionContentInput :=
  let? script_title := script_attr input attr_script_title in
  let? context := script_attr input attr_context in
  let? n_person_view := script_attr input attr_n_person_view in
  let? excluded_words := script_attr input attr_excluded_words in
  let? model := script_attr input attr_model in
  validate_section_content_input (sec_id section) section previous_section next_section
    script_title context n_person_view excluded_words model.

(** The body of the loop of [generate_remaining_sections], lines 227-243. *)
Definition remaining_section_step (input : I) (index : nat) : PyM World unit :=
  let sections := ol_sections (script_outline input) in
  let* section := lift_res (py_index sections index) in
  let* previous_section :=
    (if Nat.ltb 0 index then bind (lift_res (py_index sections (index - 1))) (fun p => ret (Some p))
     else ret None) in
  let* next_section :=
    (if Nat.ltb index (length sections - 1)
     then bind (lift_res (py_index sections (index + 1))) (fun n => ret (Some n))
     else ret None) in
  let* content_input := lift_res (section_content_input input section previous_section next_section) in
  let* _ := generate_outline_section_content content_input in
  emit (EvLogInfo ("Generated content for section " ++ pretty (index + 1) ++ " of "
                   ++ pretty (length sections))).

(** [generate_remaining_sections(input, start_index)], lines 216-246:
    an exception ends the loop and is logged, never raised. *)
Definition generate_remaining_sections (input : I) (start_index : nat) : PyM World unit :=
  try_except
    (for_range start_index (length (ol_sections (script_outline input)) - start_index)
               (remaining_section_step input))
    (fun e => emit (EvLogError ("Error in background task generating sections: " ++ exc_str e))).

(** [generate_complete_script_incremental(background_tasks, input)],
    lines 248-305. *)
Definition generate_complete_script_incremental (background_tasks : list (BackgroundTask I)) (input : I)
    : PyM World (WrittenOutlineSection * list (BackgroundTask I)) :=
  log_and_reraise "Error generating script incrementally"
    (let sections := ol_sections (script_outline input) in
     match sections with
     | [] => raise (ValueError "No sections found in the outline")
     | _ :: _ =>
         let* first_section := lift_res (py_index sections 0) in
         let* next_section :=
           (if Nat.ltb 1 (length sections)
            then bind (lift_res (py_index sections 1)) (fun n => ret (Some n))
            else ret None) in
         let* content_input := lift_res (section_content_input input first_section None next_section) in
         let* written_section := generate_outline_section_content content_input in
         let background_tasks' :=
           if Nat.ltb 1 (length sections)
           then (background_tasks ++ [GenerateRemainingSections input 1])%list
           else background_tasks in
         ret (mkWrittenOutlineSection (sec_id first_section) (sec_title first_section)
                (sec_description first_section) (sec_instructions first_section)
                (gco_content written_section),
              background_tasks')
     end).

(** The framework runs a queued task after the response is sent. *)
Definition run_task (task : BackgroundTask I) : PyM World unit :=
  match task with
  | GenerateRemainingSections input start_index => generate_remaining_sections input start_index
  end.
End Service.

(** ** Running the service *)

(** The prompt variables of the section-content calls of a trace. *)
Definition model_calls (evs : list Event) : list SectionPromptVars :=
  omap (fun e => match e with EvModelSection _ v => Some v | _ => None end) evs.

(** The world after [logger.error(f"{what}: {str(e)}")]. *)
Definition log_error (w : World) (what : string) (e : PyExc) : World :=
  mkWorld (store w) (trace w ++ [EvLogError (what ++ ": " ++ exc_str e)]).

(** The content the service reads for the previous section: the stored
    content of the row whose id the previous section carries, or "". *)
Definition stored_previous_content (st : Store) (previous_section : option OutlineSection) : string :=
  match previous_section with
  | Some p =>
      match sec_id p with
      | Some pid =>
          if str_truthy pid
          then from_option srow_content "" (outline_sections st !! pid)
          else ""
      | None => ""
      end
  | None => ""
  end.

(** The prompt variables of a section-content call in store [st]. *)
Definition section_vars (st : Store) (input : GenerateOutlineSectionContentInput) : SectionPromptVars :=
  section_prompt_vars input (previous_content_instruction (stored_previous_content st (gci_previous_section input))).

Definition write_content (st : Store) (sid : string) (r : SectionRow) (c : string) : Store :=
  mkStore (outlines st) (<[sid := set_content c r]> (outline_sections st)) (next_row st).

Lemma db_run {A} (m : PyM Store A) w r st' :
  m (store w) = (r, st') -> db m w = (r, mkWorld st' (trace w)).
Proof. intros H. unfold db. by rewrite H. Qed.

Lemma log_and_reraise_Ok {A} what (m : PyM World A) w a w' :
  m w = (Ok a, w') -> log_and_reraise what m w = (Ok a, w').
Proof. intros H. unfold log_and_reraise. by apply run_try_Ok. Qed.

Lemma log_and_reraise_Err {A} what (m : PyM World A) w e w' :
  m w = (Err e, w') -> log_and_reraise what m w = (Err e, log_error w' what e).
Proof. intros H. unfold log_and_reraise. by rewrite (run_try_Err _ _ _ _ _ H). Qed.

Lemma previous_section_content_run prev w :
  previous_section_content prev w = (Ok (stored_previous_content (store w) prev), w).
Proof.
  unfold previous_section_content, stored_previous_content.
  destruct prev as [p|]; [|done]. destruct (sec_id p) as [pid|]; [|done].
  destruct (str_truthy pid); [|done].
  unfold bind. rewrite (db_run _ _ _ _ (get_outline_section_run pid (store w))).
  destruct (outline_sections (store w) !! pid) as [r|]; [|by destruct w].
  destruct (srow_content r) eqn:E; simpl; rewrite ?E; by destruct w.
Qed.

Section Run.
Context (llm : ChatModel).

(** [generate_outline_section_content] on every branch: one model
    call with the variables built from the stored previous content,
    then, when the section id is truthy, the write of the result. *)
Lemma generate_outline_section_content_run input w :
  let vars := section_vars (store w) input in
  let w1 := mkWorld (store w) (trace w ++ [EvModelSection (gci_model input) vars]) in
  let what := "Error generating section content" in
  generate_outline_section_content llm input w =
  match section_output llm (gci_model input) vars (trace w) with
  | Err e => (Err e, log_error w1 what e)
  | Ok out =>
      if str_truthy (gci_section_id input) then
        match outline_sections (store w) !! gci_section_id input with
        | Some r => (Ok out, mkWorld (write_content (store w) (gci_section_id input) r (gco_content out))
                                     (trace w1))
        | None =>
            let e := ValueError ("Failed to update content for section " ++ gci_section_id input) in
            (Err e, log_error w1 what e)
        end
      else (Ok out, w1)
  end.
Proof.
  intros vars w1 what. subst vars w1 what.
  unfold generate_outline_section_content.
  destruct (section_output llm (gci_model input) (section_vars (store w) input) (trace w))
    as [out|e] eqn:Hout;
  [destruct (str_truthy (gci_section_id input)) eqn:Ht;
   [destruct (outline_sections (store w) !! gci_section_id input) as [r|] eqn:Hr|]|];
  [apply log_and_reraise_Ok|apply log_and_reraise_Err|apply log_and_reraise_Ok|apply log_and_reraise_Err];
  unfold bind at 1; rewrite previous_section_content_run;
  unfold bind at 1, invoke_section; fold (section_vars (store w) input); rewrite Hout;
  cbn -[update_section_content]; try done;
  unfold bind, db; cbn -[update_section_content].
  - by rewrite (update_section_content_found _ _ _ _ Hr).
  - by rewrite (update_section_content_missing _ _ _ Hr).
Qed.
End Run.

(** When every attribute of [input] resolves, [section_content_input]
    builds the section input from them; it fails only on a missing
    section id. *)
Lemma section_content_input_ok {I} `{ScriptInput I} (input : I) (f : ScriptAttr -> string)
    section previous_section next_section sid :
  (forall a, script_attr input a = Ok (f a)) -> sec_id section = Some sid ->
  section_content_input input section previous_section next_section =
  Ok (mkGenerateOutlineSectionContentInput sid section previous_section next_section
        (f attr_script_title) (f attr_context) (f attr_n_person_view)
        (f attr_excluded_words) (f attr_model)).
Proof.
  intros Hattr Hsid. unfold section_content_input. rewrite !Hattr. simpl.
  unfold validate_section_content_input. by rewrite Hsid.
Qed.

Lemma section_content_input_attr_error {I} `{ScriptInput I} (input : I) section p n e :
  script_attr input attr_script_title = Err e -> section_content_input input section p n = Err e.
Proof. intros He. unfold section_content_input. by rewrite He. Qed.

(** ** Section content: what a call does *)

Section SectionContent.
Context (llm : ChatModel).

(** C5: a call that raises leaves the store as it was: the content is
    written only after the model has answered, and a failed write
    writes nothing. *)
Theorem section_content_error_keeps_store input w e w' :
  generate_outline_section_content llm input w = (Err e, w') -> store w' = store w.
Proof.
  rewrite generate_outline_section_content_run.
  destruct (section_output _ _ _ _) as [out|e']; [|by intros [= <- <-]].
  destruct (str_truthy _); [|done].
  destruct (outline_sections (store w) !! _); [done | by intros [= <- <-]].
Qed.

(** C6: a call that returns content [out] for a truthy section id has
    stored [out] in that section's row, which existed, and changed no
    other row and no outline. *)
Theorem section_content_persisted input w out w' :
  generate_outline_section_content llm input w = (Ok out, w') ->
  str_truthy (gci_section_id input) = true ->
  exists r, outline_sections (store w) !! gci_section_id input = Some r /\
    outline_sections (store w') =
      <[gci_section_id input := set_content (gco_content out) r]> (outline_sections (store w)) /\
    outlines (store w') = outlines (store w).
Proof.
  intros Hrun Ht. rewrite generate_outline_section_content_run, Ht in Hrun.
  destruct (section_output _ _ _ _) as [o|e]; [|done].
  destruct (outline_sections (store w) !! _) as [r|]; [|done].
  injection Hrun as <- <-. by exists r.
Qed.

(** C33: with an empty section id, a call returns the model's content
    to its caller without storing it anywhere: the store is unchanged.
    The spec requires that a caller never observes content the system
    has not stored. *)
Theorem section_content_unstored_for_empty_id input w out :
  gci_section_id input = "" ->
  section_output llm (gci_model input) (section_vars (store w) input) (trace w) = Ok out ->
  exists w', generate_outline_section_content llm input w = (Ok out, w') /\ store w' = store w.
Proof. intros Hid Hout. rewrite generate_outline_section_content_run, Hout, Hid. by eexists. Qed.

(** C7: a call makes exactly one model call, before anything else it
    records, and its prompt carries the stored content of the previous
    section (read from the store by id, truncated), not anything the
    caller passed in. *)
Theorem section_content_prompt input w :
  exists rest,
    trace (snd (generate_outline_section_content llm input w)) =
      (trace w ++ EvModelSection (gci_model input)
        (section_prompt_vars input
           (previous_content_instruction (stored_previous_content (store w) (gci_previous_section input))))
        :: rest)%list /\
    model_calls rest = [].
Proof.
  rewrite generate_outline_section_content_run.
  destruct (section_output _ _ _ _) as [o|e]; unfold log_error; simpl.
  - destruct (str_truthy _); [destruct (outline_sections (store w) !! _)|]; simpl.
    + by exists [].
    + eexists. rewrite <- app_assoc. by split.
    + by exists [].
  - eexists. rewrite <- app_assoc. by split.
Qed.

(** C19: the [context] field of the input reaches neither the prompt
    nor the store: two inputs that differ only in it behave the same. *)
Theorem section_content_ignores_context input c w :
  generate_outline_section_content llm input w =
  generate_outline_section_content llm
    (mkGenerateOutlineSectionContentInput (gci_section_id input) (gci_current_section input)
       (gci_previous_section input) (gci_next_section input) (gci_script_title input) c
       (gci_n_person_view input) (gci_excluded_words input) (gci_model input)) w.
Proof. by rewrite !generate_outline_section_content_run. Qed.
End SectionContent.

(** ** The driver *)

(** C1: [generate_complete_script_incremental] always raises on the
    request the endpoints receive.  [GenerateCompleteScriptInput]
    declares only [outline], so after the emptiness check the first
    read of [input.script_title] raises [AttributeError]: no model is
    called, nothing is stored, no background task is queued, and the
    only effect is the error log line. *)
Theorem complete_script_incremental_attribute_error llm bt (input : GenerateCompleteScriptInput) w :
  let e := match ol_sections (gcs_outline input) with
           | [] => ValueError "No sections found in the outline"
           | _ :: _ => AttributeError "'GenerateCompleteScriptInput' object has no attribute 'script_title'"
           end in
  generate_complete_script_incremental llm bt input w =
  (Err e, log_error w "Error generating script incrementally" e).
Proof. destruct input as [[oid [|x [|y l]]]]; by destruct w. Qed.

(** C9: the background task never raises: whatever happens in the loop
    is caught and logged. *)
Theorem generate_remaining_sections_never_raises llm {I} `{ScriptInput I} (input : I) start_index w :
  fst (generate_remaining_sections llm input start_index w) = Ok tt.
Proof.
  unfold generate_remaining_sections, try_except.
  by destruct (for_range _ _ _ w) as [[[]|e] w'].
Qed.

(** The driver on a request whose attributes resolve, on every
    branch of the first section's generation. *)
Lemma incremental_first_section_run llm {I} `{ScriptInput I} (input : I) f bt w first rest sid :
  (forall a, script_attr input a = Ok (f a)) ->
  ol_sections (script_outline input) = first :: rest -> sec_id first = Some sid ->
  let ci := mkGenerateOutlineSectionContentInput sid first None (head rest)
              (f attr_script_title) (f attr_context) (f attr_n_person_view)
              (f attr_excluded_words) (f attr_model) in
  spv_previous_section (section_vars (store w) ci) = None /\
  spv_previous_content_instruction (section_vars (store w) ci) = "" /\
  generate_complete_script_incremental llm bt input w =
    match generate_outline_section_content llm ci w with
    | (Ok out, w') =>
        (Ok (mkWrittenOutlineSection (Some sid) (sec_title first) (sec_description first)
               (sec_instructions first) (gco_content out),
             match rest with [] => bt | _ :: _ => (bt ++ [GenerateRemainingSections input 1])%list end), w')
    | (Err e, w') => (Err e, log_error w' "Error generating script incrementally" e)
    end.
Proof.
  intros Hattr Hsecs Hsid ci. split; [done|]. split; [done|].
  unfold generate_complete_script_incremental. rewrite Hsecs.
  assert (Hci : forall nx, section_content_input input first None nx =
                Ok (mkGenerateOutlineSectionContentInput sid first None nx (f attr_script_title)
                      (f attr_context) (f attr_n_person_view) (f attr_excluded_words) (f attr_model)))
    by (intros nx; by apply section_content_input_ok).
  destruct (generate_outline_section_content llm ci w) as [[out|e] w'] eqn:Hg;
    [apply log_and_reraise_Ok | apply log_and_reraise_Err];
  destruct rest as [|y rest]; cbn -[generate_outline_section_content section_content_input];
  rewrite Hci; cbn -[generate_outline_section_content]; subst ci; simpl in Hg; run_step Hg; cbn;
  by rewrite ?Hsid.
Qed.

(** C8: on a request whose attributes resolve, the driver writes the
    first section synchronously, with no previous section and no
    previous content in its prompt, returns it with the generated
    content, and queues exactly one background task, from index 1, when
    there is more than one section; a failure of the first section is
    logged and raised, and queues nothing. *)
Theorem incremental_first_section llm {I} `{ScriptInput I} (input : I) f bt w first rest sid :
  (forall a, script_attr input a = Ok (f a)) ->
  ol_sections (script_outline input) = first :: rest -> sec_id first = Some sid ->
  let ci := mkGenerateOutlineSectionContentInput sid first None (head rest)
              (f attr_script_title) (f attr_context) (f attr_n_person_view)
              (f attr_excluded_words) (f attr_model) in
  spv_previous_section (section_vars (store w) ci) = None /\
  spv_previous_content_instruction (section_vars (store w) ci) = "" /\
  generate_complete_script_incremental llm bt input w =
    match generate_outline_section_content llm ci w with
    | (Ok out, w') =>
        (Ok (mkWrittenOutlineSection (Some sid) (sec_title first) (sec_description first)
               (sec_instructions first) (gco_content out),
             match rest with [] => bt | _ :: _ => (bt ++ [GenerateRemainingSections input 1])%list end), w')
    | (Err e, w') => (Err e, log_error w' "Error generating script incrementally" e)
    end.
Proof. apply incremental_first_section_run. Qed.

(** ** Drafting an outline *)

Lemma generate_outline_draft_run llm input w :
  let vars := outline_prompt_vars input (sections_count (goi_word_count input)) in
  let w1 := mkWorld (store w) (trace w ++ [EvModelOutline (goi_model input) vars]) in
  generate_outline_draft llm input w =
    match outline_output llm (goi_model input) vars (trace w) with
    | Ok o => (Ok o, w1)
    | Err e => (Err e, log_error w1 "Error generating outline draft" e)
    end.
Proof.
  intros vars w1. subst vars w1. unfold generate_outline_draft.
  destruct (outline_output llm _ _ (trace w)) as [o|e] eqn:Ho;
    [apply log_and_reraise_Ok | apply log_and_reraise_Err]; unfold invoke_outline; by rewrite Ho.
Qed.

(** C27: drafting an outline makes exactly one model call and returns
    its answer unmodified, or logs and re-raises its error; the store
    is never written (the draft is not persisted).  The prompt carries
    the title, audience, additional data and the section count, and
    does not depend on the language, style or tone of the request. *)
Theorem outline_draft_unpersisted llm input w :
  let vars := outline_prompt_vars input (sections_count (goi_word_count input)) in
  let w1 := mkWorld (store w) (trace w ++ [EvModelOutline (goi_model input) vars]) in
  generate_outline_draft llm input w =
    match outline_output llm (goi_model input) vars (trace w) with
    | Ok o => (Ok o, w1)
    | Err e => (Err e, log_error w1 "Error generating outline draft" e)
    end /\
  (forall language style tone,
     outline_prompt_vars (mkGenerateOutlineInput (goi_id input) (goi_script_title input)
        (goi_word_count input) language (goi_audience input) style tone (goi_model input)
        (goi_additional_data input)) (sections_count (goi_word_count input)) = vars).
Proof. split; [apply generate_outline_draft_run | done]. Qed.

(** ** Saving an outline *)

Lemma batch_ok_save st oid secs :
  sections_reference_outlines st -> outlines st !! oid = None ->
  batch_ok (outline_sections st) (section_data_of oid <$> secs) =
  bool_decide (NoDup (sec_position <$> secs)).
Proof.
  intros Hrefs Hnone. unfold batch_ok. apply bool_decide_ext.
  assert (Heq : data_key <$> (section_data_of oid <$> secs) = pair oid <$> (sec_position <$> secs)).
  { rewrite <- !list_fmap_compose. reflexivity. }
  rewrite Heq. split.
  - intros [_ Hnd]. by apply NoDup_fmap_1 in Hnd.
  - intros Hnd. split; [|by apply NoDup_fmap_2; [apply _|]].
    apply Forall_fmap, Forall_forall. intros s _. by apply key_free_fresh_outline.
Qed.

(** [save_outline] on every branch: the outline row is inserted, then
    the section rows in one batch, which the unique constraint may
    reject. *)
Lemma save_outline_run input w :
  let st := store w in
  let oid := row_id (next_row st) in
  let st1 := mkStore (<[oid := mkOutlineRow oid (outline_data_of input)]> (outlines st))
                     (outline_sections st) (N.succ (next_row st)) in
  let ds := section_data_of oid <$> soi_sections input in
  save_outline input w =
  if batch_ok (outline_sections st1) ds || bool_decide (ds = [])
  then (Ok oid, mkWorld (fst (insert_section_rows st1 ds)) (trace w))
  else let e := APIError "duplicate key value violates unique constraint" in
       (Err e, log_error (mkWorld st1 (trace w)) "Error saving outline" e).
Proof.
  intros st oid st1 ds. subst st oid st1 ds. unfold save_outline.
  set (oid := row_id (next_row (store w))).
  set (st1 := mkStore (<[oid := mkOutlineRow oid (outline_data_of input)]> (outlines (store w)))
                      (outline_sections (store w)) (N.succ (next_row (store w)))).
  set (ds := section_data_of oid <$> soi_sections input).
  assert (Hc : db (create_outline (outline_data_of input)) w = (Ok (mkOutlineRow oid (outline_data_of input)), mkWorld st1 (trace w)))
    by (apply db_run; apply create_outline_run).
  destruct (decide (ds = [])) as [Hnil|Hne].
  - rewrite (bool_decide_eq_true_2 _ Hnil), orb_true_r. apply log_and_reraise_Ok.
    run_step Hc. simpl. fold ds. rewrite Hnil. reflexivity.
  - rewrite (bool_decide_eq_false_2 _ Hne), orb_false_r.
    destruct (batch_ok (outline_sections st1) ds) eqn:B.
    + apply log_and_reraise_Ok. run_step Hc. simpl. fold ds.
      run_step (db_run _ (mkWorld st1 (trace w)) _ _ (create_outline_sections_accepted ds st1 B)). done.
    + apply log_and_reraise_Err. run_step Hc. simpl. fold ds.
      run_step (db_run _ (mkWorld st1 (trace w)) _ _ (create_outline_sections_rejected ds st1 B Hne)). done.
Qed.

(** A successful save: the outline row under the fresh id, and the rows
    of that outline are exactly the input sections, the [i]-th under
    the [i]-th id after it. *)
Lemma save_outline_ok input w :
  store_inv (store w) -> NoDup (sec_position <$> soi_sections input) ->
  let oid := row_id (next_row (store w)) in
  exists st', save_outline input w = (Ok oid, mkWorld st' (trace w)) /\
    outlines st' !! oid = Some (mkOutlineRow oid (outline_data_of input)) /\
    (forall k r, outline_sections st' !! k = Some r /\ srow_outline_id r = oid <->
       exists i s, soi_sections input !! i = Some s /\
         k = row_id (next_row (store w) + 1 + N.of_nat i) /\ r = section_row_of k (section_data_of oid s)).
Proof.
  intros [Hwf Hrefs] Hnd oid. rewrite save_outline_run. fold oid. cbn [outline_sections].
  rewrite (batch_ok_save (store w) oid _ Hrefs (wf_fresh_outline _ Hwf)), (bool_decide_eq_true_2 _ Hnd).
  simpl. eexists. split; [done|]. split.
  { rewrite insert_section_rows_outlines. simpl. by rewrite lookup_insert_eq. }
  intros k r. rewrite insert_section_rows_lookup. split.
  - intros [[(i & d & Hi & -> & ->)|[Hold _]] Ho].
    + rewrite list_lookup_fmap in Hi.
      destruct (soi_sections input !! i) as [s|] eqn:Hs; [|done]. simplify_eq/=.
      exists i, s. split; [done|]. split; f_equal; f_equal; lia.
    + exfalso. destruct (Hrefs k r Hold) as [o Hoid]. rewrite Ho in Hoid.
      pose proof (wf_fresh_outline _ Hwf) as Hfresh. fold oid in Hfresh. congruence.
  - intros (i & s & Hi & -> & ->). split; [|done]. left.
    exists i, (section_data_of oid s). split; [by rewrite list_lookup_fmap, Hi|].
    split; [simpl; f_equal; lia | simpl; do 2 f_equal; lia].
Qed.

(** C10: saving an outline whose section positions are distinct stores
    one outline row under a fresh id and exactly one section row per
    section of the input, with that outline id, the section's position,
    title, description and instructions, and empty content; the fresh
    id is returned and the trace is untouched. *)
Theorem save_outline_stores input w :
  store_inv (store w) -> NoDup (sec_position <$> soi_sections input) ->
  let oid := row_id (next_row (store w)) in
  exists st', save_outline input w = (Ok oid, mkWorld st' (trace w)) /\
    outlines st' !! oid = Some (mkOutlineRow oid (outline_data_of input)) /\
    (forall i s, soi_sections input !! i = Some s ->
       let k := row_id (next_row (store w) + 1 + N.of_nat i) in
       outline_sections st' !! k = Some (section_row_of k (section_data_of oid s))) /\
    (forall k r, outline_sections st' !! k = Some r -> srow_outline_id r = oid ->
       exists i s, soi_sections input !! i = Some s /\ k = row_id (next_row (store w) + 1 + N.of_nat i)).
Proof.
  intros Hinv Hnd oid. destruct (save_outline_ok input w Hinv Hnd) as (st' & Hrun & Ho & Hrows).
  exists st'. split; [done|]. split; [done|]. split.
  - intros i s Hi k. apply (proj2 (Hrows k _)). eauto 6.
  - intros k r Hk Hr. destruct (proj1 (Hrows k r) (conj Hk Hr)) as (i & s & Hi & Hk' & _). eauto.
Qed.

(** C11: when two sections share a position, the batch insert is
    rejected and [save_outline] raises, but the outline row it inserted
    first stays: there is no rollback, and the store keeps an outline
    with no sections. *)
Theorem save_outline_no_rollback input w :
  store_inv (store w) -> ~ NoDup (sec_position <$> soi_sections input) ->
  let oid := row_id (next_row (store w)) in
  exists e w', save_outline input w = (Err e, w') /\
    outlines (store w') !! oid = Some (mkOutlineRow oid (outline_data_of input)) /\
    outline_sections (store w') = outline_sections (store w).
Proof.
  intros [Hwf Hrefs] Hnd oid. rewrite save_outline_run. fold oid. cbn [outline_sections].
  rewrite (batch_ok_save (store w) oid _ Hrefs (wf_fresh_outline _ Hwf)), (bool_decide_eq_false_2 _ Hnd).
  rewrite bool_decide_eq_false_2.
  - simpl. do 2 eexists. split; [done|]. simpl. by rewrite lookup_insert_eq.
  - intros Hnil. apply Hnd. apply fmap_nil_inv in Hnil. rewrite Hnil. constructor.
Qed.

(** ** Concrete runs *)

Lemma empty_store_inv : store_inv empty_store.
Proof.
  split; [split; [|split]|]; try apply map_Forall_empty.
  intros k1 k2 r1 r2 H1. cbn in H1. by rewrite lookup_empty in H1.
Qed.

Definition demo_sections : list OutlineSection :=
  [mkOutlineSection None None 0 "Where it started" "the origin" "open with a question";
   mkOutlineSection None None 1 "What was found" "the discovery" "raise the stakes";
   mkOutlineSection None None 2 "What it means" "the consequence" "end on a hook"].

Definition demo_save_input : SaveOutlineInput :=
  mkSaveOutlineInput "The Silent Archive" 2100 "English" "general audience" "narrative"
    "investigative" "gpt-4o-mini" "declassified records" demo_sections.

Definition demo_world : World := mkWorld empty_store [].

Lemma save_outline_stores_witness :
  exists st', save_outline demo_save_input demo_world = (Ok (row_id 0), mkWorld st' []).
Proof.
  destruct (save_outline_stores demo_save_input demo_world empty_store_inv
              ltac:(apply (bool_decide_unpack _); vm_compute; reflexivity)) as (st' & H & _).
  exists st'. exact H.
Defined.

Lemma save_outline_no_rollback_witness :
  exists e w', save_outline (mkSaveOutlineInput "t" 1400 "English" "all" "plain" "calm" "m" "c"
                               [mkOutlineSection None None 0 "a" "b" "c";
                                mkOutlineSection None None 0 "d" "e" "f"]) demo_world = (Err e, w').
Proof.
  destruct (save_outline_no_rollback
              (mkSaveOutlineInput "t" 1400 "English" "all" "plain" "calm" "m" "c"
                 [mkOutlineSection None None 0 "a" "b" "c"; mkOutlineSection None None 0 "d" "e" "f"])
              demo_world empty_store_inv
              ltac:(intros Hnd; simpl in Hnd; apply NoDup_cons in Hnd as [Hn _]; apply Hn; constructor))
    as (e & w' & H & _).
  exists e, w'. exact H.
Defined.

(** ** The service keeps the store invariant *)

Section Preservation.
Context (P : Store -> Prop).

Lemma preserves_db {A} (m : PyM Store A) : preserves P m -> preserves (fun w => P (store w)) (db m).
Proof. intros Hm w Hw. unfold db. specialize (Hm (store w) Hw). by destruct (m (store w)). Qed.

Lemma preserves_emit e : preserves (fun w => P (store w)) (emit e).
Proof. by intros w. Qed.

Lemma preserves_invoke_section llm model vars :
  preserves (fun w => P (store w)) (invoke_section llm model vars).
Proof. by intros w. Qed.

Lemma preserves_invoke_outline llm model vars :
  preserves (fun w => P (store w)) (invoke_outline llm model vars).
Proof. by intros w. Qed.

Lemma preserves_log_and_reraise {A} what (m : PyM World A) :
  preserves (fun w => P (store w)) m -> preserves (fun w => P (store w)) (log_and_reraise what m).
Proof. intros Hm. unfold log_and_reraise. solve_preserves. apply preserves_emit. Qed.

Lemma preserves_previous_section_content prev :
  preserves (fun w => P (store w)) (previous_section_content prev).
Proof. intros w Hw. by rewrite previous_section_content_run. Qed.
End Preservation.

#[export] Hint Resolve preserves_db preserves_emit preserves_invoke_section preserves_invoke_outline
  preserves_log_and_reraise preserves_previous_section_content : pym.

Lemma generate_outline_draft_inv llm input :
  preserves (fun w => store_inv (store w)) (generate_outline_draft llm input).
Proof. unfold generate_outline_draft. eauto with pym. Qed.

Lemma generate_outline_section_content_inv llm input :
  preserves (fun w => store_inv (store w)) (generate_outline_section_content llm input).
Proof. unfold generate_outline_section_content. apply preserves_log_and_reraise. solve_preserves. Qed.

#[export] Hint Resolve generate_outline_section_content_inv : pym.

Lemma remaining_section_step_inv llm {I} `{ScriptInput I} (input : I) index :
  preserves (fun w => store_inv (store w)) (remaining_section_step llm input index).
Proof. unfold remaining_section_step. cbv zeta. solve_preserves. Qed.

#[export] Hint Resolve remaining_section_step_inv : pym.

Lemma generate_remaining_sections_inv llm {I} `{ScriptInput I} (input : I) start_index :
  preserves (fun w => store_inv (store w)) (generate_remaining_sections llm input start_index).
Proof. unfold generate_remaining_sections. solve_preserves. Qed.

Lemma generate_complete_script_incremental_inv llm {I} `{ScriptInput I} bt (input : I) :
  preserves (fun w => store_inv (store w)) (generate_complete_script_incremental llm bt input).
Proof. unfold generate_complete_script_incremental. apply preserves_log_and_reraise. cbv zeta. solve_preserves. Qed.

Lemma save_outline_inv input : preserves (fun w => store_inv (store w)) (save_outline input).
Proof.
  intros w [Hwf Hrefs]. rewrite save_outline_run. cbv zeta.
  set (oid := row_id (next_row (store w))).
  set (st1 := mkStore (<[oid := mkOutlineRow oid (outline_data_of input)]> (outlines (store w)))
                      (outline_sections (store w)) (N.succ (next_row (store w)))).
  set (ds := section_data_of oid <$> soi_sections input).
  assert (Hinv1 : store_inv st1) by (apply (insert_outlines_inv (outline_data_of input) (store w)); by split).
  destruct (batch_ok (outline_sections st1) ds || bool_decide (ds = [])) eqn:B; [|done].
  destruct Hinv1 as [Hwf1 Hrefs1]. simpl. split.
  - apply orb_true_iff in B as [B|B].
    + apply bool_decide_eq_true in B as [Hfree Hnd]. by apply insert_section_rows_wf.
    + apply bool_decide_eq_true in B. by rewrite B.
  - intros k r Hk. rewrite insert_section_rows_outlines.
    apply insert_section_rows_lookup in Hk as [(i & d & Hi & -> & ->)|[Hold _]].
    + subst ds. rewrite list_lookup_fmap in Hi.
      destruct (soi_sections input !! i) as [s|]; simpl in Hi; [injection Hi as <- | done].
      subst st1. cbn. rewrite lookup_insert_eq. by eexists.
    + exact (Hrefs1 k r Hold).
Qed.

#[export] Hint Resolve generate_outline_draft_inv generate_remaining_sections_inv
  generate_complete_script_incremental_inv save_outline_inv : pym.

(** C12: every operation of the service keeps the store invariant:
    row ids match their keys and are fresh below the id counter, no two
    section rows share (outline_id, position), and every section row
    belongs to a stored outline; whatever the operation returns or
    raises. *)
Theorem service_preserves_store_inv llm {I} `{ScriptInput I} :
  (forall input, preserves (fun w => store_inv (store w)) (generate_outline_draft llm input)) /\
  (forall input, preserves (fun w => store_inv (store w)) (save_outline input)) /\
  (forall input, preserves (fun w => store_inv (store w)) (generate_outline_section_content llm input)) /\
  (forall (input : I) start_index,
     preserves (fun w => store_inv (store w)) (generate_remaining_sections llm input start_index)) /\
  (forall bt (input : I),
     preserves (fun w => store_inv (store w)) (generate_complete_script_incremental llm bt input)).
Proof.
  split; [apply generate_outline_draft_inv|]. split; [apply save_outline_inv|].
  split; [apply generate_outline_section_content_inv|].
  split; [apply generate_remaining_sections_inv | apply generate_complete_script_incremental_inv].
Qed.

Definition demo_llm : ChatModel :=
  mkChatModel (fun _ _ _ => Ok (mkOutline None demo_sections))
    (fun _ v _ => Ok (mkGenerateOutlineSectionContentOutput
                        ("Narration of " ++ from_option cs_title "" (spv_current_section v)))).

Definition failing_llm : ChatModel :=
  mkChatModel (fun _ _ _ => Err (ModelError "Request timed out."))
              (fun _ _ _ => Err (ModelError "Request timed out.")).

(** The world after saving [demo_save_input]: outline [row-0], sections
    [row-1] to [row-3]. *)
Definition demo_saved_world : World := snd (save_outline demo_save_input demo_world).

Definition demo_stored_sections : list OutlineSection :=
  [mkOutlineSection (Some (row_id 1)) (Some (row_id 0)) 0 "Where it started" "the origin" "open with a question";
   mkOutlineSection (Some (row_id 2)) (Some (row_id 0)) 1 "What was found" "the discovery" "raise the stakes";
   mkOutlineSection (Some (row_id 3)) (Some (row_id 0)) 2 "What it means" "the consequence" "end on a hook"].

Definition demo_request : CompleteScriptRequest :=
  mkCompleteScriptRequest (mkOutline (Some (row_id 0)) demo_stored_sections) "The Silent Archive"
    "declassified records" "first" "basically, actually" "gpt-4o-mini".

Definition demo_content_input : GenerateOutlineSectionContentInput :=
  mkGenerateOutlineSectionContentInput (row_id 2)
    (mkOutlineSection (Some (row_id 2)) (Some (row_id 0)) 1 "What was found" "the discovery" "raise the stakes")
    (Some (mkOutlineSection (Some (row_id 1)) (Some (row_id 0)) 0 "Where it started" "the origin" "open with a question"))
    (Some (mkOutlineSection (Some (row_id 3)) (Some (row_id 0)) 2 "What it means" "the consequence" "end on a hook"))
    "The Silent Archive" "declassified records" "first" "basically, actually" "gpt-4o-mini".

Lemma section_content_error_keeps_store_witness :
  store (snd (generate_outline_section_content failing_llm demo_content_input demo_saved_world)) =
  store demo_saved_world.
Proof.
  apply (section_content_error_keeps_store failing_llm demo_content_input demo_saved_world
           (ModelError "Request timed out.")).
  vm_compute. reflexivity.
Defined.

Lemma section_content_persisted_witness :
  exists r, outline_sections (store demo_saved_world) !! row_id 2 = Some r.
Proof.
  destruct (section_content_persisted demo_llm demo_content_input demo_saved_world
              (mkGenerateOutlineSectionContentOutput "Narration of What was found")
              (snd (generate_outline_section_content demo_llm demo_content_input demo_saved_world))
              ltac:(vm_compute; reflexivity) ltac:(reflexivity)) as (r & Hr & _).
  by exists r.
Defined.

Lemma incremental_first_section_witness :
  exists ci, spv_previous_content_instruction (section_vars (store demo_saved_world) ci) = "".
Proof.
  destruct (incremental_first_section demo_llm demo_request (csr_attr demo_request) [] demo_saved_world
              (mkOutlineSection (Some (row_id 1)) (Some (row_id 0)) 0 "Where it started" "the origin"
                 "open with a question")
              (List.tl demo_stored_sections) (row_id 1) (csr_attr_ok demo_request) eq_refl eq_refl)
    as (_ & H & _).
  eexists. exact H.
Defined.

Lemma section_content_unstored_for_empty_id_witness :
  exists w', generate_outline_section_content demo_llm
               (mkGenerateOutlineSectionContentInput "" (mkOutlineSection (Some "") None 0 "Opening" "d" "i")
                  None None "t" "c" "first" "" "gpt-4o-mini") demo_saved_world =
             (Ok (mkGenerateOutlineSectionContentOutput "Narration of Opening"), w') /\
  store w' = store demo_saved_world.
Proof. apply section_content_unstored_for_empty_id; reflexivity. Defined.
