(* ===== verification/Pipeline.v ===== *)
(** * Pipeline: the background generation of the remaining sections

    [ContentService.generate_remaining_sections] walks the sections from
    [start_index] on; for each it re-reads the stored content of the
    section before it, builds the prompt from it, calls the model and
    writes the result to the section's row.  The abstract pipeline
    [carry_forward] says what this amounts to: the sections are written
    in order, each prompt is conditioned on the content generated for
    the section before it (carried in memory, with no store), and the
    first failure ends the run.  [generate_remaining_sections_refines]
    proves that the code implements it, whenever the attributes of the
    request resolve and every section carries the id of a stored row. *)

From S2P Require Import Prelude.
From S2P Require Import Models.
From S2P Require Import Supabase.
From S2P Require Import Repository.
From S2P Require Import Prompts.
From S2P Require Import Service.

(** Each section with the sections before and after it. *)
Fixpoint neighbours (prev : option OutlineSection) (l : list OutlineSection)
    : list (option OutlineSection * OutlineSection * option OutlineSection) :=
  match l with
  | [] => []
  | x :: l' => (prev, x, head l') :: neighbours (Some x) l'
  end.

Lemma length_neighbours prev l : length (neighbours prev l) = length l.
Proof. revert prev. induction l as [|x l IH]; intros prev; simpl; auto. Qed.

Lemma neighbours_lookup prev l i p x nx :
  neighbours prev l !! i = Some (p, x, nx) ->
  l !! i = Some x /\ p = (match i with 0 => prev | S j => l !! j end) /\ nx = l !! S i.
Proof.
  revert prev i. induction l as [|y l IH]; intros prev i H; [done|].
  destruct i as [|i]; simpl in H.
  - simplify_eq. split; [done|]. split; [done|]. by destruct l.
  - apply IH in H as (H1 & H2 & H3). split; [done|]. split; [|done].
    destruct i; simpl; done.
Qed.

(** The content the service would write, as [(row id, content)] pairs. *)
Definition store_write (st : Store) (sid c : string) : Store :=
  match outline_sections st !! sid with
  | Some r => write_content st sid r c
  | None => st
  end.

Definition apply_writes (st : Store) (ws : list (string * string)) : Store :=
  foldl (fun st '(sid, c) => store_write st sid c) st ws.

Definition sid_of (s : OutlineSection) : string := from_option (fun i => i) "" (sec_id s).

Definition progress_msg (index n : nat) : string :=
  "Generated content for section " ++ pretty (index + 1) ++ " of " ++ pretty n.

(** Every section carries a truthy id of a stored row. *)
Definition sections_stored (st : Store) (secs : list OutlineSection) : Prop :=
  Forall (fun s => exists sid r, sec_id s = Some sid /\ str_truthy sid = true /\
                                 outline_sections st !! sid = Some r) secs.

Lemma sections_stored_write st secs sid r c :
  sections_stored st secs -> outline_sections st !! sid = Some r ->
  sections_stored (write_content st sid r c) secs.
Proof.
  intros Hs Hr. eapply Forall_impl; [exact Hs|]. intros s (sid' & r' & Hid & Ht & Hl).
  exists sid'. unfold write_content; simpl. rewrite lookup_insert.
  case_decide; subst; eauto.
Qed.

Lemma stored_previous_content_write st x sid r c :
  sec_id x = Some sid -> str_truthy sid = true -> outline_sections st !! sid = Some r ->
  stored_previous_content (write_content st sid r c) (Some x) = c.
Proof.
  intros Hid Ht Hr. unfold stored_previous_content, write_content. rewrite Hid, Ht. simpl.
  by rewrite lookup_insert_eq.
Qed.

Definition mid {A B C} (t : A * B * C) : B := let '(_, x, _) := t in x.

Lemma mid_neighbours prev l : mid <$> neighbours prev l = l.
Proof. revert prev. induction l as [|x l IH]; intros prev; [done|]. simpl. f_equal. apply IH. Qed.

(** A decision procedure for [sections_stored]. *)
Definition sections_storedb (st : Store) (secs : list OutlineSection) : bool :=
  forallb (fun s => match sec_id s with
                    | Some sid => str_truthy sid && bool_decide (is_Some (outline_sections st !! sid))
                    | None => false
                    end) secs.

Lemma sections_storedb_spec st secs : sections_storedb st secs = true -> sections_stored st secs.
Proof.
  unfold sections_storedb, sections_stored. rewrite forallb_forall, Forall_forall.
  intros Hb s Hs. specialize (Hb s (proj1 (list_elem_of_In _ _) Hs)).
  destruct (sec_id s) as [sid|]; [|done].
  apply andb_prop in Hb as [Ht Hr]. apply bool_decide_eq_true in Hr as [r Hr]. eauto.
Qed.

Lemma model_calls_model m v evs : model_calls (EvModelSection m v :: evs) = v :: model_calls evs.
Proof. reflexivity. Qed.

Lemma model_calls_info msg evs : model_calls (EvLogInfo msg :: evs) = model_calls evs.
Proof. reflexivity. Qed.

Section Pipeline.
Context (llm : ChatModel) {I : Type} `{ScriptInput I} (input : I) (f : ScriptAttr -> string).
Hypothesis Hattr : forall a, script_attr input a = Ok (f a).

Local Abbreviation secs := (ol_sections (script_outline input)).
Local Abbreviation model := (f attr_model).

(** The prompt variables of a section given the previous content. *)
Definition step_vars (p : option OutlineSection) (x : OutlineSection) (nx : option OutlineSection)
    (prev : string) : SectionPromptVars :=
  {| spv_current_section := clean_section (Some x); spv_script_title := f attr_script_title;
     spv_previous_section := clean_section p; spv_next_section := clean_section nx;
     spv_n_person_view := f attr_n_person_view; spv_excluded_words := f attr_excluded_words;
     spv_previous_content_instruction := previous_content_instruction prev |}.

(** The abstract pipeline: writes, trace events and the error that
    ended it, from section [i] on, with [prev] the content of the
    section before and [hist] the trace the model sees. *)
Fixpoint carry_forward (i : nat) (ts : list (option OutlineSection * OutlineSection * option OutlineSection))
    (prev : string) (hist : list Event) : list (string * string) * list Event * option PyExc :=
  match ts with
  | [] => ([], [], None)
  | (p, x, nx) :: ts' =>
      let vars := step_vars p x nx prev in
      match section_output llm model vars hist with
      | Err e => ([], [EvModelSection model vars], Some e)
      | Ok out =>
          let evs := [EvModelSection model vars; EvLogInfo (progress_msg i (length secs))] in
          let '(ws, evs', err) := carry_forward (S i) ts' (gco_content out) (hist ++ evs) in
          ((sid_of x, gco_content out) :: ws, (evs ++ evs')%list, err)
      end
  end.

(** The input the loop builds for a section. *)
Definition content_input_of (p : option OutlineSection) (x : OutlineSection)
    (nx : option OutlineSection) : GenerateOutlineSectionContentInput :=
  mkGenerateOutlineSectionContentInput (sid_of x) x p nx (f attr_script_title) (f attr_context)
    (f attr_n_person_view) (f attr_excluded_words) (f attr_model).

Lemma section_vars_content_input st p x nx :
  section_vars st (content_input_of p x nx) = step_vars p x nx (stored_previous_content st p).
Proof. reflexivity. Qed.

Definition section_error_log (err : option PyExc) : list Event :=
  match err with
  | None => []
  | Some e => [EvLogError ("Error generating section content: " ++ exc_str e)]
  end.

(** One iteration of the loop, for a section past the first, up to the
    construction of the section input. *)
Lemma remaining_section_step_unfold i p x w :
  secs !! i = Some x -> secs !! (i - 1) = Some p -> 1 <= i ->
  remaining_section_step llm input i w =
  bind (lift_res (section_content_input input x (Some p) (secs !! S i)))
       (fun ci => bind (generate_outline_section_content llm ci)
                       (fun _ => emit (EvLogInfo (progress_msg i (length secs))))) w.
Proof.
  intros Hx Hp Hi.
  assert (Hlt : i < length secs) by (by apply lookup_lt_Some in Hx).
  unfold remaining_section_step. cbv zeta.
  rewrite (run_bind_Ok _ _ _ x w) by (unfold lift_res; by rewrite (py_index_lookup _ _ _ Hx)).
  destruct (Nat.ltb_spec 0 i); [|lia].
  rewrite (run_bind_Ok _ _ _ (Some p) w)
    by (unfold bind, lift_res; by rewrite (py_index_lookup _ _ _ Hp)).
  assert (Hnext : (if Nat.ltb i (length secs - 1)
                   then bind (lift_res (py_index secs (i + 1))) (fun n => ret (Some n))
                   else ret None) w = (Ok (secs !! S i), w)).
  { destruct (Nat.ltb_spec i (length secs - 1)).
    - destruct (lookup_lt_is_Some_2 secs (S i)) as [y Hy]; [lia|].
      unfold bind, lift_res. rewrite Nat.add_1_r, (py_index_lookup _ _ _ Hy), Hy. done.
    - rewrite (lookup_ge_None_2 secs (S i)) by lia. done. }
  by rewrite (run_bind_Ok _ _ _ _ _ Hnext).
Qed.

Lemma remaining_section_step_run i p x w :
  secs !! i = Some x -> secs !! (i - 1) = Some p -> 1 <= i -> is_Some (sec_id x) ->
  remaining_section_step llm input i w =
  bind (generate_outline_section_content llm (content_input_of (Some p) x (secs !! S i)))
       (fun _ => emit (EvLogInfo (progress_msg i (length secs)))) w.
Proof.
  intros Hx Hp Hi [sid Hsid]. rewrite (remaining_section_step_unfold i p x w Hx Hp Hi).
  rewrite (run_bind_Ok _ _ _ (content_input_of (Some p) x (secs !! S i)) w); [done|].
  unfold lift_res. rewrite (section_content_input_ok _ f _ _ _ sid Hattr Hsid).
  unfold content_input_of, sid_of. by rewrite Hsid.
Qed.

(** A section without id: pydantic rejects the section input before
    any model call or write. *)
Lemma remaining_section_step_no_id i p x w :
  secs !! i = Some x -> secs !! (i - 1) = Some p -> 1 <= i -> sec_id x = None ->
  remaining_section_step llm input i w = (Err (ValidationError "section_id: Input should be a valid string"), w).
Proof.
  intros Hx Hp Hi Hid. rewrite (remaining_section_step_unfold i p x w Hx Hp Hi).
  unfold section_content_input. rewrite !Hattr. simpl.
  unfold validate_section_content_input. by rewrite Hid.
Qed.

Lemma neighbours_drop i ts p x nx :
  drop i (neighbours None secs) = (p, x, nx) :: ts ->
  neighbours None secs !! i = Some (p, x, nx) /\ drop (S i) (neighbours None secs) = ts.
Proof.
  intros Hd. assert (Hl : neighbours None secs !! i = Some (p, x, nx)).
  { rewrite <- (Nat.add_0_r i), <- lookup_drop, Hd. done. }
  split; [done|]. rewrite (drop_S _ _ _ Hl) in Hd. by simplify_eq.
Qed.

(** The loop from section [i] on runs the abstract pipeline, starting
    from the stored content of section [i - 1]. *)
Lemma remaining_loop_run ts i w :
  1 <= i -> drop i (neighbours None secs) = ts -> sections_stored (store w) secs ->
  let '(ws, evs, err) :=
    carry_forward i ts (stored_previous_content (store w) (secs !! (i - 1))) (trace w) in
  for_range i (length ts) (remaining_section_step llm input) w =
  (match err with None => Ok tt | Some e => Err e end,
   mkWorld (apply_writes (store w) ws) (trace w ++ evs ++ section_error_log err)).
Proof.
  revert i w. induction ts as [|[[p x] nx] ts IH]; intros i w Hi Hdrop Hst.
  { destruct w; simpl. by rewrite !app_nil_r. }
  apply neighbours_drop in Hdrop as [Hl Hdrop].
  apply neighbours_lookup in Hl as (Hx & Hp & Hnx).
  destruct i as [|j]; [lia|]. simpl in Hp |- *. rewrite Nat.sub_0_r.
  assert (Hj : j < length secs) by (apply lookup_lt_Some in Hx; lia).
  destruct (lookup_lt_is_Some_2 secs j Hj) as [px Hpx].
  destruct (proj1 (Forall_lookup _ _) Hst _ _ Hx) as (sid & r & Hsid & Ht & Hr).
  rewrite Hpx in Hp |- *. subst p nx.
  assert (Hsid' : sid_of x = sid) by (unfold sid_of; by rewrite Hsid).
  assert (Hgen := generate_outline_section_content_run llm (content_input_of (Some px) x (secs !! S (S j))) w).
  rewrite section_vars_content_input in Hgen. cbv zeta in Hgen.
  set (vars := step_vars (Some px) x (secs !! S (S j)) (stored_previous_content (store w) (Some px))) in *.
  assert (Hstep := remaining_section_step_run (S j) px x w Hx
                     ltac:(by rewrite Nat.sub_succ, Nat.sub_0_r) ltac:(lia) ltac:(by rewrite Hsid)).
  destruct (section_output llm model vars (trace w)) as [out|e] eqn:Hout.
  - unfold content_input_of in Hgen, Hstep; cbn [gci_section_id gci_model] in Hgen.
    rewrite Hsid' in Hgen, Hstep. rewrite Ht, Hr, Hout in Hgen.
    rewrite (run_bind_Ok _ _ _ _ _ Hgen) in Hstep. unfold emit in Hstep; cbn in Hstep.
    run_step Hstep. cbn iota.
    set (w2 := mkWorld (write_content (store w) sid r (gco_content out))
                 ((trace w ++ [EvModelSection model vars]) ++ [EvLogInfo (progress_msg (S j) (length secs))])) in *.
    specialize (IH (S (S j)) w2 ltac:(lia) Hdrop (sections_stored_write _ _ _ _ _ Hst Hr)).
    cbn [store trace w2] in IH. rewrite Nat.sub_succ, Nat.sub_0_r, Hx in IH.
    rewrite (stored_previous_content_write _ _ _ _ _ Hsid Ht Hr) in IH.
    rewrite <- app_assoc in IH. cbn [app] in IH.
    destruct (carry_forward _ ts _ _) as [[ws evs'] err].
    rewrite IH. unfold apply_writes at 2. cbn [foldl]. rewrite Hsid'. unfold store_write at 2. rewrite Hr.
    by rewrite <- !app_assoc.
  - unfold content_input_of in Hgen, Hstep; cbn [gci_section_id gci_model] in Hgen.
    rewrite Hout in Hgen.
    rewrite (run_bind_Err _ _ _ _ _ Hgen) in Hstep.
    run_step Hstep. cbn iota. unfold log_error; cbn. by rewrite <- !app_assoc.
Qed.

Definition background_error_log (err : option PyExc) : list Event :=
  match err with
  | None => []
  | Some e => [EvLogError ("Error generating section content: " ++ exc_str e);
               EvLogError ("Error in background task generating sections: " ++ exc_str e)]
  end.

(** The run of the background task, in terms of the abstract
    pipeline; the claims below are consequences of it. *)
Lemma remaining_sections_run start_index w :
  1 <= start_index -> sections_stored (store w) secs ->
  let '(ws, evs, err) :=
    carry_forward start_index (drop start_index (neighbours None secs))
      (stored_previous_content (store w) (secs !! (start_index - 1))) (trace w) in
  generate_remaining_sections llm input start_index w =
  (Ok tt, mkWorld (apply_writes (store w) ws) (trace w ++ evs ++ background_error_log err)).
Proof.
  intros Hi Hst.
  pose proof (remaining_loop_run _ start_index w Hi eq_refl Hst) as Hloop.
  rewrite length_drop, length_neighbours in Hloop.
  destruct (carry_forward _ _ _ _) as [[ws evs] err].
  unfold generate_remaining_sections. destruct err as [e|].
  - rewrite (run_try_Err _ _ _ _ _ Hloop). unfold emit; simpl. by rewrite <- !app_assoc.
  - by rewrite (run_try_Ok _ _ _ _ _ Hloop).
Qed.

(** C2: refinement.  When the attributes of the request resolve and
    every section carries the id of a stored row, the background task
    from [start_index] on implements the abstract pipeline: the store
    afterwards is the store with the pipeline's writes applied in
    order, the trace grows by the pipeline's model calls and progress
    lines (and the two error lines if it failed), and nothing is
    raised. *)
Theorem generate_remaining_sections_refines start_index w :
  1 <= start_index -> sections_stored (store w) secs ->
  let '(ws, evs, err) :=
    carry_forward start_index (drop start_index (neighbours None secs))
      (stored_previous_content (store w) (secs !! (start_index - 1))) (trace w) in
  generate_remaining_sections llm input start_index w =
  (Ok tt, mkWorld (apply_writes (store w) ws) (trace w ++ evs ++ background_error_log err)).
Proof. apply remaining_sections_run. Qed.

End Pipeline.

(** ** The abstract pipeline *)

Section Abstract.
Context (llm : ChatModel) {I : Type} `{ScriptInput I} (input : I) (f : ScriptAttr -> string).

(** The pipeline writes the sections in order and stops at the first
    failure: the written ids are a prefix of the sections' ids, all of
    them exactly when no call failed. *)
Lemma carry_forward_in_order i ts prev hist :
  let '(ws, evs, err) := carry_forward llm input f i ts prev hist in
  (fst <$> ws) = take (length ws) (sid_of <$> (mid <$> ts)) /\
  (err = None <-> length ws = length ts).
Proof.
  revert i prev hist. induction ts as [|[[p x] nx] ts IH]; intros i prev hist; [done|].
  simpl. destruct (section_output _ _ _ _) as [out|e]; [|done].
  specialize (IH (S i) (gco_content out)
                (hist ++ [EvModelSection (f attr_model) (step_vars f p x nx prev);
                          EvLogInfo (progress_msg i (length (ol_sections (script_outline input))))])%list).
  destruct (carry_forward _ _ _ _ _ _ _) as [[ws evs] err].
  destruct IH as [IH1 IH2]. simpl. split; [f_equal; exact IH1 | rewrite IH2; lia].
Qed.

(** Each prompt of the pipeline carries the content it generated for
    the section before: the first carries [prev], the [k+1]-th the
    content of the [k]-th write. *)
Lemma carry_forward_chained i ts prev hist :
  let '(ws, evs, err) := carry_forward llm input f i ts prev hist in
  (forall v, head (model_calls evs) = Some v ->
     spv_previous_content_instruction v = previous_content_instruction prev) /\
  (forall k sid c v, ws !! k = Some (sid, c) -> model_calls evs !! S k = Some v ->
     spv_previous_content_instruction v = previous_content_instruction c).
Proof.
  revert i prev hist. induction ts as [|[[p x] nx] ts IH]; intros i prev hist; [done|].
  simpl. destruct (section_output _ _ _ _) as [out|e].
  - specialize (IH (S i) (gco_content out)
                  (hist ++ [EvModelSection (f attr_model) (step_vars f p x nx prev);
                            EvLogInfo (progress_msg i (length (ol_sections (script_outline input))))])%list).
    destruct (carry_forward _ _ _ _ _ _ _) as [[ws evs] err].
    destruct IH as [IH1 IH2]. split.
    + intros v Hv. rewrite model_calls_model in Hv. by injection Hv as <-.
    + intros [|k] sid c v Hk Hv; rewrite model_calls_model, model_calls_info in Hv.
      * injection Hk as <- <-. apply IH1. rewrite <- Hv. by destruct (model_calls evs).
      * eapply IH2; [exact Hk | exact Hv].
  - split; [intros v Hv; rewrite model_calls_model in Hv; by injection Hv as <- | by intros [|k]].
Qed.
(** The content of the section before the [k]-th write: [prev] for the
    first, the content of the write before for the others. *)
Definition prev_at (prev : string) (ws : list (string * string)) (k : nat) : string :=
  match k with 0 => prev | S j => from_option snd "" (ws !! j) end.

Lemma prev_at_cons prev sid c ws k : prev_at prev ((sid, c) :: ws) (S k) = prev_at c ws k.
Proof. by destruct k. Qed.

(** Each write of the pipeline stores the answer of the model call made
    for it: the [k]-th write is for the [k]-th section of [ts], and
    event [2 k] is the call, on the prompt conditioned on the content
    before it, whose answer on the history before it is the content
    written. *)
Lemma carry_forward_writes i ts prev hist :
  let '(ws, evs, err) := carry_forward llm input f i ts prev hist in
  forall k sid c, ws !! k = Some (sid, c) ->
  exists p x nx out,
    ts !! k = Some (p, x, nx) /\ sid = sid_of x /\
    evs !! (2 * k) = Some (EvModelSection (f attr_model) (step_vars f p x nx (prev_at prev ws k))) /\
    section_output llm (f attr_model) (step_vars f p x nx (prev_at prev ws k)) (hist ++ take (2 * k) evs) = Ok out /\
    gco_content out = c.
Proof.
  revert i prev hist. induction ts as [|[[p x] nx] ts IH]; intros i prev hist; [done|].
  simpl. destruct (section_output _ _ _ _) as [out|e] eqn:Hout; [|done].
  specialize (IH (S i) (gco_content out)
                (hist ++ [EvModelSection (f attr_model) (step_vars f p x nx prev);
                          EvLogInfo (progress_msg i (length (ol_sections (script_outline input))))])%list).
  destruct (carry_forward _ _ _ _ _ _ _) as [[ws evs] err].
  intros [|k] sid c Hk.
  - injection Hk as <- <-. exists p, x, nx, out. by rewrite app_nil_r.
  - destruct (IH k sid c Hk) as (p' & x' & nx' & out' & Hts & Hsid & Hev & Hout' & Hc).
    exists p', x', nx', out'. rewrite prev_at_cons.
    replace (S k + (S k + 0)) with (S (S (2 * k))) by lia. cbn [lookup list_lookup take].
    rewrite <- app_assoc in Hout'. by repeat split.
Qed.

(** With a model that always answers with non-empty content, the
    pipeline writes every section, in order, with non-empty content. *)
Lemma carry_forward_complete i ts prev hist :
  (forall m v h, exists out, section_output llm m v h = Ok out /\ gco_content out <> "") ->
  let '(ws, evs, err) := carry_forward llm input f i ts prev hist in
  err = None /\ (fst <$> ws) = sid_of <$> (mid <$> ts) /\ Forall (fun w => snd w <> "") ws.
Proof.
  intros Hm. revert i prev hist. induction ts as [|[[p x] nx] ts IH]; intros i prev hist; [done|].
  simpl. destruct (Hm (f attr_model) (step_vars f p x nx prev) hist) as (out & -> & Hne).
  specialize (IH (S i) (gco_content out)
                (hist ++ [EvModelSection (f attr_model) (step_vars f p x nx prev);
                          EvLogInfo (progress_msg i (length (ol_sections (script_outline input))))])%list).
  destruct (carry_forward _ _ _ _ _ _ _) as [[ws evs] err].
  destruct IH as (-> & Hfst & Hall). split; [done|]. split; [simpl; by f_equal|]. by constructor.
Qed.
End Abstract.

(** ** Rows holding content *)

Definition filled (st : Store) (sid : string) : Prop :=
  exists r, outline_sections st !! sid = Some r /\ srow_content r <> "".

Lemma store_write_is_Some st sid c k :
  is_Some (outline_sections st !! k) -> is_Some (outline_sections (store_write st sid c) !! k).
Proof.
  intros Hk. unfold store_write. destruct (outline_sections st !! sid) as [r|]; [|done].
  cbn. rewrite lookup_insert. case_decide; eauto.
Qed.

Lemma store_write_filled st sid c k :
  c <> "" -> filled st k \/ (k = sid /\ is_Some (outline_sections st !! sid)) ->
  filled (store_write st sid c) k.
Proof.
  intros Hc Hk. unfold store_write, filled. destruct (outline_sections st !! sid) as [r|] eqn:Hr.
  - cbn. rewrite lookup_insert. case_decide as Heq; [subst; by eexists|].
    destruct Hk as [Hk|[-> _]]; [done | congruence].
  - destruct Hk as [Hk|[-> [r Hr']]]; [done | congruence].
Qed.

(** Writes of non-empty content fill the rows they name and keep the
    filled rows filled. *)
Lemma apply_writes_filled st ws k :
  Forall (fun w => snd w <> "") ws ->
  filled st k \/ (k ∈ fst <$> ws /\ is_Some (outline_sections st !! k)) ->
  filled (apply_writes st ws) k.
Proof.
  revert st. induction ws as [|[sid c] ws IH]; intros st Hall Hk.
  - destruct Hk as [Hk|[Hin _]]; [done | inversion Hin].
  - apply Forall_cons in Hall as [Hc Hall]. apply (IH (store_write st sid c) Hall).
    destruct Hk as [Hk|[Hin Hs]].
    + left. by apply store_write_filled; [|left].
    + apply elem_of_cons in Hin as [->|Hin].
      * left. apply store_write_filled; [done|]. by right.
      * right. split; [done|]. by apply store_write_is_Some.
Qed.

(** ** What the background task guarantees *)

Section Claims.
Context (llm : ChatModel) {I : Type} `{ScriptInput I} (input : I) (f : ScriptAttr -> string).
Hypothesis Hattr : forall a, script_attr input a = Ok (f a).

Local Abbreviation secs := (ol_sections (script_outline input)).

Lemma drop_neighbours_lookup start_index k p x nx :
  drop start_index (neighbours None secs) !! k = Some (p, x, nx) -> secs !! (start_index + k) = Some x.
Proof. rewrite lookup_drop. intros Hl. by apply neighbours_lookup in Hl as [Hx _]. Qed.

Lemma stored_section_id st j x : sections_stored st secs -> secs !! j = Some x -> sec_id x = Some (sid_of x).
Proof.
  intros Hst Hx. destruct (proj1 (Forall_lookup _ _) Hst _ _ Hx) as (sid & r & Hsid & _).
  unfold sid_of. by rewrite Hsid.
Qed.

(** The run of the background task with, for each write, the section
    it is for and the model call whose answer it stores. *)
Lemma remaining_sections_writes start_index w :
  1 <= start_index -> sections_stored (store w) secs ->
  exists ws evs err,
    generate_remaining_sections llm input start_index w =
      (Ok tt, mkWorld (apply_writes (store w) ws) (trace w ++ evs ++ background_error_log err)) /\
    (err = None <-> length ws = length secs - start_index) /\
    (forall k sid c, ws !! k = Some (sid, c) ->
       exists x v out, secs !! (start_index + k) = Some x /\ sec_id x = Some sid /\
         evs !! (2 * k) = Some (EvModelSection (f attr_model) v) /\
         spv_current_section v = clean_section (Some x) /\
         spv_previous_content_instruction v = previous_content_instruction
           (prev_at (stored_previous_content (store w) (secs !! (start_index - 1))) ws k) /\
         section_output llm (f attr_model) v (trace w ++ take (2 * k) evs) = Ok out /\ gco_content out = c).
Proof.
  intros Hi Hst. pose proof (remaining_sections_run llm input f Hattr start_index w Hi Hst) as Hr.
  set (prev := stored_previous_content (store w) (secs !! (start_index - 1))) in *.
  pose proof (carry_forward_in_order llm input f start_index (drop start_index (neighbours None secs))
                prev (trace w)) as Ho.
  pose proof (carry_forward_writes llm input f start_index (drop start_index (neighbours None secs))
                prev (trace w)) as Hw.
  destruct (carry_forward _ _ _ _ _ _ _) as [[ws evs] err].
  exists ws, evs, err. split; [done|]. split.
  { rewrite length_drop, length_neighbours in Ho. apply Ho. }
  intros k sid c Hk. destruct (Hw k sid c Hk) as (p & x & nx & out & Hts & -> & Hev & Hout & Hc).
  apply drop_neighbours_lookup in Hts.
  exists x, (step_vars f p x nx (prev_at prev ws k)), out.
  split; [done|]. split; [exact (stored_section_id _ _ _ Hst Hts)|]. by repeat split.
Qed.

(** C3: the background task writes the sections from [start_index]
    on in position order and all of them unless a call failed: its
    [k]-th write is to the row of section [start_index + k], and the
    content written is the model's answer to the model call recorded
    at event [2 k] of the run, whose prompt is for that section and
    which the model answered on the trace before it.  Nothing is
    raised; a failure is logged at the end of the trace. *)
Theorem remaining_sections_in_order start_index w :
  1 <= start_index -> sections_stored (store w) secs ->
  exists ws evs err,
    generate_remaining_sections llm input start_index w =
      (Ok tt, mkWorld (apply_writes (store w) ws) (trace w ++ evs ++ background_error_log err)) /\
    (err = None <-> length ws = length secs - start_index) /\
    (forall k sid c, ws !! k = Some (sid, c) ->
       exists x v out, secs !! (start_index + k) = Some x /\ sec_id x = Some sid /\
         evs !! (2 * k) = Some (EvModelSection (f attr_model) v) /\
         spv_current_section v = clean_section (Some x) /\
         section_output llm (f attr_model) v (trace w ++ take (2 * k) evs) = Ok out /\ gco_content out = c).
Proof.
  intros Hi Hst. destruct (remaining_sections_writes start_index w Hi Hst) as (ws & evs & err & Hrun & Herr & Hws).
  exists ws, evs, err. do 2 (split; [done|]).
  intros k sid c Hk. destruct (Hws k sid c Hk) as (x & v & out & Hx & Hid & Hev & Hcur & _ & Hout & Hc).
  by exists x, v, out.
Qed.

(** C4: in the background task, the prompt of each section carries the
    content generated for the section before it: the model call whose
    answer is the [k]-th write (to section [start_index + k]) has the
    previous-content instruction built from the stored content of
    section [start_index - 1] when [k = 0], and from the content of the
    [(k-1)]-th write otherwise. *)
Theorem remaining_sections_conditioned start_index w :
  1 <= start_index -> sections_stored (store w) secs ->
  exists ws evs err,
    generate_remaining_sections llm input start_index w =
      (Ok tt, mkWorld (apply_writes (store w) ws) (trace w ++ evs ++ background_error_log err)) /\
    (forall k sid c, ws !! k = Some (sid, c) ->
       exists x v out, secs !! (start_index + k) = Some x /\ sec_id x = Some sid /\
         evs !! (2 * k) = Some (EvModelSection (f attr_model) v) /\
         section_output llm (f attr_model) v (trace w ++ take (2 * k) evs) = Ok out /\ gco_content out = c /\
         spv_previous_content_instruction v = previous_content_instruction
           (match k with
            | 0 => stored_previous_content (store w) (secs !! (start_index - 1))
            | S j => from_option snd "" (ws !! j)
            end)).
Proof.
  intros Hi Hst. destruct (remaining_sections_writes start_index w Hi Hst) as (ws & evs & err & Hrun & _ & Hws).
  exists ws, evs, err. split; [done|].
  intros k sid c Hk. destruct (Hws k sid c Hk) as (x & v & out & Hx & Hid & Hev & _ & Hprev & Hout & Hc).
  exists x, v, out. by destruct k.
Qed.
(** C28: when the section at [start_index], the first the run
    processes, has no id, the background run ends: pydantic rejects [section_id=None] with a [ValidationError], before any model
    call or write; the error is logged and this section and all later
    ones stay unwritten. *)
Theorem section_without_id_stops_background start_index x w :
  1 <= start_index -> secs !! start_index = Some x -> sec_id x = None ->
  generate_remaining_sections llm input start_index w =
  (Ok tt, mkWorld (store w)
            (trace w ++ [EvLogError ("Error in background task generating sections: "
                                     ++ "section_id: Input should be a valid string")])).
Proof.
  intros Hi Hx Hid.
  assert (Hlt : start_index < length secs) by (by apply lookup_lt_Some in Hx).
  destruct (lookup_lt_is_Some_2 secs (start_index - 1)) as [p Hp]; [lia|].
  unfold generate_remaining_sections.
  destruct (length secs - start_index) as [|c] eqn:Hc; [lia|]. cbn [for_range].
  rewrite (run_try_Err _ _ _ _ _ (run_bind_Err _ _ _ _ _
             (remaining_section_step_no_id llm input f Hattr start_index p x w Hx Hp Hi Hid))).
  reflexivity.
Qed.
End Claims.

(** ** Concrete runs *)

Lemma demo_sections_stored : sections_stored (store demo_saved_world) demo_stored_sections.
Proof. apply sections_storedb_spec. vm_compute. reflexivity. Qed.

Lemma generate_remaining_sections_refines_witness :
  let '(ws, evs, err) :=
    carry_forward demo_llm demo_request (csr_attr demo_request) 1
      (drop 1 (neighbours None demo_stored_sections))
      (stored_previous_content (store demo_saved_world) (demo_stored_sections !! (1 - 1)))
      (trace demo_saved_world) in
  generate_remaining_sections demo_llm demo_request 1 demo_saved_world =
  (Ok tt, mkWorld (apply_writes (store demo_saved_world) ws)
                  (trace demo_saved_world ++ evs ++ background_error_log err)).
Proof.
  exact (generate_remaining_sections_refines demo_llm demo_request (csr_attr demo_request)
           (csr_attr_ok demo_request) 1 demo_saved_world ltac:(lia) demo_sections_stored).
Defined.

Lemma remaining_sections_in_order_witness :
  1 <= 1 /\ sections_stored (store demo_saved_world) demo_stored_sections /\
  exists ws evs err,
    generate_remaining_sections demo_llm demo_request 1 demo_saved_world =
      (Ok tt, mkWorld (apply_writes (store demo_saved_world) ws)
                      (trace demo_saved_world ++ evs ++ background_error_log err)) /\
    (err = None <-> length ws = length demo_stored_sections - 1) /\
    (forall k sid c, ws !! k = Some (sid, c) ->
       exists x v out, demo_stored_sections !! (1 + k) = Some x /\ sec_id x = Some sid /\
         evs !! (2 * k) = Some (EvModelSection "gpt-4o-mini" v) /\
         spv_current_section v = clean_section (Some x) /\
         section_output demo_llm "gpt-4o-mini" v (trace demo_saved_world ++ take (2 * k) evs) = Ok out /\
         gco_content out = c).
Proof.
  split; [lia|]. split; [exact demo_sections_stored|].
  exact (remaining_sections_in_order demo_llm demo_request (csr_attr demo_request)
           (csr_attr_ok demo_request) 1 demo_saved_world ltac:(lia) demo_sections_stored).
Defined.

Lemma remaining_sections_conditioned_witness :
  1 <= 1 /\ sections_stored (store demo_saved_world) demo_stored_sections /\
  exists ws evs err,
    generate_remaining_sections demo_llm demo_request 1 demo_saved_world =
      (Ok tt, mkWorld (apply_writes (store demo_saved_world) ws)
                      (trace demo_saved_world ++ evs ++ background_error_log err)) /\
    (forall k sid c, ws !! k = Some (sid, c) ->
       exists x v out, demo_stored_sections !! (1 + k) = Some x /\ sec_id x = Some sid /\
         evs !! (2 * k) = Some (EvModelSection "gpt-4o-mini" v) /\
         section_output demo_llm "gpt-4o-mini" v (trace demo_saved_world ++ take (2 * k) evs) = Ok out /\
         gco_content out = c /\
         spv_previous_content_instruction v = previous_content_instruction
           (match k with
            | 0 => stored_previous_content (store demo_saved_world) (demo_stored_sections !! (1 - 1))
            | S j => from_option snd "" (ws !! j)
            end)).
Proof.
  split; [lia|]. split; [exact demo_sections_stored|].
  exact (remaining_sections_conditioned demo_llm demo_request (csr_attr demo_request)
           (csr_attr_ok demo_request) 1 demo_saved_world ltac:(lia) demo_sections_stored).
Defined.

(** The example request with the sections of the draft, before they
    were saved: no section carries an id. *)
Definition demo_request_unsaved : CompleteScriptRequest :=
  mkCompleteScriptRequest (mkOutline None demo_sections) "The Silent Archive"
    "declassified records" "first" "basically, actually" "gpt-4o-mini".

Lemma section_without_id_stops_background_witness :
  generate_remaining_sections demo_llm demo_request_unsaved 1 demo_world =
  (Ok tt, mkWorld (store demo_world)
            (trace demo_world ++ [EvLogError ("Error in background task generating sections: "
                                              ++ "section_id: Input should be a valid string")])).
Proof.
  exact (section_without_id_stops_background demo_llm demo_request_unsaved (csr_attr demo_request_unsaved)
           (csr_attr_ok demo_request_unsaved) 1
           (mkOutlineSection None None 1 "What was found" "the discovery" "raise the stakes") demo_world
           ltac:(lia) eq_refl eq_refl).
Defined.
