(* ===== verification/Routes.v ===== *)
(** * Routes: the FastAPI router of src/server/routes/content.py

    Each handler of [router] (prefix [/outline]) calls the service or
    the repository inside a [try] and turns an exception into an
    [HTTPException] with status 500, or 404 for a [ValueError] of
    [GET /outline/{outline_id}].  FastAPI turns a raised
    [HTTPException] into the error response and nothing between the
    handler and the client catches it, so a handler is modelled as a
    computation of [PyM World] that returns a [Response]: the body with
    its status code, or the exception's status code and detail.

    The module [Router] keeps the handlers' names, which are also
    names of the service and the repository ([Service.save_outline],
    [Repository.get_outline], ...).  [handle] dispatches one request and
    then runs the background tasks the handler queued, as Starlette
    does after the response is sent; [serve] handles requests one after
    the other. *)

From S2P Require Import Prelude.
From S2P Require Import Models.
From S2P Require Import Supabase.
From S2P Require Import Repository.
From S2P Require Import Prompts.
From S2P Require Import Service.
From S2P Require Import Pipeline.

(** [fastapi.status] *)
Definition HTTP_200_OK : Z := 200.
Definition HTTP_201_CREATED : Z := 201.
Definition HTTP_202_ACCEPTED : Z := 202.
Definition HTTP_404_NOT_FOUND : Z := 404.
Definition HTTP_500_INTERNAL_SERVER_ERROR : Z := 500.

(** What the client receives: the body with the route's status code, or
    the status code and detail of an [HTTPException]. *)
Inductive Response (A : Type) : Type :=
| Respond (status_code : Z) (body : A)
| HTTPException (status_code : Z) (detail : string).
Arguments Respond {A} status_code body.
Arguments HTTPException {A} status_code detail.

Definition status_of {A} (r : Response A) : Z :=
  match r with Respond c _ | HTTPException c _ => c end.

(** [except Exception as e: logger.error(f"{what}: {str(e)}");
    raise HTTPException(status_code=500, detail=f"{failed}: {str(e)}")] *)
Definition fail_500 {A} (what failed : string) (e : PyExc) : PyM World (Response A) :=
  let* _ := emit (EvLogError (what ++ ": " ++ exc_str e)) in
  ret (HTTPException HTTP_500_INTERNAL_SERVER_ERROR (failed ++ ": " ++ exc_str e)).

(** [except ValueError]: pydantic's [ValidationError] is a subclass of
    [ValueError]; the other exceptions of the model are not. *)
Definition is_value_error (e : PyExc) : bool :=
  match e with ValueError _ | ValidationError _ => true | _ => false end.

(** [OutlineSection] built from the keyword arguments of a row of [outline_sections]: the
    row's other columns ([content]) are ignored by the model. *)
Definition outline_section_of_row (r : SectionRow) : OutlineSection :=
  mkOutlineSection (Some (srow_id r)) (Some (srow_outline_id r)) (srow_position r)
    (srow_title r) (srow_description r) (srow_instructions r).

(** [WrittenOutlineSection(id=section["id"], ...)] *)
Definition written_section_of_row (r : SectionRow) : WrittenOutlineSection :=
  mkWrittenOutlineSection (Some (srow_id r)) (srow_title r) (srow_description r)
    (srow_instructions r) (srow_content r).

Module Router.
Section Handlers.
Context (llm : ChatModel).

(** [POST /outline/generate], lines 17-33. *)
Definition generate_outline (request : GenerateOutlineInput) : PyM World (Response Outline) :=
  try_except
    (let* outline := generate_outline_draft llm request in
     ret (Respond HTTP_200_OK outline))
    (fail_500 "Error generating outline" "Failed to generate outline").

(** [POST /outline/save], lines 35-51. *)
Definition save_outline (request : SaveOutlineInput) : PyM World (Response OutlineResponse) :=
  try_except
    (let* outline_id := Service.save_outline request in
     ret (Respond HTTP_201_CREATED (mkOutlineResponse outline_id)))
    (fail_500 "Error saving outline" "Failed to save outline").

(** [GET /outline/{outline_id}], lines 53-85. *)
Definition get_outline (outline_id : string) : PyM World (Response Outline) :=
  try_except
    (let* outline_data := db (Repository.get_outline outline_id) in
     let* sections_data := db (Repository.get_outline_sections outline_id) in
     let sections := outline_section_of_row <$> sections_data in
     ret (Respond HTTP_200_OK (mkOutline (Some outline_id) sections)))
    (fun e =>
       if is_value_error e then
         let* _ := emit (EvLogError ("Outline not found: " ++ exc_str e)) in
         ret (HTTPException HTTP_404_NOT_FOUND ("Outline not found: " ++ exc_str e))
       else fail_500 "Error retrieving outline" "Failed to retrieve outline" e).

Context {I : Type} `{ScriptInput I}.

(** [POST /outline/complete], lines 87-110.  The handler returns the
    response together with the background tasks attached to it; when it
    raises, the error response carries no background tasks. *)
Definition generate_complete_script (background_tasks : list (BackgroundTask I)) (request : I)
    : PyM World (Response WrittenOutlineSection * list (BackgroundTask I)) :=
  try_except
    (let* first := generate_complete_script_incremental llm background_tasks request in
     ret (Respond HTTP_202_ACCEPTED (fst first), snd first))
    (fun e =>
       let* r := fail_500 "Error starting script generation" "Failed to start script generation" e in
       ret (r, [])).

(** [POST /outline/complete/incremental], lines 112-134: the same body. *)
Definition generate_complete_script_incremental (background_tasks : list (BackgroundTask I)) (request : I)
    : PyM World (Response WrittenOutlineSection * list (BackgroundTask I)) :=
  try_except
    (let* first := Service.generate_complete_script_incremental llm background_tasks request in
     ret (Respond HTTP_202_ACCEPTED (fst first), snd first))
    (fun e =>
       let* r := fail_500 "Error starting script generation" "Failed to start script generation" e in
       ret (r, [])).

(** [GET /outline/{outline_id}/sections], lines 136-162. *)
Definition get_outline_sections (outline_id : string)
    : PyM World (Response (list WrittenOutlineSection)) :=
  try_except
    (let* sections_data := db (Repository.get_outline_sections outline_id) in
     ret (Respond HTTP_200_OK (written_section_of_row <$> sections_data)))
    (fail_500 "Error retrieving outline sections" "Failed to retrieve outline sections").
End Handlers.
End Router.

(** ** The application *)

(** A request to the router. *)
Inductive Request (I : Type) : Type :=
| PostGenerate (body : GenerateOutlineInput)
| PostSave (body : SaveOutlineInput)
| GetOutline (outline_id : string)
| PostComplete (body : I)
| PostCompleteIncremental (body : I)
| GetSections (outline_id : string).
Arguments PostGenerate {I} body.
Arguments PostSave {I} body.
Arguments GetOutline {I} outline_id.
Arguments PostComplete {I} body.
Arguments PostCompleteIncremental {I} body.
Arguments GetSections {I} outline_id.

(** The [response_model] of each route. *)
Inductive Body : Type :=
| OutlineBody (o : Outline)
| OutlineIdBody (r : OutlineResponse)
| SectionBody (s : WrittenOutlineSection)
| SectionsBody (l : list WrittenOutlineSection).

Definition map_response {A B} (f : A -> B) (r : Response A) : Response B :=
  match r with
  | Respond c b => Respond c (f b)
  | HTTPException c d => HTTPException c d
  end.

Section App.
Context (llm : ChatModel) {I : Type} `{ScriptInput I}.

(** Starlette runs the tasks attached to a response one after the
    other, once the response is sent. *)
Fixpoint run_tasks (tasks : list (BackgroundTask I)) : PyM World unit :=
  match tasks with
  | [] => ret tt
  | t :: ts => let* _ := run_task llm t in run_tasks ts
  end.

Definition respond {A} (f : A -> Body) (m : PyM World (Response A)) : PyM World (Response Body) :=
  let* r := m in ret (map_response f r).

Definition respond_then_run (m : PyM World (Response WrittenOutlineSection * list (BackgroundTask I)))
    : PyM World (Response Body) :=
  let* r := m in
  let* _ := run_tasks (snd r) in
  ret (map_response SectionBody (fst r)).

(** One request; FastAPI gives each request a fresh [BackgroundTasks]. *)
Definition handle (req : Request I) : PyM World (Response Body) :=
  match req with
  | PostGenerate b => respond OutlineBody (Router.generate_outline llm b)
  | PostSave b => respond OutlineIdBody (Router.save_outline b)
  | GetOutline oid => respond OutlineBody (Router.get_outline oid)
  | PostComplete b => respond_then_run (Router.generate_complete_script llm [] b)
  | PostCompleteIncremental b => respond_then_run (Router.generate_complete_script_incremental llm [] b)
  | GetSections oid => respond SectionsBody (Router.get_outline_sections oid)
  end.

(** Requests handled one after the other. *)
Fixpoint serve (reqs : list (Request I)) : PyM World (list (Response Body)) :=
  match reqs with
  | [] => ret []
  | r :: rs => let* resp := handle r in let* resps := serve rs in ret (resp :: resps)
  end.
End App.

(** ** The handlers on every branch *)

Lemma world_eta w : mkWorld (store w) (trace w) = w.
Proof. by destruct w. Qed.

Lemma get_outline_route_found oid w o :
  outlines (store w) !! oid = Some o ->
  Router.get_outline oid w =
  (Ok (Respond HTTP_200_OK (mkOutline (Some oid)
         (outline_section_of_row <$> merge_sort position_le (outline_rows (store w) oid)))), w).
Proof.
  intros Ho. unfold Router.get_outline. apply run_try_Ok.
  run_step (db_run _ w _ _ (get_outline_found _ _ _ Ho)). rewrite world_eta.
  unfold get_outline_sections, db, bind. simpl. by rewrite world_eta.
Qed.

Lemma get_outline_route_missing oid w :
  outlines (store w) !! oid = None ->
  Router.get_outline oid w =
  (Ok (HTTPException HTTP_404_NOT_FOUND ("Outline not found: Outline with ID " ++ oid ++ " not found")),
   mkWorld (store w) (trace w ++ [EvLogError ("Outline not found: Outline with ID " ++ oid ++ " not found")])).
Proof.
  intros Ho. unfold Router.get_outline.
  rewrite (run_try_Err _ _ _ _ _ (run_bind_Err _ _ _ _ _ (db_run _ w _ _ (get_outline_missing _ _ Ho)))).
  reflexivity.
Qed.

(** The sections the client sees after saving: the input sections with
    the ids the store assigned, [n] being the row counter before the
    save. *)
Definition assigned_section (n : N) (oid : string) (i : nat) (s : OutlineSection) : OutlineSection :=
  mkOutlineSection (Some (row_id (n + 1 + N.of_nat i))) (Some oid) (sec_position s)
    (sec_title s) (sec_description s) (sec_instructions s).

Lemma assigned_positions n oid secs :
  sec_position <$> imap (assigned_section n oid) secs = sec_position <$> secs.
Proof. apply list_eq. intros i. rewrite !list_lookup_fmap, list_lookup_imap. by destruct (secs !! i). Qed.

#[export] Instance position_le_total : Total position_le.
Proof. intros r1 r2. unfold position_le. lia. Qed.

Lemma save_outline_route_ok input w st' oid :
  Service.save_outline input w = (Ok oid, mkWorld st' (trace w)) ->
  Router.save_outline input w = (Ok (Respond HTTP_201_CREATED (mkOutlineResponse oid)), mkWorld st' (trace w)).
Proof. intros Hrun. unfold Router.save_outline. apply run_try_Ok. by run_step Hrun. Qed.

(** The rows of the saved outline, as the client sees them, are the
    input sections with their assigned ids. *)
Lemma saved_outline_rows input w st' :
  let n := next_row (store w) in
  let oid := row_id n in
  (forall k r, outline_sections st' !! k = Some r /\ srow_outline_id r = oid <->
     exists i s, soi_sections input !! i = Some s /\
       k = row_id (n + 1 + N.of_nat i) /\ r = section_row_of k (section_data_of oid s)) ->
  forall x, x ∈ outline_section_of_row <$> outline_rows st' oid <->
            x ∈ imap (assigned_section n oid) (soi_sections input).
Proof.
  intros n oid Hrows x. rewrite list_elem_of_fmap, list_elem_of_lookup. split.
  - intros (r & -> & (Hro & k & Hk)%elem_of_outline_rows).
    destruct (proj1 (Hrows k r) (conj Hk Hro)) as (i & s & Hi & -> & ->).
    exists i. by rewrite list_lookup_imap, Hi.
  - intros (i & Hi). rewrite list_lookup_imap in Hi.
    destruct (soi_sections input !! i) as [s|] eqn:Hs; [|done]. injection Hi as <-.
    set (k := row_id (n + 1 + N.of_nat i)).
    destruct (proj2 (Hrows k (section_row_of k (section_data_of oid s)))) as [Hk Ho]; [eauto 6|].
    exists (section_row_of k (section_data_of oid s)). split; [done|].
    apply elem_of_outline_rows. eauto.
Qed.

(** ** Saving and reading back *)

(** C20: round trip.  [POST /outline/save] of sections with distinct
    positions answers 201 with a fresh outline id, and a following
    [GET /outline/{outline_id}] answers 200 with that id and the saved
    sections, each with its assigned row id and the outline id, ordered
    by position; the read changes nothing.  When the input positions
    increase, the sections come back in the order they were saved. *)
Theorem save_then_get_outline input w :
  store_inv (store w) -> NoDup (sec_position <$> soi_sections input) ->
  let n := next_row (store w) in
  let oid := row_id n in
  exists w1,
    Router.save_outline input w = (Ok (Respond HTTP_201_CREATED (mkOutlineResponse oid)), w1) /\
    Router.get_outline oid w1 =
      (Ok (Respond HTTP_200_OK (mkOutline (Some oid)
             (merge_sort (key_le sec_position) (imap (assigned_section n oid) (soi_sections input))))), w1) /\
    (Sorted Z.lt (sec_position <$> soi_sections input) ->
     merge_sort (key_le sec_position) (imap (assigned_section n oid) (soi_sections input)) =
     imap (assigned_section n oid) (soi_sections input)).
Proof.
  intros Hinv Hnd n oid.
  destruct (save_outline_ok input w Hinv Hnd) as (st' & Hrun & Ho & Hrows).
  pose proof (save_outline_inv input w Hinv) as [Hwf' _]. rewrite Hrun in Hwf'.
  exists (mkWorld st' (trace w)). split; [by apply save_outline_route_ok|].
  split; [|intros Hs; apply merge_sort_key_sorted; by rewrite assigned_positions].
  rewrite (get_outline_route_found oid (mkWorld st' (trace w)) _ Ho). do 4 f_equal. cbn [store snd] in *.
  apply (key_sorted_unique sec_position).
  - apply (Sorted_fmap _ position_le); [done | apply Sorted_merge_sort, _].
  - apply Sorted_merge_sort, _.
  - rewrite <- list_fmap_compose, (merge_sort_Permutation _ (outline_rows _ _)).
    by apply outline_rows_positions_NoDup.
  - by rewrite (merge_sort_Permutation _ (imap _ _)), assigned_positions.
  - intros x. rewrite (merge_sort_Permutation _ (outline_rows _ _)), (merge_sort_Permutation _ (imap _ _)).
    by apply (saved_outline_rows input w st').
Qed.

(** ** Every request is answered *)

(** The status codes a route can answer with: its decorator's
    [status_code], 500 from its [except Exception], and 404 from the
    [except ValueError] of [GET /outline/{outline_id}]. *)
Definition route_statuses {I} (req : Request I) : list Z :=
  match req with
  | PostGenerate _ | GetSections _ => [HTTP_200_OK; HTTP_500_INTERNAL_SERVER_ERROR]
  | PostSave _ => [HTTP_201_CREATED; HTTP_500_INTERNAL_SERVER_ERROR]
  | GetOutline _ => [HTTP_200_OK; HTTP_404_NOT_FOUND; HTTP_500_INTERNAL_SERVER_ERROR]
  | PostComplete _ | PostCompleteIncremental _ => [HTTP_202_ACCEPTED; HTTP_500_INTERNAL_SERVER_ERROR]
  end.

(** Unfold a handler down to the monad's primitives. *)
Ltac unfold_handlers :=
  unfold respond, respond_then_run, Router.generate_outline, Router.save_outline, Router.get_outline,
    Router.generate_complete_script, Router.generate_complete_script_incremental,
    Router.get_outline_sections, fail_500.

Ltac unfold_router := unfold_handlers; unfold try_except, bind, emit, ret.

Lemma run_task_ok llm {I} `{ScriptInput I} (t : BackgroundTask I) w :
  exists w', run_task llm t w = (Ok tt, w').
Proof.
  destruct t as [input i]. unfold run_task, generate_remaining_sections, try_except.
  destruct (for_range _ _ _ w) as [[[]|e] w']; eauto.
Qed.

Lemma run_tasks_ok llm {I} `{ScriptInput I} (ts : list (BackgroundTask I)) w :
  exists w', run_tasks llm ts w = (Ok tt, w').
Proof.
  revert w. induction ts as [|t ts IH]; intros w; [by eexists|].
  destruct (run_task_ok llm t w) as [w1 Ht]. simpl. rewrite (run_bind_Ok _ _ _ _ _ Ht). apply IH.
Qed.

(** C21: no exception escapes the router: every request is answered,
    with the status code of its route's decorator, 500, or (for
    [GET /outline/{outline_id}] only) 404; the background tasks the
    complete routes queue run after the answer and raise nothing. *)
Theorem every_request_answered llm {I} `{ScriptInput I} (req : Request I) w :
  exists r w', handle llm req w = (Ok r, w') /\ status_of r ∈ route_statuses req.
Proof.
  destruct req; cbn [handle]; unfold_router;
    repeat (case_match; simplify_eq/=);
    try match goal with
        | Hr : run_tasks ?llm ?l ?w = (Err _, _) |- _ =>
            destruct (run_tasks_ok llm l w) as [? ?]; congruence
        end;
    eexists _, _; (split; [reflexivity | cbn; set_solver]).
Qed.

(** ** The complete-script endpoints as deployed *)

(** C22: as deployed, where the body is parsed into
    [GenerateCompleteScriptInput], [POST /outline/complete] and
    [POST /outline/complete/incremental] answer 500 to every request:
    "No sections found in the outline" for an empty outline, otherwise
    the [AttributeError] on [input.script_title]; the store is
    unchanged, no model is called and no background task runs, the
    trace only gains the two error log lines. *)
Theorem complete_routes_answer_500 llm (input : GenerateCompleteScriptInput) w :
  let e := match ol_sections (gcs_outline input) with
           | [] => ValueError "No sections found in the outline"
           | _ :: _ => AttributeError "'GenerateCompleteScriptInput' object has no attribute 'script_title'"
           end in
  let answer := HTTPException HTTP_500_INTERNAL_SERVER_ERROR ("Failed to start script generation: " ++ exc_str e) in
  let w' := mkWorld (store w) (trace w ++ [EvLogError ("Error generating script incrementally: " ++ exc_str e);
                                           EvLogError ("Error starting script generation: " ++ exc_str e)]) in
  handle llm (PostComplete input) w = (Ok answer, w') /\
  handle llm (PostCompleteIncremental input) w = (Ok answer, w').
Proof.
  destruct input as [[oid [|x [|y l]]]]; destruct w as [st tr];
    (split; cbn; by rewrite <- app_assoc).
Qed.

(** C23: [GET /outline/{outline_id}] answers 404 exactly when no
    outline row has that id, with the repository's message in the
    detail, and 200 otherwise; it never writes to the store. *)
Theorem get_outline_404_iff_missing llm {I} `{ScriptInput I} oid w :
  exists r w', handle llm (GetOutline (I := I) oid) w = (Ok r, w') /\ store w' = store w /\
    (status_of r = HTTP_404_NOT_FOUND <-> outlines (store w) !! oid = None) /\
    (outlines (store w) !! oid = None ->
     r = HTTPException HTTP_404_NOT_FOUND ("Outline not found: Outline with ID " ++ oid ++ " not found")).
Proof.
  cbn [handle]. unfold respond.
  destruct (outlines (store w) !! oid) as [o|] eqn:Ho.
  - rewrite (run_bind_Ok _ _ _ _ _ (get_outline_route_found _ _ _ Ho)).
    eexists _, _. split; [reflexivity|]. split; [done|]. split; [|done]. cbn. split; discriminate.
  - rewrite (run_bind_Ok _ _ _ _ _ (get_outline_route_missing _ _ Ho)).
    eexists _, _. split; [reflexivity|]. done.
Qed.

(** ** Polling the sections *)

Lemma get_outline_sections_route_run oid w :
  Router.get_outline_sections oid w =
  (Ok (Respond HTTP_200_OK (written_section_of_row <$> merge_sort position_le (outline_rows (store w) oid))), w).
Proof. unfold Router.get_outline_sections. apply run_try_Ok. by destruct w. Qed.

(** C25: [GET /outline/{outline_id}/sections] always answers 200 and
    changes nothing: the body lists each row of the outline once,
    ordered by distinct positions; for an id with no outline row the
    list is empty (no 404, unlike [GET /outline/{outline_id}]). *)
Theorem get_sections_lists_outline_rows llm {I} `{ScriptInput I} oid w :
  store_inv (store w) ->
  exists rows,
    handle llm (GetSections (I := I) oid) w =
      (Ok (Respond HTTP_200_OK (SectionsBody (written_section_of_row <$> rows))), w) /\
    Sorted position_le rows /\ NoDup (srow_position <$> rows) /\
    (forall r, r ∈ rows <-> srow_outline_id r = oid /\ exists k, outline_sections (store w) !! k = Some r) /\
    (outlines (store w) !! oid = None -> rows = []).
Proof.
  intros [Hwf Hrefs]. exists (merge_sort position_le (outline_rows (store w) oid)).
  cbn [handle]. unfold respond. rewrite (run_bind_Ok _ _ _ _ _ (get_outline_sections_route_run oid w)).
  split; [done|]. split; [apply Sorted_merge_sort, _|].
  split; [rewrite (merge_sort_Permutation _ (outline_rows _ _)); by apply outline_rows_positions_NoDup|].
  split; [intros r; rewrite (merge_sort_Permutation _ (outline_rows _ _)); apply elem_of_outline_rows|].
  intros Hnone. apply Permutation_nil_r. rewrite (merge_sort_Permutation _ (outline_rows _ _)).
  destruct (outline_rows (store w) oid) as [|r rs] eqn:E; [done|]. exfalso.
  assert (Hr : r ∈ outline_rows (store w) oid) by (rewrite E; left).
  apply elem_of_outline_rows in Hr as (<- & k & Hk). destruct (Hrefs k r Hk) as [o Ho]. congruence.
Qed.

(** ** The complete-script workflow with a conforming request *)

(** C24: with a request body whose generation parameters resolve (the
    body [example_complete_script_input] documents), whose sections are
    the stored rows of an outline, and a model that always answers with
    non-empty content, [POST /outline/complete/incremental] answers 202
    with the first section's content, and once its background task has
    run every section of the outline has non-empty stored content. *)
Theorem complete_incremental_fills_all_sections llm {I} `{ScriptInput I} (input : I) f w :
  (forall a, script_attr input a = Ok (f a)) ->
  sections_stored (store w) (ol_sections (script_outline input)) ->
  ol_sections (script_outline input) <> [] ->
  (forall m v h, exists out, section_output llm m v h = Ok out /\ gco_content out <> "") ->
  exists first w',
    handle llm (PostCompleteIncremental input) w = (Ok (Respond HTTP_202_ACCEPTED (SectionBody first)), w') /\
    ws_content first <> "" /\
    Forall (fun x => filled (store w') (sid_of x)) (ol_sections (script_outline input)).
Proof.
  intros Hattr Hst Hne Hm. revert Hst Hne.
  destruct (ol_sections (script_outline input)) as [|x0 rest] eqn:Hsecs; intros Hst Hne; [done|].
  destruct (Forall_cons_1 _ _ _ Hst) as [(sid0 & r0 & Hsid0 & Ht0 & Hr0) _].
  pose proof (incremental_first_section_run llm input f [] w x0 rest sid0 Hattr Hsecs Hsid0) as Hinc.
  cbv zeta in Hinc. destruct Hinc as (_ & _ & Hinc).
  pose proof (generate_outline_section_content_run llm
    (mkGenerateOutlineSectionContentInput sid0 x0 None (head rest) (f attr_script_title) (f attr_context)
       (f attr_n_person_view) (f attr_excluded_words) (f attr_model)) w) as Hgen.
  cbv zeta in Hgen. cbn [gci_model gci_section_id] in Hgen.
  destruct (Hm (f attr_model) (section_vars (store w)
    (mkGenerateOutlineSectionContentInput sid0 x0 None (head rest) (f attr_script_title) (f attr_context)
       (f attr_n_person_view) (f attr_excluded_words) (f attr_model))) (trace w)) as (out & Hout & Hc).
  rewrite Hout, Ht0, Hr0 in Hgen. rewrite Hgen in Hinc.
  set (w1 := mkWorld (write_content (store w) sid0 r0 (gco_content out)) _) in Hinc.
  assert (Hf0 : filled (store w1) (sid_of x0)).
  { unfold sid_of. rewrite Hsid0. exists (set_content (gco_content out) r0). cbn. by rewrite lookup_insert_eq. }
  cbn [handle]. unfold respond_then_run, Router.generate_complete_script_incremental.
  rewrite (run_bind_Ok _ _ _ _ _ (run_try_Ok _ _ _ _ _ (run_bind_Ok _ _ _ _ _ Hinc))).
  cbn [fst snd].
  destruct rest as [|x1 rest].
  - cbn. eexists _, _. split; [reflexivity|]. split; [done|]. by constructor.
  - pose proof (sections_stored_write _ _ _ _ (gco_content out) Hst Hr0) as Hst1.
    rewrite <- Hsecs in Hst1.
    pose proof (remaining_sections_run llm input f Hattr 1 w1 (le_n 1) Hst1) as Hrun.
    pose proof (carry_forward_complete llm input f 1 (drop 1 (neighbours None (ol_sections (script_outline input))))
                  (stored_previous_content (store w1) (ol_sections (script_outline input) !! 0)) (trace w1) Hm) as Hcf.
    revert Hrun Hcf. cbn [Nat.sub]. destruct (carry_forward _ _ _ _ _ _ _) as [[ws evs] err].
    intros Hrun (-> & Hfst & Hall).
    cbn [app run_tasks run_task]. unfold bind. rewrite Hrun. cbn.
    eexists _, _. split; [reflexivity|]. split; [done|].
    rewrite Hsecs in Hfst. cbn in Hfst. rewrite mid_neighbours in Hfst.
    apply Forall_forall. intros x Hx. apply (apply_writes_filled _ _ _ Hall).
    apply elem_of_cons in Hx as [->|Hx]; [by left|]. right. split; [rewrite Hfst; exact (list_elem_of_fmap_2 sid_of (x1 :: rest) x Hx)|].
    rewrite Hsecs in Hst1.
    destruct (proj1 (Forall_forall _ _) Hst1 x (list_elem_of_further _ _ _ Hx)) as (sid & r & Hsid & _ & Hr).
    unfold sid_of. rewrite Hsid. by exists r.
Qed.

(** ** The store invariant across requests *)

Lemma run_tasks_inv llm {I} `{ScriptInput I} (ts : list (BackgroundTask I)) :
  preserves (fun w => store_inv (store w)) (run_tasks llm ts).
Proof. induction ts as [|[input i] ts IH]; cbn [run_tasks run_task]; solve_preserves. Qed.

#[export] Hint Resolve run_tasks_inv : pym.

Lemma handle_inv llm {I} `{ScriptInput I} (req : Request I) :
  preserves (fun w => store_inv (store w)) (handle llm req).
Proof.
  destruct req; cbn [handle]; unfold_handlers; solve_preserves.
Qed.

#[export] Hint Resolve handle_inv : pym.

(** C26: whatever requests the application handles, one after the
    other and with their background tasks, the store invariant holds
    afterwards if it held before: row ids match keys and are fresh, no
    two sections of an outline share a position, and every section row
    belongs to a stored outline. *)
Theorem serve_preserves_store_inv llm {I} `{ScriptInput I} (reqs : list (Request I)) w :
  store_inv (store w) -> store_inv (store (snd (serve llm reqs w))).
Proof.
  revert w. change (preserves (fun w => store_inv (store w)) (serve llm reqs)).
  induction reqs as [|req reqs IH]; cbn [serve]; solve_preserves.
Qed.

(** ** Concrete runs *)

Lemma save_then_get_outline_witness :
  exists w1,
    Router.save_outline demo_save_input demo_world =
      (Ok (Respond HTTP_201_CREATED (mkOutlineResponse (row_id 0))), w1) /\
    Router.get_outline (row_id 0) w1 =
      (Ok (Respond HTTP_200_OK (mkOutline (Some (row_id 0))
             (merge_sort (key_le sec_position) (imap (assigned_section 0 (row_id 0)) demo_sections)))), w1) /\
    (Sorted Z.lt (sec_position <$> demo_sections) ->
     merge_sort (key_le sec_position) (imap (assigned_section 0 (row_id 0)) demo_sections) =
     imap (assigned_section 0 (row_id 0)) demo_sections).
Proof.
  exact (save_then_get_outline demo_save_input demo_world empty_store_inv
           ltac:(apply (bool_decide_unpack _); vm_compute; reflexivity)).
Defined.

(** The sections of the saved demo outline come back in input order,
    with the ids [row-1] to [row-3]. *)
Example demo_get_outline_sections :
  imap (assigned_section 0 (row_id 0)) demo_sections = demo_stored_sections.
Proof. reflexivity. Qed.

Lemma complete_incremental_fills_all_sections_witness :
  exists first w',
    handle demo_llm (PostCompleteIncremental demo_request) demo_saved_world =
      (Ok (Respond HTTP_202_ACCEPTED (SectionBody first)), w') /\
    ws_content first <> "" /\
    Forall (fun x => filled (store w') (sid_of x)) demo_stored_sections.
Proof.
  exact (complete_incremental_fills_all_sections demo_llm demo_request (csr_attr demo_request)
           demo_saved_world (csr_attr_ok demo_request) demo_sections_stored
           ltac:(cbv; discriminate)
           ltac:(intros m v h; eexists; split; [reflexivity | cbn; discriminate])).
Defined.

Lemma demo_saved_world_inv : store_inv (store demo_saved_world).
Proof. exact (save_outline_inv demo_save_input demo_world empty_store_inv). Qed.

Lemma get_sections_lists_outline_rows_witness :
  exists rows,
    handle demo_llm (GetSections (I := CompleteScriptRequest) (row_id 0)) demo_saved_world =
      (Ok (Respond HTTP_200_OK (SectionsBody (written_section_of_row <$> rows))), demo_saved_world) /\
    Sorted position_le rows /\ NoDup (srow_position <$> rows) /\
    (forall r, r ∈ rows <-> srow_outline_id r = row_id 0 /\
                            exists k, outline_sections (store demo_saved_world) !! k = Some r) /\
    (outlines (store demo_saved_world) !! row_id 0 = None -> rows = []).
Proof. exact (get_sections_lists_outline_rows demo_llm (row_id 0) demo_saved_world demo_saved_world_inv). Defined.

Lemma serve_preserves_store_inv_witness :
  store_inv (store (snd (serve demo_llm
    [PostSave demo_save_input; GetOutline (row_id 0); PostCompleteIncremental demo_request;
     GetSections (row_id 0)] demo_world))).
Proof. exact (serve_preserves_store_inv demo_llm _ demo_world empty_store_inv). Defined.
