(* ===== verification/Progress.v ===== *)
(** * Progress: the state machine of one script-generation run

    The spec (section 5) describes a run of
    [POST /outline/complete/incremental] as the states
    NOT_STARTED -> FIRST_SECTION_DONE -> BACKGROUND_RUNNING ->
    (BACKGROUND_DONE | BACKGROUND_FAILED_PARTWAY), with no stored status
    field: progress is only observed by polling the sections' content.
    [Phase] names these states (plus the synchronous failure of the
    first section, which the client sees as a 500), and [advance] is one
    atomic step of the code: the request handler up to its response,
    the framework starting the queued task, and one iteration of the
    loop of [generate_remaining_sections].  Between two steps a client
    may poll [GET /outline/{outline_id}/sections], which only reads.

    [handle_runs_machine] shows that stepping the machine to the end
    gives exactly the world [handle] produces; [polls_see_prefix] shows,
    by induction on the steps, what a poll between any two steps sees. *)

From S2P Require Import Prelude.
From S2P Require Import Models.
From S2P Require Import Supabase.
From S2P Require Import Repository.
From S2P Require Import Prompts.
From S2P Require Import Service.
From S2P Require Import Pipeline.
From S2P Require Import Routes.

Inductive Phase : Type :=
| NotStarted
| FirstSectionFailed
| FirstSectionDone
| BackgroundRunning (index : nat)
| BackgroundDone
| BackgroundFailed (index : nat).

Definition terminal (ph : Phase) : bool :=
  match ph with
  | FirstSectionFailed | BackgroundDone | BackgroundFailed _ => true
  | _ => false
  end.

Section Machine.
Context (llm : ChatModel) {I : Type} `{ScriptInput I} (input : I).

Local Abbreviation secs := (ol_sections (script_outline input)).

(** The world after the handler of [generate_remaining_sections] logs
    the exception that ended the loop. *)
Definition log_background_error (w : World) (e : PyExc) : World :=
  snd (emit (EvLogError ("Error in background task generating sections: " ++ exc_str e)) w).

(** One atomic step of a run. *)
Definition advance (c : Phase * World) : option (Phase * World) :=
  let '(ph, w) := c in
  match ph with
  | NotStarted =>
      match Router.generate_complete_script_incremental llm [] input w with
      | (Ok (Respond _ _, _), w') => Some (FirstSectionDone, w')
      | (_, w') => Some (FirstSectionFailed, w')
      end
  | FirstSectionDone =>
      Some (if Nat.ltb 1 (length secs) then BackgroundRunning 1 else BackgroundDone, w)
  | BackgroundRunning i =>
      match remaining_section_step llm input i w with
      | (Ok _, w') =>
          Some (if Nat.ltb (S i) (length secs) then BackgroundRunning (S i) else BackgroundDone, w')
      | (Err e, w') => Some (BackgroundFailed i, log_background_error w' e)
      end
  | FirstSectionFailed | BackgroundDone | BackgroundFailed _ => None
  end.

Definition run_step (c c' : Phase * World) : Prop := advance c = Some c'.

(** The tasks the driver queues when it succeeds. *)
Lemma incremental_tasks bt w ws ts w' :
  generate_complete_script_incremental llm bt input w = (Ok (ws, ts), w') ->
  ts = if Nat.ltb 1 (length secs) then (bt ++ [GenerateRemainingSections input 1])%list else bt.
Proof.
  intros Hr. unfold generate_complete_script_incremental, log_and_reraise, try_except, bind,
    lift_res, raise, ret in Hr.
  cbv zeta in Hr. destruct secs as [|x l]; cbn in Hr; repeat (case_match; simplify_eq/=); done.
Qed.
(** The synchronous part: the handler always answers, 202 or 500, and
    queues the background task exactly when it answers 202 and there
    are several sections. *)
Lemma router_incremental_result w :
  exists r ts w', Router.generate_complete_script_incremental llm [] input w = (Ok (r, ts), w') /\
    match r with
    | Respond c _ => c = HTTP_202_ACCEPTED /\
        ts = if Nat.ltb 1 (length secs) then [GenerateRemainingSections input 1] else []
    | HTTPException c _ => c = HTTP_500_INTERNAL_SERVER_ERROR /\ ts = []
    end.
Proof.
  unfold Router.generate_complete_script_incremental, try_except, bind.
  destruct (generate_complete_script_incremental llm [] input w) as [[[ws ts]|e] w1] eqn:E.
  - apply incremental_tasks in E. eexists _, _, _. split; [reflexivity|]. done.
  - eexists _, _, _. split; [reflexivity|]. done.
Qed.

Lemma run_step_running i w w' :
  remaining_section_step llm input i w = (Ok tt, w') ->
  run_step (BackgroundRunning i, w)
           (if Nat.ltb (S i) (length secs) then BackgroundRunning (S i) else BackgroundDone, w').
Proof. intros Hs. unfold run_step, advance. cbn iota. by rewrite Hs. Qed.

Lemma run_step_failed i w e w' :
  remaining_section_step llm input i w = (Err e, w') ->
  run_step (BackgroundRunning i, w) (BackgroundFailed i, log_background_error w' e).
Proof. intros Hs. unfold run_step, advance. cbn iota. by rewrite Hs. Qed.

(** The loop from index [i] on, [S c] iterations, is the run of the
    machine from [BackgroundRunning i] to its end. *)
Lemma loop_runs_machine c i w :
  i + S c = length secs ->
  match for_range i (S c) (remaining_section_step llm input) w with
  | (Ok _, w') => rtc run_step (BackgroundRunning i, w) (BackgroundDone, w')
  | (Err e, w') => exists j, rtc run_step (BackgroundRunning i, w) (BackgroundFailed j, log_background_error w' e)
  end.
Proof.
  revert i w. induction c as [|c IH]; intros i w Hn; rewrite for_range_S; unfold bind at 1;
    destruct (remaining_section_step llm input i w) as [[[]|e] w1] eqn:Hs.
  - cbn. apply rtc_once. pose proof (run_step_running _ _ _ Hs) as Hr.
    by destruct (Nat.ltb_spec (S i) (length secs)); [lia|].
  - exists i. by apply rtc_once, run_step_failed.
  - specialize (IH (S i) w1 ltac:(lia)). pose proof (run_step_running _ _ _ Hs) as Hr.
    destruct (Nat.ltb_spec (S i) (length secs)); [|lia].
    destruct (for_range (S i) (S c) _ w1) as [[[]|e] w2]; cbn iota in IH |- *;
      [|destruct IH as [j IH]; exists j]; by eapply rtc_l.
  - exists i. by apply rtc_once, run_step_failed.
Qed.
End Machine.

(** C29: the step machine is the code.  For every request and world,
    running the machine from [NotStarted] reaches a final phase in
    exactly the world that [handle] leaves after the response and its
    background task; the response is 202 exactly when that phase is not
    [FirstSectionFailed], and 500 otherwise. *)
Theorem handle_runs_machine llm {I} `{ScriptInput I} (input : I) w :
  exists ph r w',
    handle llm (PostCompleteIncremental input) w = (Ok r, w') /\
    rtc (run_step llm input) (NotStarted, w) (ph, w') /\
    terminal ph = true /\
    (status_of r = HTTP_202_ACCEPTED <-> ph <> FirstSectionFailed).
Proof.
  destruct (router_incremental_result llm input w) as (r & ts & w1 & Hr & Hts).
  cbn [handle]. unfold respond_then_run. rewrite (run_bind_Ok _ _ _ _ _ Hr). cbn [fst snd].
  assert (Hfirst : forall c b, r = Respond c b -> run_step llm input (NotStarted, w) (FirstSectionDone, w1))
    by (intros c b ->; unfold run_step, advance; cbn iota; by rewrite Hr).
  destruct r as [c b|c d]; destruct Hts as [-> ->].
  - specialize (Hfirst _ _ eq_refl).
    destruct (Nat.ltb_spec 1 (length (ol_sections (script_outline input)))) as [Hn|Hn].
    + destruct (length (ol_sections (script_outline input)) - 1) as [|c] eqn:Hc; [lia|].
      pose proof (loop_runs_machine llm input c 1 w1 ltac:(lia)) as Hloop.
      assert (Hstart : run_step llm input (FirstSectionDone, w1) (BackgroundRunning 1, w1))
        by (unfold run_step, advance; cbn iota; by destruct (Nat.ltb_spec 1 (length (ol_sections (script_outline input)))); [|lia]).
      cbn [run_tasks run_task app]. unfold generate_remaining_sections. rewrite Hc.
      unfold try_except, bind at 1 2.
      destruct (for_range 1 (S c) _ w1) as [[[]|e] w2]; [|destruct Hloop as [j Hloop]]; cbn.
      * exists BackgroundDone, (map_response SectionBody (Respond HTTP_202_ACCEPTED b)), w2.
        split; [done|]. split; [by eapply rtc_l; [|eapply rtc_l]|]. split; [done|]. split; [intros _; discriminate | done].
      * eexists (BackgroundFailed j), (map_response SectionBody (Respond HTTP_202_ACCEPTED b)), _.
        split; [done|]. split; [by eapply rtc_l; [|eapply rtc_l]|]. split; [done|]. split; [intros _; discriminate | done].
    + assert (Hdone : run_step llm input (FirstSectionDone, w1) (BackgroundDone, w1))
        by (unfold run_step, advance; cbn iota; by destruct (Nat.ltb_spec 1 (length (ol_sections (script_outline input)))); [lia|]).
      exists BackgroundDone, (map_response SectionBody (Respond HTTP_202_ACCEPTED b)), w1. cbn.
      split; [done|]. split; [by eapply rtc_l; [|apply rtc_once]|]. split; [done|]. split; [intros _; discriminate | done].
  - exists FirstSectionFailed, (HTTPException HTTP_500_INTERNAL_SERVER_ERROR d), w1. cbn.
    split; [done|]. split; [apply rtc_once; unfold run_step, advance; cbn iota; by rewrite Hr|].
    split; [done|]. split; [intros Hs; discriminate Hs | intros Hne; by destruct Hne].
Qed.

(** ** What a poll sees between two steps *)

(** The content of a section's row, as [GET /outline/{id}/sections]
    shows it. *)
Definition stored_content (st : Store) (sid : string) : option string :=
  srow_content <$> outline_sections st !! sid.

(** The number of leading sections whose rows hold content: all a client
    polling the sections can infer of the run. *)
Fixpoint filled_prefix (st : Store) (l : list OutlineSection) : nat :=
  match l with
  | [] => 0
  | x :: l' =>
      match stored_content st (sid_of x) with
      | Some c => if str_truthy c then S (filled_prefix st l') else 0
      | None => 0
      end
  end.

(** The number of sections written when a run is in a phase. *)
Definition phase_progress (n : nat) (ph : Phase) : nat :=
  match ph with
  | NotStarted | FirstSectionFailed => 0
  | FirstSectionDone => 1
  | BackgroundRunning i | BackgroundFailed i => i
  | BackgroundDone => n
  end.

(** The first [k] sections of [l] hold content, the others are empty. *)
Definition written_upto (st : Store) (l : list OutlineSection) (k : nat) : Prop :=
  forall i x, l !! i = Some x ->
    (i < k -> filled st (sid_of x)) /\ (k <= i -> stored_content st (sid_of x) = Some "").

Lemma filled_prefix_written_upto st l k :
  k <= length l -> written_upto st l k -> filled_prefix st l = k.
Proof.
  revert k. induction l as [|x l IH]; intros k Hk Hw; [simpl in *; lia|].
  cbn [filled_prefix]. destruct k as [|k].
  - by rewrite (proj2 (Hw 0 x eq_refl) ltac:(lia)).
  - destruct (proj1 (Hw 0 x eq_refl) ltac:(lia)) as (r & Hr & Hc).
    unfold stored_content. rewrite Hr. cbn. rewrite (proj2 (str_truthy_true _) Hc).
    f_equal. apply IH; [simpl in Hk; lia|]. intros i y Hy. specialize (Hw (S i) y Hy). split; intros; apply Hw; lia.
Qed.

(** Writing non-empty content to the row of section [j] extends the
    written prefix by one, when the sections' ids are distinct. *)
Lemma written_upto_write st l j x r c :
  NoDup (sid_of <$> l) -> l !! j = Some x -> outline_sections st !! sid_of x = Some r -> c <> "" ->
  written_upto st l j -> written_upto (write_content st (sid_of x) r c) l (S j).
Proof.
  intros Hnd Hx Hr Hc Hw i y Hy.
  assert (Hid : sid_of y = sid_of x <-> i = j).
  { split; [|intros ->; congruence]. intros Heq.
    eapply NoDup_lookup; [exact Hnd | by rewrite list_lookup_fmap, Hy | by rewrite list_lookup_fmap, Hx, Heq]. }
  unfold filled, stored_content, write_content. cbn [outline_sections]. rewrite lookup_insert.
  destruct (decide (i = j)) as [->|Hne].
  - rewrite decide_True by (symmetry; by apply Hid). split; [intros _; eexists; split; [reflexivity | exact Hc] | intros; lia].
  - rewrite decide_False by (intros Heq; apply Hne, Hid; by symmetry). specialize (Hw i y Hy). split; intros; apply Hw; lia.
Qed.

Section Polls.
Context (llm : ChatModel) {I : Type} `{ScriptInput I} (input : I) (f : ScriptAttr -> string).
Hypothesis Hattr : forall a, script_attr input a = Ok (f a).
Hypothesis Hm : forall m v h, exists out, section_output llm m v h = Ok out /\ gco_content out <> "".

Local Abbreviation secs := (ol_sections (script_outline input)).

(** With such a model, a section call writes non-empty content to the
    section's row and changes nothing else in the store. *)
Lemma section_call_writes ci w r :
  str_truthy (gci_section_id ci) = true -> outline_sections (store w) !! gci_section_id ci = Some r ->
  exists out w', generate_outline_section_content llm ci w = (Ok out, w') /\ gco_content out <> "" /\
    store w' = write_content (store w) (gci_section_id ci) r (gco_content out).
Proof.
  intros Ht Hr. destruct (Hm (gci_model ci) (section_vars (store w) ci) (trace w)) as (out & Hout & Hc).
  pose proof (generate_outline_section_content_run llm ci w) as Hgen. cbv zeta in Hgen.
  rewrite Hout, Ht, Hr in Hgen. eexists _, _. split; [exact Hgen|]. by split.
Qed.

Lemma first_step_writes x0 rest sid0 r0 w :
  secs = x0 :: rest -> sec_id x0 = Some sid0 -> str_truthy sid0 = true ->
  outline_sections (store w) !! sid0 = Some r0 ->
  exists b ts c w1,
    Router.generate_complete_script_incremental llm [] input w = (Ok (Respond HTTP_202_ACCEPTED b, ts), w1) /\
    c <> "" /\ store w1 = write_content (store w) sid0 r0 c.
Proof.
  intros Hsecs Hsid Ht Hr.
  pose proof (incremental_first_section_run llm input f [] w x0 rest sid0 Hattr Hsecs Hsid) as Hinc.
  cbv zeta in Hinc. destruct Hinc as (_ & _ & Hinc).
  destruct (section_call_writes (mkGenerateOutlineSectionContentInput sid0 x0 None (head rest)
              (f attr_script_title) (f attr_context) (f attr_n_person_view) (f attr_excluded_words)
              (f attr_model)) w r0 Ht Hr) as (out & w' & Hg & Hc & Hst).
  rewrite Hg in Hinc. unfold Router.generate_complete_script_incremental.
  rewrite (run_try_Ok _ _ _ _ _ (run_bind_Ok _ _ _ _ _ Hinc)).
  eexists _, _, _, _. split; [reflexivity|]. split; [exact Hc | exact Hst].
Qed.

Lemma running_step_writes i p x w r :
  secs !! i = Some x -> secs !! (i - 1) = Some p -> 1 <= i ->
  sec_id x = Some (sid_of x) -> str_truthy (sid_of x) = true -> outline_sections (store w) !! sid_of x = Some r ->
  exists c w', remaining_section_step llm input i w = (Ok tt, w') /\ c <> "" /\
    store w' = write_content (store w) (sid_of x) r c.
Proof.
  intros Hx Hp Hi Hid Ht Hr.
  rewrite (remaining_section_step_run llm input f Hattr i p x w Hx Hp Hi ltac:(by rewrite Hid)).
  destruct (section_call_writes (content_input_of f (Some p) x (secs !! S i)) w r Ht Hr)
    as (out & w' & Hg & Hc & Hst).
  rewrite (run_bind_Ok _ _ _ _ _ Hg). eexists _, _. split; [reflexivity|]. split; [exact Hc | exact Hst].
Qed.
Lemma sections_stored_lookup st l i x :
  sections_stored st l -> l !! i = Some x ->
  exists r, sec_id x = Some (sid_of x) /\ str_truthy (sid_of x) = true /\ outline_sections st !! sid_of x = Some r.
Proof.
  intros Hst Hx. destruct (proj1 (Forall_lookup _ _) Hst i x Hx) as (sid & r & Hsid & Ht & Hr).
  exists r. unfold sid_of. by rewrite Hsid.
Qed.

(** The phases a run with an always-answering model can be in, and
    what holds of the store there. *)
Definition progress_inv (c : Phase * World) : Prop :=
  let '(ph, w) := c in
  sections_stored (store w) secs /\ written_upto (store w) secs (phase_progress (length secs) ph) /\
  match ph with
  | NotStarted | FirstSectionDone | BackgroundDone => True
  | BackgroundRunning i => 1 <= i < length secs
  | FirstSectionFailed | BackgroundFailed _ => False
  end.

Lemma progress_inv_step c c' :
  NoDup (sid_of <$> secs) -> secs <> [] -> run_step llm input c c' -> progress_inv c -> progress_inv c'.
Proof.
  intros Hnd Hne Hstep. destruct c as [ph w]. unfold run_step, advance in Hstep.
  intros (Hst & Hw & Hph). destruct ph as [| | |i| |j]; cbn iota in Hstep; try done.
  - assert (Hx0 : exists x0 rest, secs = x0 :: rest) by (destruct secs as [|x0 rest]; [done | eauto]).
    destruct Hx0 as (x0 & rest & Hsecs).
    destruct (sections_stored_lookup _ _ 0 x0 Hst ltac:(by rewrite Hsecs)) as (r0 & Hid & Ht & Hr).
    destruct (first_step_writes x0 rest (sid_of x0) r0 w Hsecs Hid Ht Hr) as (b & ts & c & w1 & Hrun & Hc & Hst1).
    rewrite Hrun in Hstep. injection Hstep as <-. cbn. rewrite Hst1.
    split; [by apply sections_stored_write|]. split; [|done].
    apply (written_upto_write _ _ 0 x0); [done | by rewrite Hsecs | done | done | done].
  - injection Hstep as <-.
    assert (1 <= length secs) by (destruct secs; [done | simpl; lia]).
    destruct (Nat.ltb_spec 1 (length secs)); (split; [done|]).
    + split; [exact Hw | lia].
    + split; [|done]. cbn. replace (length secs) with 1 by lia. exact Hw.
  - destruct Hph as [Hi Hn].
    destruct (lookup_lt_is_Some_2 secs i Hn) as [x Hx].
    destruct (lookup_lt_is_Some_2 secs (i - 1) ltac:(lia)) as [p Hp].
    destruct (sections_stored_lookup _ _ i x Hst Hx) as (r & Hid & Ht & Hr).
    destruct (running_step_writes i p x w r Hx Hp Hi Hid Ht Hr) as (c & w' & Hrun & Hc & Hst').
    rewrite Hrun in Hstep. injection Hstep as <-.
    assert (Hw' : written_upto (store w') secs (S i)) by (rewrite Hst'; by apply (written_upto_write _ _ i x)).
    assert (Hst2 : sections_stored (store w') secs) by (rewrite Hst'; by apply sections_stored_write).
    destruct (Nat.ltb_spec (S i) (length secs)); (split; [done|]).
    + split; [exact Hw' | lia].
    + split; [|done]. cbn. replace (length secs) with (S i) by lia. exact Hw'.
Qed.
(** C30: what a poll between two steps sees.  For a run over the stored,
    still empty sections of an outline (distinct ids), with a request
    whose parameters resolve and a model that always answers with
    non-empty content: in every phase the run reaches, the sections
    holding content are exactly the first [phase_progress] ones (none
    before the response, the first after it, the first [i] while the
    background task is at section [i], all at the end), and the run
    never fails. *)
Theorem polls_see_prefix w0 ph w :
  sections_stored (store w0) secs -> NoDup (sid_of <$> secs) -> written_upto (store w0) secs 0 ->
  secs <> [] ->
  rtc (run_step llm input) (NotStarted, w0) (ph, w) ->
  filled_prefix (store w) secs = phase_progress (length secs) ph /\
  (terminal ph = true -> ph = BackgroundDone).
Proof.
  intros Hst Hnd Hw0 Hne Hrtc.
  assert (Hinv : progress_inv (ph, w)).
  { apply (rtc_ind_r (R := run_step llm input) progress_inv (NotStarted, w0)); [done | | exact Hrtc].
    intros y z _ Hyz Hy. by apply (progress_inv_step y z). }
  destruct Hinv as (_ & Hw & Hph). split; [|by destruct ph].
  apply filled_prefix_written_upto; [|done].
  assert (1 <= length secs) by (destruct secs; [done | simpl; lia]).
  destruct ph; cbn in *; lia.
Qed.
End Polls.

(** ** Concrete runs *)

(** The world after the first step of the demo run: the response has
    been sent, the first section written. *)
Definition demo_after_first : World :=
  Eval vm_compute in
    match advance demo_llm demo_request (NotStarted, demo_saved_world) with
    | Some (_, w) => w
    | None => demo_saved_world
    end.

Lemma demo_first_step :
  rtc (run_step demo_llm demo_request) (NotStarted, demo_saved_world) (FirstSectionDone, demo_after_first).
Proof. apply rtc_once. unfold run_step. vm_compute. reflexivity. Qed.

Lemma demo_sections_empty : written_upto (store demo_saved_world) demo_stored_sections 0.
Proof.
  intros i x Hx. split; [lia|intros _].
  destruct i as [|[|[|i]]]; simplify_eq/=; vm_compute; reflexivity.
Qed.

Lemma polls_see_prefix_witness :
  filled_prefix (store demo_after_first) demo_stored_sections = phase_progress 3 FirstSectionDone /\
  (terminal FirstSectionDone = true -> FirstSectionDone = BackgroundDone).
Proof.
  exact (polls_see_prefix demo_llm demo_request (csr_attr demo_request) (csr_attr_ok demo_request)
           ltac:(intros m v h; eexists; split; [reflexivity | cbn; discriminate])
           demo_saved_world FirstSectionDone demo_after_first demo_sections_stored
           ltac:(apply (bool_decide_unpack _); vm_compute; reflexivity) demo_sections_empty
           ltac:(cbv; discriminate) demo_first_step).
Defined.
