(* ===== verification/Validation.v ===== *)
(** * Validation: request bodies as JSON and their validation

    FastAPI parses a request body as JSON and validates it against the
    route's pydantic class (src/server/models/content.py) before the
    handler runs; a body that fails validation is answered 422 with the
    list of errors, and the handler is not called.  This file models
    JSON values, the validators the classes declare (their fields, the
    fields' types and defaults, in pydantic v2's default mode), and the
    router behind this validation.

    The validators follow pydantic v2 on the inputs they accept: a
    [str] field takes a JSON string only (v2 does not coerce numbers to
    strings), an [Optional] field also takes [null], a field with a
    default may be missing, a field without one is required even when
    it is [Optional], and keys that are not fields are ignored.  An
    [int] field is modelled as taking a JSON integer only: the numeric
    strings and integral floats pydantic also accepts there are treated
    as errors.  Errors are collected over all fields, in field order,
    each with its location. *)

From S2P Require Import Prelude.
From S2P Require Import Models.
From S2P Require Import Supabase.
From S2P Require Import Repository.
From S2P Require Import Prompts.
From S2P Require Import Service.
From S2P Require Import Routes.

(** ** JSON values *)

#[local] Set Warnings "-register-all".

Inductive Json : Type :=
| JNull
| JBool (b : bool)
| JInt (z : Z)
| JStr (s : string)
| JList (items : list Json)
| JObject (fields : list (string * Json)).

(** The value of a key of an object; with duplicate keys, [json.loads]
    keeps the last one. *)
Definition jlookup (k : string) (fields : list (string * Json)) : option Json :=
  foldl (fun acc '(k', v) => if String.eqb k k' then Some v else acc) None fields.

(** ** Validation results *)

(** A pydantic error: where ([loc]) and what ([msg]). *)
Record ValError : Type := mkValError {
  ve_loc : list string;
  ve_msg : string
}.

(** A validation outcome: the errors found, or the value. *)
Inductive V (A : Type) : Type :=
| Invalid (errors : list ValError)
| Valid (a : A).
Arguments Invalid {A} errors.
Arguments Valid {A} a.

Definition vmap {A B} (f : A -> B) (v : V A) : V B :=
  match v with Invalid es => Invalid es | Valid a => Valid (f a) end.

(** Field by field: the errors of both sides are kept. *)
Definition vapp {A B} (vf : V (A -> B)) (va : V A) : V B :=
  match vf, va with
  | Valid f, Valid a => Valid (f a)
  | Invalid e1, Invalid e2 => Invalid (e1 ++ e2)
  | Invalid e, Valid _ | Valid _, Invalid e => Invalid e
  end.

Declare Scope val_scope.
Delimit Scope val_scope with val.
Notation "f <*> v" := (vapp f v) (at level 61, left associativity) : val_scope.
Open Scope val_scope.

Definition at_loc (k : string) (e : ValError) : ValError := mkValError (k :: ve_loc e) (ve_msg e).

Definition relocate {A} (k : string) (v : V A) : V A :=
  match v with Invalid es => Invalid (at_loc k <$> es) | Valid a => Valid a end.

Definition invalid {A} (msg : string) : V A := Invalid [mkValError [] msg].

(** ** Field types *)

Definition v_str (j : Json) : V string :=
  match j with JStr s => Valid s | _ => invalid "Input should be a valid string" end.

Definition v_int (j : Json) : V Z :=
  match j with JInt z => Valid z | _ => invalid "Input should be a valid integer" end.

Definition v_optional {A} (v : Json -> V A) (j : Json) : V (option A) :=
  match j with JNull => Valid None | _ => vmap Some (v j) end.

Fixpoint v_items {A} (v : Json -> V A) (i : nat) (l : list Json) : V (list A) :=
  match l with
  | [] => Valid []
  | j :: l' => Valid cons <*> relocate (pretty i) (v j) <*> v_items v (S i) l'
  end.

Definition v_list {A} (v : Json -> V A) (j : Json) : V (list A) :=
  match j with JList l => v_items v 0 l | _ => invalid "Input should be a valid list" end.

Definition v_model {A} (name : string) (v : list (string * Json) -> V A) (j : Json) : V A :=
  match j with
  | JObject fs => v fs
  | _ => invalid ("Input should be a valid dictionary or instance of " ++ name)
  end.

(** A field without default, and a field with one. *)
Definition required {A} (v : Json -> V A) (k : string) (fs : list (string * Json)) : V A :=
  match jlookup k fs with
  | Some j => relocate k (v j)
  | None => Invalid [mkValError [k] "Field required"]
  end.

Definition with_default {A} (d : A) (v : Json -> V A) (k : string) (fs : list (string * Json)) : V A :=
  match jlookup k fs with
  | Some j => relocate k (v j)
  | None => Valid d
  end.

(** ** The classes *)

(** [class OutlineSection(BaseModel)], lines 11-18. *)
Definition v_OutlineSection (fs : list (string * Json)) : V OutlineSection :=
  Valid mkOutlineSection
    <*> with_default None (v_optional v_str) "id" fs
    <*> with_default None (v_optional v_str) "outline_id" fs
    <*> required v_int "position" fs
    <*> required v_str "title" fs
    <*> required v_str "description" fs
    <*> required v_str "instructions" fs.

(** [class Outline(BaseModel)], lines 21-24: [id: Optional[str]] has no
    default, so it is required. *)
Definition v_Outline (fs : list (string * Json)) : V Outline :=
  Valid mkOutline
    <*> required (v_optional v_str) "id" fs
    <*> required (v_list (v_model "OutlineSection" v_OutlineSection)) "sections" fs.

(** [class GenerateOutlineInput(BaseModel)], lines 31-47. *)
Definition v_GenerateOutlineInput (fs : list (string * Json)) : V GenerateOutlineInput :=
  Valid mkGenerateOutlineInput
    <*> with_default None (v_optional v_str) "id" fs
    <*> required v_str "script_title" fs
    <*> required v_int "word_count" fs
    <*> required v_str "language" fs
    <*> required v_str "audience" fs
    <*> required v_str "style" fs
    <*> required v_str "tone" fs
    <*> required v_str "model" fs
    <*> required v_str "additional_data" fs.

(** [class GenerateOutlineSectionContentInput(BaseModel)], lines 61-77. *)
Definition v_GenerateOutlineSectionContentInput (fs : list (string * Json))
    : V GenerateOutlineSectionContentInput :=
  Valid mkGenerateOutlineSectionContentInput
    <*> required v_str "section_id" fs
    <*> required (v_model "OutlineSection" v_OutlineSection) "current_section" fs
    <*> with_default None (v_optional (v_model "OutlineSection" v_OutlineSection)) "previous_section" fs
    <*> with_default None (v_optional (v_model "OutlineSection" v_OutlineSection)) "next_section" fs
    <*> required v_str "script_title" fs
    <*> required v_str "context" fs
    <*> required v_str "n_person_view" fs
    <*> required v_str "excluded_words" fs
    <*> required v_str "model" fs.

(** [class GenerateCompleteScriptInput(BaseModel)], lines 85-93. *)
Definition v_GenerateCompleteScriptInput (fs : list (string * Json)) : V GenerateCompleteScriptInput :=
  Valid mkGenerateCompleteScriptInput
    <*> required (v_model "Outline" v_Outline) "outline" fs.

(** [class SaveOutlineInput(BaseModel)], lines 116-132. *)
Definition v_SaveOutlineInput (fs : list (string * Json)) : V SaveOutlineInput :=
  Valid mkSaveOutlineInput
    <*> required v_str "script_title" fs
    <*> required v_int "word_count" fs
    <*> required v_str "language" fs
    <*> required v_str "audience" fs
    <*> required v_str "style" fs
    <*> required v_str "tone" fs
    <*> required v_str "model" fs
    <*> required v_str "additional_data" fs
    <*> required (v_list (v_model "OutlineSection" v_OutlineSection)) "sections" fs.

(** [class GenerateOutlineSectionContentOutput(BaseModel)], lines 80-82. *)
Definition v_GenerateOutlineSectionContentOutput (fs : list (string * Json))
    : V GenerateOutlineSectionContentOutput :=
  Valid mkGenerateOutlineSectionContentOutput <*> required v_str "content" fs.

(** [class WrittenOutlineSection(BaseModel)], lines 96-102. *)
Definition v_WrittenOutlineSection (fs : list (string * Json)) : V WrittenOutlineSection :=
  Valid mkWrittenOutlineSection
    <*> with_default None (v_optional v_str) "id" fs
    <*> required v_str "title" fs
    <*> required v_str "description" fs
    <*> required v_str "instructions" fs
    <*> required v_str "content" fs.

(** [class GenerateCompleteScriptOutput(BaseModel)], lines 105-113. *)
Definition v_GenerateCompleteScriptOutput (fs : list (string * Json)) : V GenerateCompleteScriptOutput :=
  Valid mkGenerateCompleteScriptOutput
    <*> required (v_list (v_model "WrittenOutlineSection" v_WrittenOutlineSection)) "sections" fs.

(** [class OutlineResponse(BaseModel)], lines 135-143. *)
Definition v_OutlineResponse (fs : list (string * Json)) : V OutlineResponse :=
  Valid mkOutlineResponse <*> required v_str "outline_id" fs.

(** ** The router behind validation *)

(** A request as the server receives it: a path parameter or a JSON
    body. *)
Inductive JsonRequest : Type :=
| JPostGenerate (body : Json)
| JPostSave (body : Json)
| JGetOutline (outline_id : string)
| JPostComplete (body : Json)
| JPostCompleteIncremental (body : Json)
| JGetSections (outline_id : string).

(** FastAPI validates a body parameter and reports its errors under
    [body]. *)
Definition v_body {A} (name : string) (v : list (string * Json) -> V A) (j : Json) : V A :=
  relocate "body" (v_model name v j).

Definition parse_request (r : JsonRequest) : V (Request GenerateCompleteScriptInput) :=
  match r with
  | JPostGenerate b => vmap PostGenerate (v_body "GenerateOutlineInput" v_GenerateOutlineInput b)
  | JPostSave b => vmap PostSave (v_body "SaveOutlineInput" v_SaveOutlineInput b)
  | JGetOutline oid => Valid (GetOutline oid)
  | JPostComplete b =>
      vmap PostComplete (v_body "GenerateCompleteScriptInput" v_GenerateCompleteScriptInput b)
  | JPostCompleteIncremental b =>
      vmap PostCompleteIncremental (v_body "GenerateCompleteScriptInput" v_GenerateCompleteScriptInput b)
  | JGetSections oid => Valid (GetSections oid)
  end.

(** What the client receives: the handler's response, or 422 with the
    validation errors. *)
Inductive ApiResponse : Type :=
| Handled (r : Response Body)
| UnprocessableEntity (errors : list ValError).

Definition HTTP_422_UNPROCESSABLE_ENTITY : Z := 422.

Definition api_status (r : ApiResponse) : Z :=
  match r with
  | Handled r => status_of r
  | UnprocessableEntity _ => HTTP_422_UNPROCESSABLE_ENTITY
  end.

Definition serve_request (llm : ChatModel) (r : JsonRequest) : PyM World ApiResponse :=
  match parse_request r with
  | Invalid es => ret (UnprocessableEntity es)
  | Valid req => let* resp := handle llm req in ret (Handled resp)
  end.

(** ** The documented request bodies (src/server/examples.py) *)

Definition example_outline_id : string := "123e4567-e89b-12d3-a456-426614174000".

Definition example_section_json (id position : Z) (title description instructions : string) : Json :=
  JObject [("id", JInt id); ("outline_id", JStr example_outline_id); ("position", JInt position);
           ("title", JStr title); ("description", JStr description); ("instructions", JStr instructions)].

(** [example_complete_script_input], lines 75-110. *)
Definition example_complete_script_input : Json :=
  JObject [
    ("outline", JObject [
       ("id", JStr example_outline_id);
       ("sections", JList [
          example_section_json 1 0 "Current State of AI in Healthcare"
            "Overview of how AI is currently being used in healthcare settings"
            "Start with concrete examples of AI applications in hospitals and clinics.";
          example_section_json 2 1 "Ethical Considerations and Challenges"
            "Discussion of ethical issues surrounding AI in healthcare"
            "Address data privacy, bias in algorithms, and the balance between automation and human care.";
          example_section_json 3 2 "Future Developments and Potential"
            "Exploration of upcoming AI technologies in healthcare"
            "Focus on innovations in the pipeline and their potential impact on patient outcomes."])]);
    ("script_title", JStr "The Future of Artificial Intelligence in Healthcare");
    ("context", JStr "Focus on recent advancements in AI diagnostic tools and ethical considerations.");
    ("n_person_view", JStr "first");
    ("excluded_words", JStr "basically, actually, simply, just");
    ("model", JStr "gpt-4o-mini")].

Definition example_section_json_no_ids (position : Z) (title description instructions : string) : Json :=
  JObject [("position", JInt position); ("title", JStr title); ("description", JStr description);
           ("instructions", JStr instructions)].

(** [example_section_content_input], lines 52-72. *)
Definition example_section_content_input : Json :=
  JObject [
    ("section_id", JInt 1);
    ("current_section", example_section_json_no_ids 0 "Current State of AI in Healthcare"
       "Overview of how AI is currently being used in healthcare settings"
       "Start with concrete examples of AI applications in hospitals and clinics.");
    ("previous_section", JNull);
    ("next_section", example_section_json_no_ids 1 "Ethical Considerations and Challenges"
       "Discussion of ethical issues surrounding AI in healthcare"
       "Address data privacy, bias in algorithms, and the balance between automation and human care.");
    ("script_title", JStr "The Future of Artificial Intelligence in Healthcare");
    ("context", JStr "Focus on recent advancements in AI diagnostic tools and ethical considerations.");
    ("n_person_view", JStr "first");
    ("excluded_words", JStr "basically, actually, simply, just");
    ("model", JStr "gpt-4o-mini")].

(** [example_generate_outline_input], lines 2-17; [additional_data] is
    the triple-quoted string, its newlines and indentation included. *)
Definition example_generate_outline_input : Json :=
  JObject [
    ("script_title", JStr "The Future of Artificial Intelligence in Healthcare");
    ("word_count", JInt 2100);
    ("language", JStr "English");
    ("audience", JStr "Healthcare professionals and technology enthusiasts");
    ("style", JStr "Informative and analytical");
    ("tone", JStr "Professional with accessible explanations");
    ("model", JStr "gpt-4o-mini");
    ("additional_data", JStr "
    Focus on recent advancements in AI diagnostic tools, 
    patient care automation, and ethical considerations. 
    Include examples of successful AI implementations in hospitals.
    Discuss potential future developments in the next 5-10 years.
    Address concerns about data privacy and the human element in healthcare.
    ")].

(** [example_section_content_output], lines 118-130. *)
Definition example_section_content_output : Json :=
  JObject [("content", JStr "
    AI has transformed healthcare in ways we couldn't have imagined a decade ago. In hospitals across the country, machine learning algorithms now analyze medical images with remarkable accuracy. These systems can detect subtle patterns in X-rays, MRIs, and CT scans that might escape even the trained eye of an experienced radiologist.
    
    At Memorial Hospital in Boston, an AI system called DeepDiagnose has reduced diagnostic errors by 32% in the past year alone. The technology doesn't replace radiologists—it augments their capabilities, flagging potential issues for further review and providing a second opinion that helps doctors make more informed decisions.
    
    Beyond imaging, AI is revolutionizing patient care through predictive analytics. At Northwestern Medical Center, algorithms analyze thousands of data points from electronic health records to identify patients at risk of deterioration before obvious symptoms appear. This early warning system has reduced ICU admissions by 18% by enabling preventive interventions.
    
    What makes these systems truly remarkable isn't just their accuracy, but their ability to learn and improve over time. Each case they analyze adds to their knowledge base, refining their predictive capabilities.
    
    But how do these systems actually work? And what happens when we entrust critical healthcare decisions to algorithms that even their creators don't fully understand?
    ")].

(** [example_complete_script_output], lines 133-189: the sections carry
    integer ids. *)
Definition example_complete_script_output : Json :=
  JObject [("sections", JList [
       JObject [
         ("id", JInt 1);
         ("title", JStr "Current State of AI in Healthcare");
         ("description", JStr "Overview of how AI is currently being used in healthcare settings");
         ("instructions", JStr "Start with concrete examples of AI applications in hospitals and clinics.");
         ("content", JStr "
            AI has transformed healthcare in ways we couldn't have imagined a decade ago. In hospitals across the country, machine learning algorithms now analyze medical images with remarkable accuracy. These systems can detect subtle patterns in X-rays, MRIs, and CT scans that might escape even the trained eye of an experienced radiologist.
            
            At Memorial Hospital in Boston, an AI system called DeepDiagnose has reduced diagnostic errors by 32% in the past year alone. The technology doesn't replace radiologists—it augments their capabilities, flagging potential issues for further review and providing a second opinion that helps doctors make more informed decisions.
            
            Beyond imaging, AI is revolutionizing patient care through predictive analytics. At Northwestern Medical Center, algorithms analyze thousands of data points from electronic health records to identify patients at risk of deterioration before obvious symptoms appear. This early warning system has reduced ICU admissions by 18% by enabling preventive interventions.
            
            What makes these systems truly remarkable isn't just their accuracy, but their ability to learn and improve over time. Each case they analyze adds to their knowledge base, refining their predictive capabilities.
            
            But how do these systems actually work? And what happens when we entrust critical healthcare decisions to algorithms that even their creators don't fully understand?
            ")];
       JObject [
         ("id", JInt 2);
         ("title", JStr "Ethical Considerations and Challenges");
         ("description", JStr "Discussion of ethical issues surrounding AI in healthcare");
         ("instructions", JStr "Address data privacy, bias in algorithms, and the balance between automation and human care.");
         ("content", JStr "
            The promise of AI in healthcare comes with profound ethical questions that we're only beginning to address. Every time you interact with an AI-powered healthcare system, your data becomes part of its learning process. Your medical history, your genetic information, your treatment outcomes—all potentially accessible to these algorithms.
            
            Who owns this data? Who controls access to it? These aren't abstract questions. In 2019, a major healthcare provider partnered with a tech company to analyze patient records, only to face backlash when patients discovered their data had been shared without their explicit consent.
            
            Even more concerning is the potential for bias in these systems. AI algorithms learn from historical data—data that reflects existing inequalities in healthcare. A study at University Hospital found that their diagnostic algorithm recommended fewer specialized treatments for minority patients, not because it was programmed to discriminate, but because it learned from historical treatment patterns that already contained these biases.
            
            The human element in healthcare also hangs in the balance. When a doctor relies on an AI recommendation, who bears responsibility for the outcome? A surgeon in Chicago faced this dilemma when an AI surgical planning system suggested an approach that contradicted her clinical judgment.
            
            What happens when the cold logic of algorithms clashes with the compassionate art of medicine? And who's watching to ensure these systems don't cross ethical boundaries in their pursuit of efficiency?
            ")];
       JObject [
         ("id", JInt 3);
         ("title", JStr "Future Developments and Potential");
         ("description", JStr "Exploration of upcoming AI technologies in healthcare");
         ("instructions", JStr "Focus on innovations in the pipeline and their potential impact on patient outcomes.");
         ("content", JStr "
            The next wave of AI healthcare innovations promises to transform medicine even more fundamentally than what we've seen so far. In research labs across the world, scientists are developing AI systems that can predict disease outbreaks before they happen, design personalized treatment plans based on your genetic makeup, and even create entirely new medications.
            
            At the MIT BioAI Lab, researchers have developed an algorithm that can screen billions of potential drug compounds in days rather than years. This system recently identified a novel antibiotic capable of killing bacteria strains resistant to all known antibiotics—a discovery that could save countless lives in our battle against superbugs.
            
            Personalized medicine stands to benefit enormously from these advances. Imagine receiving treatment tailored not just to your diagnosis, but to your specific genetic profile, lifestyle factors, and even the unique characteristics of your disease. At Memorial Sloan Kettering, oncologists are using AI to analyze tumor samples and recommend personalized cancer treatments with unprecedented precision.
            
            Perhaps most revolutionary are the developments in brain-computer interfaces. Companies like Neuralink are working on implantable devices that could restore movement to paralyzed patients, treat neurological disorders, and eventually enhance human cognitive capabilities.
            
            But these remarkable possibilities raise equally profound questions. If we can predict who will develop certain diseases with high accuracy, how will that affect insurance coverage? If AI can enhance human cognition, who will have access to these technologies? And what happens when the line between human and machine intelligence begins to blur?
            
            The future of AI in healthcare isn't just about technology—it's about the kind of healthcare system we want to create, and ultimately, what it means to be human in an age of intelligent machines.
            ")]])].

(** [example_outline_response], lines 113-115. *)
Definition example_outline_response : Json :=
  JObject [("outline_id", JStr example_outline_id)].


(** C32: no request body makes the complete-script routes answer 202:
    a body that fails validation is answered 422, and one that passes
    is a [GenerateCompleteScriptInput] without generation parameters,
    answered 500; either way the store is unchanged and no section is
    generated. *)
Theorem complete_body_never_accepted llm (body : Json) w :
  exists r w',
    serve_request llm (JPostComplete body) w = (Ok r, w') /\ store w' = store w /\
    model_calls (trace w') = model_calls (trace w) /\
    api_status r ∈ [HTTP_422_UNPROCESSABLE_ENTITY; HTTP_500_INTERNAL_SERVER_ERROR].
Proof.
  unfold serve_request, parse_request.
  destruct (v_body _ v_GenerateCompleteScriptInput body) as [es|input]; cbn [vmap].
  - eexists _, _. split; [reflexivity|]. split; [done|]. split; [done|]. cbn. set_solver.
  - destruct input as [[oid [|x [|y l]]]]; destruct w as [st tr]; eexists _, _;
      (split; [reflexivity|]); cbn; rewrite ?omap_app; (split; [done|]); (split; [|set_solver]);
      by rewrite ?app_nil_r.
Qed.

(** [example_save_outline_input], lines 20-49. *)
Definition example_save_outline_input : Json :=
  JObject [
    ("script_title", JStr "The Future of Artificial Intelligence in Healthcare");
    ("word_count", JInt 2100);
    ("language", JStr "English");
    ("audience", JStr "Healthcare professionals and technology enthusiasts");
    ("style", JStr "Informative and analytical");
    ("tone", JStr "Professional with accessible explanations");
    ("model", JStr "gpt-4o-mini");
    ("additional_data", JStr "Focus on recent advancements in AI diagnostic tools and ethical considerations.");
    ("sections", JList [
       example_section_json_no_ids 0 "Current State of AI in Healthcare"
         "Overview of how AI is currently being used in healthcare settings"
         "Start with concrete examples of AI applications in hospitals and clinics.";
       example_section_json_no_ids 1 "Ethical Considerations and Challenges"
         "Discussion of ethical issues surrounding AI in healthcare"
         "Address data privacy, bias in algorithms, and the balance between automation and human care.";
       example_section_json_no_ids 2 "Future Developments and Potential"
         "Exploration of upcoming AI technologies in healthcare"
         "Focus on innovations in the pipeline and their potential impact on patient outcomes."])].

(** The documented save body is accepted: on an empty store it is
    answered 201 with the first row id, and the outline can be read
    back with its three sections. *)
Example example_save_outline_input_saved :
  match serve_request demo_llm (JPostSave example_save_outline_input) demo_world with
  | (Ok r, w') =>
      api_status r = HTTP_201_CREATED /\
      match fst (Router.get_outline (row_id 0) w') with
      | Ok (Respond c o) => c = HTTP_200_OK /\ length (ol_sections o) = 3
      | _ => False
      end
  | (Err _, _) => False
  end.
Proof. vm_compute. split; [reflexivity | split; reflexivity]. Qed.

(** The body documented for [POST /outline/generate] is valid; its
    word count of 2100 gives the 3 sections the example's comment
    announces, and serving it is one model call with that count in the
    prompt, answered 200 with the model's outline (or 500 after two log
    lines when the model fails), the store untouched. *)
Theorem example_outline_request_asks_three_sections llm w :
  exists inp,
    parse_request (JPostGenerate example_generate_outline_input) = Valid (PostGenerate inp) /\
    sections_count (goi_word_count inp) = 3%Z /\
    let vars := outline_prompt_vars inp 3 in
    let w1 := mkWorld (store w) (trace w ++ [EvModelOutline (goi_model inp) vars]) in
    serve_request llm (JPostGenerate example_generate_outline_input) w =
      match outline_output llm (goi_model inp) vars (trace w) with
      | Ok o => (Ok (Handled (Respond HTTP_200_OK (OutlineBody o))), w1)
      | Err e =>
          (Ok (Handled (HTTPException HTTP_500_INTERNAL_SERVER_ERROR ("Failed to generate outline: " ++ exc_str e))),
           snd (emit (EvLogError ("Error generating outline: " ++ exc_str e))
                  (log_error w1 "Error generating outline draft" e)))
      end.
Proof.
  unfold serve_request.
  remember (parse_request (JPostGenerate example_generate_outline_input)) as p eqn:Hp.
  vm_compute in Hp. subst p. eexists. split; [reflexivity|]. split; [reflexivity|].
  unfold handle, respond, Router.generate_outline, fail_500, bind, try_except, ret. cbv beta.
  rewrite generate_outline_draft_run. cbn [goi_model goi_word_count].
  change (sections_count 2100) with 3%Z.
  by destruct (outline_output llm _ _ _) as [o|e].
Qed.

(** Of the documented response examples, the complete-script
    output is not an instance of [GenerateCompleteScriptOutput]: its
    section ids are JSON integers and [WrittenOutlineSection.id] is
    [Optional[str]], one error per section; the section-content output
    and the outline response are instances, with the documented content
    and outline id. *)
Theorem documented_complete_output_invalid :
  v_model "GenerateCompleteScriptOutput" v_GenerateCompleteScriptOutput example_complete_script_output =
    Invalid [mkValError ["sections"; "0"; "id"] "Input should be a valid string";
             mkValError ["sections"; "1"; "id"] "Input should be a valid string";
             mkValError ["sections"; "2"; "id"] "Input should be a valid string"] /\
  (exists c, v_model "GenerateOutlineSectionContentOutput" v_GenerateOutlineSectionContentOutput
                example_section_content_output = Valid (mkGenerateOutlineSectionContentOutput c) /\
             c <> "") /\
  v_model "OutlineResponse" v_OutlineResponse example_outline_response =
    Valid (mkOutlineResponse example_outline_id).
Proof.
  split; [reflexivity|]. split; [|reflexivity].
  eexists. split; [reflexivity|]. discriminate.
Qed.
