(* ===== verification/Responses.v ===== *)
(** * Responses: what FastAPI does with a handler's return value

    A route of src/server/routes/content.py declares a [response_model].
    After the handler returns, FastAPI's [serialize_response] dumps the
    returned pydantic object to plain data ([model_dump()]), validates
    that data against the route's [response_model], and sends the
    validated value as JSON; when the validation fails it raises
    [ResponseValidationError] and the client gets a bare 500.  The
    background tasks are attached to the response only after this step.

    This file models [model_dump()] of each class, as the class
    [JsonModel] whose law says that validating a dump gives the value
    back (in the manner of a serializer with its deserializer), the
    [response_model] of each route, and the application
    [serve_http] that validates the request body, runs the handler,
    serializes its response and then runs the background tasks. *)

From S2P Require Import Prelude.
From S2P Require Import Models.
From S2P Require Import Supabase.
From S2P Require Import Repository.
From S2P Require Import Prompts.
From S2P Require Import Service.
From S2P Require Import Pipeline.
From S2P Require Import Routes.
From S2P Require Import Validation.

(** ** [model_dump()] *)

Definition dump_opt {A} (d : A -> Json) (o : option A) : Json :=
  match o with Some a => d a | None => JNull end.

(** [OutlineSection.model_dump()], fields of lines 11-18 in order. *)
Definition dump_OutlineSection (s : OutlineSection) : Json :=
  JObject [("id", dump_opt JStr (sec_id s)); ("outline_id", dump_opt JStr (sec_outline_id s));
           ("position", JInt (sec_position s)); ("title", JStr (sec_title s));
           ("description", JStr (sec_description s)); ("instructions", JStr (sec_instructions s))].

(** [Outline.model_dump()], lines 21-24. *)
Definition dump_Outline (o : Outline) : Json :=
  JObject [("id", dump_opt JStr (ol_id o)); ("sections", JList (dump_OutlineSection <$> ol_sections o))].

(** [WrittenOutlineSection.model_dump()], lines 96-102. *)
Definition dump_WrittenOutlineSection (s : WrittenOutlineSection) : Json :=
  JObject [("id", dump_opt JStr (ws_id s)); ("title", JStr (ws_title s));
           ("description", JStr (ws_description s)); ("instructions", JStr (ws_instructions s));
           ("content", JStr (ws_content s))].

(** [OutlineResponse.model_dump()], lines 135-137. *)
Definition dump_OutlineResponse (r : OutlineResponse) : Json :=
  JObject [("outline_id", JStr (or_outline_id r))].

(** [GenerateOutlineInput.model_dump()], lines 31-41. *)
Definition dump_GenerateOutlineInput (i : GenerateOutlineInput) : Json :=
  JObject [("id", dump_opt JStr (goi_id i)); ("script_title", JStr (goi_script_title i));
           ("word_count", JInt (goi_word_count i)); ("language", JStr (goi_language i));
           ("audience", JStr (goi_audience i)); ("style", JStr (goi_style i));
           ("tone", JStr (goi_tone i)); ("model", JStr (goi_model i));
           ("additional_data", JStr (goi_additional_data i))].

(** [SaveOutlineInput.model_dump()], lines 116-126. *)
Definition dump_SaveOutlineInput (i : SaveOutlineInput) : Json :=
  JObject [("script_title", JStr (soi_script_title i)); ("word_count", JInt (soi_word_count i));
           ("language", JStr (soi_language i)); ("audience", JStr (soi_audience i));
           ("style", JStr (soi_style i)); ("tone", JStr (soi_tone i)); ("model", JStr (soi_model i));
           ("additional_data", JStr (soi_additional_data i));
           ("sections", JList (dump_OutlineSection <$> soi_sections i))].

(** [GenerateCompleteScriptInput.model_dump()], lines 85-87. *)
Definition dump_GenerateCompleteScriptInput (i : GenerateCompleteScriptInput) : Json :=
  JObject [("outline", dump_Outline (gcs_outline i))].

(** ** Values that serialize and validate back *)

(** A type with its [model_dump()] and its validator; validating a dump
    gives the value back. *)
Class JsonModel (A : Type) := {
  dump : A -> Json;
  validate_json : Json -> V A;
  validate_dump x : validate_json (dump x) = Valid x
}.
Arguments dump {A _} x.
Arguments validate_json {A _} j.

Lemma v_items_dump {A} (d : A -> Json) (v : Json -> V A) :
  (forall x, v (d x) = Valid x) -> forall i l, v_items v i (d <$> l) = Valid l.
Proof. intros Hv i l. revert i. induction l as [|x l IH]; intros i; [done|]. simpl. by rewrite Hv, IH. Qed.

(** [List[A]]. *)
Lemma list_validate_dump {A} `{JsonModel A} (l : list A) : v_list validate_json (JList (dump <$> l)) = Valid l.
Proof. apply v_items_dump, validate_dump. Qed.

#[export] Instance list_JsonModel {A} `{JsonModel A} : JsonModel (list A) :=
  {| dump l := JList (dump <$> l); validate_json := v_list validate_json; validate_dump := list_validate_dump |}.

Ltac solve_validate_dump :=
  let x := fresh "x" in
  intros x; destruct x;
  repeat match goal with o : option _ |- _ => destruct o end;
  cbn -[v_items];
  repeat match goal with
         | |- context [v_items ?v ?i (?d <$> ?l)] =>
             match type of d with
             | ?A -> _ =>
                 let inst := constr:(_ : JsonModel A) in
                 rewrite (v_items_dump d v (@validate_dump A inst) i l)
             end
         end;
  reflexivity.

Lemma OutlineSection_validate_dump x : v_model "OutlineSection" v_OutlineSection (dump_OutlineSection x) = Valid x.
Proof. revert x. solve_validate_dump. Qed.

#[export] Instance OutlineSection_JsonModel : JsonModel OutlineSection :=
  {| dump := dump_OutlineSection; validate_json := v_model "OutlineSection" v_OutlineSection; validate_dump := OutlineSection_validate_dump |}.

Lemma Outline_validate_dump x : v_model "Outline" v_Outline (dump_Outline x) = Valid x.
Proof. revert x. solve_validate_dump. Qed.

#[export] Instance Outline_JsonModel : JsonModel Outline :=
  {| dump := dump_Outline; validate_json := v_model "Outline" v_Outline; validate_dump := Outline_validate_dump |}.

Lemma WrittenOutlineSection_validate_dump x : v_model "WrittenOutlineSection" v_WrittenOutlineSection (dump_WrittenOutlineSection x) = Valid x.
Proof. revert x. solve_validate_dump. Qed.

#[export] Instance WrittenOutlineSection_JsonModel : JsonModel WrittenOutlineSection :=
  {| dump := dump_WrittenOutlineSection; validate_json := v_model "WrittenOutlineSection" v_WrittenOutlineSection; validate_dump := WrittenOutlineSection_validate_dump |}.

Lemma OutlineResponse_validate_dump x : v_model "OutlineResponse" v_OutlineResponse (dump_OutlineResponse x) = Valid x.
Proof. revert x. solve_validate_dump. Qed.

#[export] Instance OutlineResponse_JsonModel : JsonModel OutlineResponse :=
  {| dump := dump_OutlineResponse; validate_json := v_model "OutlineResponse" v_OutlineResponse; validate_dump := OutlineResponse_validate_dump |}.

Lemma GenerateOutlineInput_validate_dump x : v_model "GenerateOutlineInput" v_GenerateOutlineInput (dump_GenerateOutlineInput x) = Valid x.
Proof. revert x. solve_validate_dump. Qed.

#[export] Instance GenerateOutlineInput_JsonModel : JsonModel GenerateOutlineInput :=
  {| dump := dump_GenerateOutlineInput; validate_json := v_model "GenerateOutlineInput" v_GenerateOutlineInput; validate_dump := GenerateOutlineInput_validate_dump |}.

Lemma SaveOutlineInput_validate_dump x : v_model "SaveOutlineInput" v_SaveOutlineInput (dump_SaveOutlineInput x) = Valid x.
Proof. revert x. solve_validate_dump. Qed.

#[export] Instance SaveOutlineInput_JsonModel : JsonModel SaveOutlineInput :=
  {| dump := dump_SaveOutlineInput; validate_json := v_model "SaveOutlineInput" v_SaveOutlineInput; validate_dump := SaveOutlineInput_validate_dump |}.

Lemma GenerateCompleteScriptInput_validate_dump x : v_model "GenerateCompleteScriptInput" v_GenerateCompleteScriptInput (dump_GenerateCompleteScriptInput x) = Valid x.
Proof.
  destruct x as [o]. pose proof (Outline_validate_dump o) as Ho.
  cbn -[v_Outline] in Ho |- *. by rewrite Ho.
Qed.

#[export] Instance GenerateCompleteScriptInput_JsonModel : JsonModel GenerateCompleteScriptInput :=
  {| dump := dump_GenerateCompleteScriptInput; validate_json := v_model "GenerateCompleteScriptInput" v_GenerateCompleteScriptInput; validate_dump := GenerateCompleteScriptInput_validate_dump |}.

(** ** The response model of each route *)

(** The [response_model] of the decorators, routes/content.py lines 17,
    35, 53, 87, 112 and 136. *)
Definition response_model {I} (req : Request I) (j : Json) : V Body :=
  match req with
  | PostGenerate _ | GetOutline _ => vmap OutlineBody (validate_json j)
  | PostSave _ => vmap OutlineIdBody (validate_json j)
  | PostComplete _ | PostCompleteIncremental _ => vmap SectionBody (validate_json j)
  | GetSections _ => vmap SectionsBody (validate_json j)
  end.

(** [_prepare_response_content]: the object the handler returned,
    dumped. *)
Definition dump_body (b : Body) : Json :=
  match b with
  | OutlineBody o => dump o
  | OutlineIdBody r => dump r
  | SectionBody s => dump s
  | SectionsBody l => dump l
  end.

(** The body is of the class the route declares. *)
Definition route_body {I} (req : Request I) (b : Body) : bool :=
  match req, b with
  | (PostGenerate _ | GetOutline _), OutlineBody _
  | PostSave _, OutlineIdBody _
  | (PostComplete _ | PostCompleteIncremental _), SectionBody _
  | GetSections _, SectionsBody _ => true
  | _, _ => false
  end.

(** What the client receives. *)
Inductive Reply : Type :=
| JsonReply (status_code : Z) (content : Json)
| RequestValidationReply (errors : list ValError)
| ResponseValidationFailure.

Definition reply_status (r : Reply) : Z :=
  match r with
  | JsonReply c _ => c
  | RequestValidationReply _ => HTTP_422_UNPROCESSABLE_ENTITY
  | ResponseValidationFailure => HTTP_500_INTERNAL_SERVER_ERROR
  end.

(** [HTTPException]'s handler: [{"detail": detail}]. *)
Definition detail_json (detail : string) : Json := JObject [("detail", JStr detail)].

(** [serialize_response]: the dumped object validated against the
    route's [response_model], then the validated value encoded; a
    validation error is [ResponseValidationError], a bare 500. *)
Definition serialize_response {I} (req : Request I) (r : Response Body) : Reply :=
  match r with
  | Respond c b =>
      match response_model req (dump_body b) with
      | Valid b' => JsonReply c (dump_body b')
      | Invalid _ => ResponseValidationFailure
      end
  | HTTPException c d => JsonReply c (detail_json d)
  end.

Section Application.
Context (llm : ChatModel) {I : Type} `{ScriptInput I}.

(** The handler of a request with the background tasks attached to its
    response, before anything is sent. *)
Definition dispatch (req : Request I) : PyM World (Response Body * list (BackgroundTask I)) :=
  match req with
  | PostGenerate b => let* r := respond OutlineBody (Router.generate_outline llm b) in ret (r, [])
  | PostSave b => let* r := respond OutlineIdBody (Router.save_outline b) in ret (r, [])
  | GetOutline oid => let* r := respond OutlineBody (Router.get_outline oid) in ret (r, [])
  | PostComplete b =>
      let* r := Router.generate_complete_script llm [] b in ret (map_response SectionBody (fst r), snd r)
  | PostCompleteIncremental b =>
      let* r := Router.generate_complete_script_incremental llm [] b in
      ret (map_response SectionBody (fst r), snd r)
  | GetSections oid => let* r := respond SectionsBody (Router.get_outline_sections oid) in ret (r, [])
  end.
End Application.

(** The deployed application: the body validated against the route's
    class, the handler, the response serialized, and the background
    tasks run once the response is sent; when serialization raises, no
    response is sent and the tasks are dropped. *)
Definition serve_http (llm : ChatModel) (r : JsonRequest) : PyM World Reply :=
  match parse_request r with
  | Invalid es => ret (RequestValidationReply es)
  | Valid req =>
      let* rt := dispatch llm req in
      match serialize_response req (fst rt) with
      | ResponseValidationFailure => ret ResponseValidationFailure
      | reply => let* _ := run_tasks llm (snd rt) in ret reply
      end
  end.

(** ** Lemmas *)

(** A body that is the [model_dump()] of a value of the route's class
    is accepted as that value: validation loses nothing a client can
    send. *)
Lemma parse_request_dump (g : GenerateOutlineInput) (s : SaveOutlineInput) (c : GenerateCompleteScriptInput) :
  parse_request (JPostGenerate (dump g)) = Valid (PostGenerate g) /\
  parse_request (JPostSave (dump s)) = Valid (PostSave s) /\
  parse_request (JPostComplete (dump c)) = Valid (PostComplete c) /\
  parse_request (JPostCompleteIncremental (dump c)) = Valid (PostCompleteIncremental c).
Proof.
  unfold parse_request, v_body.
  pose proof (validate_dump g) as Hg. pose proof (validate_dump s) as Hs. pose proof (validate_dump c) as Hc.
  cbn [validate_json GenerateOutlineInput_JsonModel SaveOutlineInput_JsonModel
       GenerateCompleteScriptInput_JsonModel] in Hg, Hs, Hc.
  by rewrite Hg, Hs, Hc.
Qed.
