(* ===== verification/Concurrency.v ===== *)
(** * Concurrency: background tasks running side by side

    Starlette runs a synchronous background task in a worker thread, so
    the tasks of two complete-script requests over the same outline run
    at the same time.  Within one iteration of the loop of
    [generate_remaining_sections], the code reads the previous section's
    content, calls the model (which takes seconds) and only then writes
    the result: another thread can write in between.  This file splits
    an iteration at that point into two atomic actions, [AtSection]
    (read and model call) and [Generated] (write and progress line).

    [Server] runs any number of such threads interleaved with the
    handlers; [thread_step_inv] shows that every action keeps the
    store invariant. *)

From S2P Require Import Prelude.
From S2P Require Import Models.
From S2P Require Import Supabase.
From S2P Require Import Repository.
From S2P Require Import Prompts.
From S2P Require Import Service.
From S2P Require Import Pipeline.
From S2P Require Import Routes.
From S2P Require Import Progress.

Section Threads.
Context (llm : ChatModel).

(** Lines 135-205: read the previous content, build the prompt, call the
    model. *)
Definition section_content_call (ci : GenerateOutlineSectionContentInput)
    : PyM World GenerateOutlineSectionContentOutput :=
  let* previous_content := previous_section_content (gci_previous_section ci) in
  invoke_section llm (gci_model ci) (section_prompt_vars ci (previous_content_instruction previous_content)).

(** Lines 207-211: store the content when the section id is truthy. *)
Definition section_content_write (ci : GenerateOutlineSectionContentInput)
    (out : GenerateOutlineSectionContentOutput) : PyM World GenerateOutlineSectionContentOutput :=
  let* _ := (if str_truthy (gci_section_id ci)
             then bind (db (update_section_content (gci_section_id ci) (gco_content out))) (fun _ => ret tt)
             else ret tt) in
  ret out.

Lemma generate_outline_section_content_split ci w :
  generate_outline_section_content llm ci w =
  log_and_reraise "Error generating section content"
    (bind (section_content_call ci) (section_content_write ci)) w.
Proof.
  unfold generate_outline_section_content, log_and_reraise, try_except, section_content_call,
    section_content_write.
  by rewrite bind_assoc_run.
Qed.

Context {I : Type} `{ScriptInput I}.

(** Lines 227-241: the section at [index], its neighbours and the
    section input built from them. *)
Definition section_input_at (input : I) (index : nat) : res GenerateOutlineSectionContentInput :=
  let sections := ol_sections (script_outline input) in
  let? section := py_index sections index in
  let? previous_section :=
    (if Nat.ltb 0 index then let? p := py_index sections (index - 1) in Ok (Some p) else Ok None) in
  let? next_section :=
    (if Nat.ltb index (length sections - 1)
     then let? n := py_index sections (index + 1) in Ok (Some n) else Ok None) in
  section_content_input input section previous_section next_section.

Lemma remaining_section_step_split input i w :
  remaining_section_step llm input i w =
  match section_input_at input i with
  | Err e => (Err e, w)
  | Ok ci => bind (generate_outline_section_content llm ci)
               (fun _ => emit (EvLogInfo (progress_msg i (length (ol_sections (script_outline input)))))) w
  end.
Proof.
  unfold remaining_section_step, section_input_at, lift_res, bind, res_bind, ret, progress_msg. cbv zeta.
  destruct (py_index _ i) as [x|e]; [|done].
  destruct (Nat.ltb 0 i); [destruct (py_index _ (i - 1)) as [p|e]; [|done]|];
    (destruct (Nat.ltb i _); [destruct (py_index _ (i + 1)) as [nx|e]; [|done]|]);
    (destruct (section_content_input _ _ _ _) as [ci|e]; [|done]);
    by destruct (generate_outline_section_content llm ci w) as [[o|e] w'].
Qed.

(** A background task as a thread of atomic actions. *)
Inductive Thread : Type :=
| AtSection (index : nat)
| Generated (index : nat) (ci : GenerateOutlineSectionContentInput) (out : GenerateOutlineSectionContentOutput)
| Finished
| Crashed.

(** The two log lines of an exception raised in a section call. *)
Definition section_failure (w : World) (e : PyExc) : World :=
  log_background_error (log_error w "Error generating section content" e) e.

Definition thread_step (input : I) (t : Thread) (w : World) : option (Thread * World) :=
  let n := length (ol_sections (script_outline input)) in
  match t with
  | AtSection i =>
      if Nat.ltb i n then
        match section_input_at input i with
        | Err e => Some (Crashed, log_background_error w e)
        | Ok ci =>
            match section_content_call ci w with
            | (Ok out, w1) => Some (Generated i ci out, w1)
            | (Err e, w1) => Some (Crashed, section_failure w1 e)
            end
        end
      else Some (Finished, w)
  | Generated i ci out =>
      match section_content_write ci out w with
      | (Ok _, w1) => Some (AtSection (S i), snd (emit (EvLogInfo (progress_msg i n)) w1))
      | (Err e, w1) => Some (Crashed, section_failure w1 e)
      end
  | Finished | Crashed => None
  end.

End Threads.

(** ** Each action keeps the store invariant *)

Section Invariant.
Context (llm : ChatModel) {I : Type} `{ScriptInput I}.

Lemma section_content_call_inv ci : preserves (fun w => store_inv (store w)) (section_content_call llm ci).
Proof. unfold section_content_call. solve_preserves. Qed.

Lemma section_content_write_inv ci out : preserves (fun w => store_inv (store w)) (section_content_write ci out).
Proof. unfold section_content_write. solve_preserves. Qed.

Lemma thread_step_inv input t w t' w' :
  thread_step llm input t w = Some (t', w') -> store_inv (store w) -> store_inv (store w').
Proof.
  intros Hs Hw. unfold thread_step in Hs.
  destruct t as [i|i ci out| |]; [| |done|done].
  - destruct (Nat.ltb i _); [|by simplify_eq].
    destruct (section_input_at input i) as [ci|e]; [|by simplify_eq].
    pose proof (section_content_call_inv ci w Hw) as Hc.
    destruct (section_content_call llm ci w) as [[o|e] w1]; by simplify_eq.
  - pose proof (section_content_write_inv ci out w Hw) as Hc.
    destruct (section_content_write ci out w) as [[o|e] w1]; by simplify_eq.
Qed.

End Invariant.

(** A model whose output names the length of the history it was called
    with, so that each stored content tells which call produced it. *)
Definition varied_llm : ChatModel :=
  mkChatModel (fun _ _ _ => Ok (mkOutline None demo_sections))
    (fun _ v h => Ok (mkGenerateOutlineSectionContentOutput
                        ("Take " ++ pretty (length h) ++ " of " ++ from_option cs_title "" (spv_current_section v)))).
