(* ===== verification/Client.v ===== *)
(** * Client: the Supabase client of src/server/db/supabase.py

    The module [db.supabase] runs at import time: [load_dotenv()] adds
    the variables of the [.env] file that the process environment does
    not set, and [create_client] builds the client from
    [NEXT_PUBLIC_SUPABASE_URL] and [NEXT_PUBLIC_SUPABASE_ANON_KEY].
    The repository imports this module and the router imports the
    repository, so an exception raised here stops the import of the
    application: the server answers no request at all.

    The store of [Supabase] stands for the database behind the client;
    what this file adds is whether there is a client, and with which URL
    and key.  [create_client] is supabase-py's (not in the sources),
    modelled from its documented checks: a URL and a key are required,
    and the URL must match [^(https?)://.+].  The format check supabase-py
    applies to the key differs between its releases and is not
    modelled: any non-empty key is accepted. *)

From S2P Require Import Prelude.
From S2P Require Import Models.
From S2P Require Import Supabase.
From S2P Require Import Repository.
From S2P Require Import Prompts.
From S2P Require Import Service.
From S2P Require Import Pipeline.
From S2P Require Import Routes.

(** [os.environ]. *)
Abbreviation Env := (gmap string string) (only parsing).

(** [os.getenv(key)]: the value, or [None]. *)
Definition getenv (env : Env) (key : string) : option string := env !! key.

(** [load_dotenv()] (python-dotenv, [override=False]), line 5: each
    assignment of the file, in order, sets the variable unless the
    process environment had it; a later assignment of the same variable
    in the file replaces an earlier one. *)
Definition load_dotenv (env : Env) (dotenv : list (string * string)) : Env :=
  foldl (fun e '(k, v) => if decide (is_Some (env !! k)) then e else <[k:=v]> e) env dotenv.

(** The value the file assigns last to [key]. *)
Definition dotenv_value (dotenv : list (string * string)) (key : string) : option string :=
  foldl (fun acc '(k, v) => if String.eqb key k then Some v else acc) None dotenv.

Record Client : Type := mkClient {
  client_url : string;
  client_key : string
}.

Inductive SupabaseException : Type :=
| SupabaseError (msg : string).

(** [prefix] followed by at least one character other than a newline. *)
Definition url_with_scheme (prefix u : string) : bool :=
  String.prefix prefix u &&
  match String.substring (String.length prefix) 1 u with
  | String c _ => negb (Ascii.eqb c "010"%char)
  | EmptyString => false
  end.

(** [re.match(r"^(https?)://.+", supabase_url)] *)
Definition valid_url (u : string) : bool :=
  url_with_scheme "http://" u || url_with_scheme "https://" u.

(** [create_client(supabase_url=..., supabase_key=...)]: the checks of
    supabase-py's client constructor, in its order. *)
Definition create_client (supabase_url supabase_key : option string) : SupabaseException + Client :=
  match supabase_url with
  | Some u =>
      if str_truthy u then
        match supabase_key with
        | Some k =>
            if str_truthy k then
              if valid_url u then inr (mkClient u k) else inl (SupabaseError "Invalid URL")
            else inl (SupabaseError "supabase_key is required")
        | None => inl (SupabaseError "supabase_key is required")
        end
      else inl (SupabaseError "supabase_url is required")
  | None => inl (SupabaseError "supabase_url is required")
  end.

(** The module body, lines 5-7. *)
Definition supabase (env : Env) (dotenv : list (string * string)) : SupabaseException + Client :=
  let environ := load_dotenv env dotenv in
  create_client (getenv environ "NEXT_PUBLIC_SUPABASE_URL") (getenv environ "NEXT_PUBLIC_SUPABASE_ANON_KEY").

(** The server: importing the application imports [db.supabase]; when
    that raises, no request is served; otherwise the requests are
    handled as [Routes.serve] handles them. *)
Definition start_and_serve (llm : ChatModel) {I} `{ScriptInput I} (env : Env) (dotenv : list (string * string))
    (reqs : list (Request I)) (w : World) : SupabaseException + (res (list (Response Body)) * World) :=
  match supabase env dotenv with
  | inl e => inl e
  | inr _ => inr (serve llm reqs w)
  end.

(** ** Lemmas *)

Definition resolved (env : Env) (dotenv : list (string * string)) (key : string) : option string :=
  match getenv env key with Some v => Some v | None => dotenv_value dotenv key end.

Lemma load_dotenv_lookup_acc (env : Env) (dotenv : list (string * string)) key (e : Env) (acc : option string) :
  e !! key = match env !! key with Some v => Some v | None => acc end ->
  foldl (fun e '(k, v) => if decide (is_Some (env !! k)) then e else <[k:=v]> e) e dotenv !! key =
  match env !! key with
  | Some v => Some v
  | None => foldl (fun acc '(k, v) => if String.eqb key k then Some v else acc) acc dotenv
  end.
Proof.
  revert e acc. induction dotenv as [|[k v] dotenv IH]; intros e acc He; [done|]. cbn [foldl].
  apply IH. destruct (String.eqb_spec key k) as [->|Hne].
  - destruct (decide (is_Some (env !! k))) as [[v' Hv]|Hn]; [by rewrite He, Hv|].
    rewrite lookup_insert_eq. destruct (env !! k) eqn:E; [|by rewrite ?String.eqb_refl]. exfalso. apply Hn. by eexists.
  - by case_decide; [|rewrite lookup_insert_ne by congruence].
Qed.

(** After [load_dotenv()], a variable has its value in the process
    environment when it has one there, and otherwise the value the
    [.env] file assigns it last. *)
Lemma load_dotenv_lookup env dotenv key :
  getenv (load_dotenv env dotenv) key = resolved env dotenv key.
Proof.
  unfold getenv, load_dotenv, resolved, getenv, dotenv_value.
  apply load_dotenv_lookup_acc. by destruct (env !! key).
Qed.


(** ** What the module does *)


(** Without a URL in the environment or the file, importing the
    application raises and no request is answered, whatever the
    requests. *)
Theorem no_url_no_server llm {I} `{ScriptInput I} env dotenv (reqs : list (Request I)) w :
  resolved env dotenv "NEXT_PUBLIC_SUPABASE_URL" = None ->
  start_and_serve llm env dotenv reqs w = inl (SupabaseError "supabase_url is required").
Proof. intros Hu. unfold start_and_serve, supabase. by rewrite load_dotenv_lookup, Hu. Qed.

(** The process environment wins over the file: a URL set in both is
    the environment's, a key set only in the file is the file's. *)
Example environment_overrides_dotenv :
  supabase (<["NEXT_PUBLIC_SUPABASE_URL" := "https://project.supabase.co"]> ∅)
    [("NEXT_PUBLIC_SUPABASE_URL", "http://localhost:54321");
     ("NEXT_PUBLIC_SUPABASE_ANON_KEY", "anon-key")] =
  inr (mkClient "https://project.supabase.co" "anon-key").
Proof. vm_compute. reflexivity. Qed.

Lemma no_url_no_server_witness :
  resolved ∅ [("NEXT_PUBLIC_SUPABASE_ANON_KEY", "anon-key")] "NEXT_PUBLIC_SUPABASE_URL" = None /\
  start_and_serve demo_llm ∅ [("NEXT_PUBLIC_SUPABASE_ANON_KEY", "anon-key")]
    [GetOutline (I := CompleteScriptRequest) (row_id 0)] demo_world =
  inl (SupabaseError "supabase_url is required").
Proof. split; [vm_compute; reflexivity | apply no_url_no_server; vm_compute; reflexivity]. Defined.

