(* ===== verification/Server.v ===== *)
(** * Server: the event loop and the worker threads

    Every handler of src/server/routes/content.py is an [async def] that
    calls the blocking service and repository methods without any
    [await].  On the server's event loop such a handler therefore runs
    from its first line to its response without another handler
    starting in between.  The background task [generate_remaining_sections]
    is a plain function: Starlette runs it on a worker thread of its
    thread pool once the response is sent, and the worker's steps
    interleave with the handlers of later requests and with the other
    workers.

    A configuration is the world, the worker threads (each with the
    request it serves) and the responses sent so far.  [server_step]
    takes one action: [Arrive req] runs a handler (as [dispatch]) and
    appends one worker per queued task; [Work n] runs one atomic action
    of worker [n] (as [Concurrency.thread_step]); a worker index out of
    range or a finished worker stutters.  [run_server] runs a schedule of
    actions.  A handler is one action here, while on the real server the
    workers may also run during a handler's blocking calls: the schedules
    of this model are a subset of the real ones, and the invariants it
    proves hold at the grain of single store operations, which every
    action preserves. *)

From S2P Require Import Prelude.
From S2P Require Import Models.
From S2P Require Import Supabase.
From S2P Require Import Repository.
From S2P Require Import Prompts.
From S2P Require Import Service.
From S2P Require Import Pipeline.
From S2P Require Import Routes.
From S2P Require Import Progress.
From S2P Require Import Validation.
From S2P Require Import Responses.
From S2P Require Import Concurrency.

Section Server.
Context (llm : ChatModel) {I : Type} `{ScriptInput I}.

(** [BackgroundTasks.add_task(generate_remaining_sections, input, 1)]
    becomes a worker at the loop's first index. *)
Definition spawn (task : BackgroundTask I) : I * Thread :=
  match task with GenerateRemainingSections input start => (input, AtSection start) end.

Record Server : Type := mkServer {
  srv_world : World;
  srv_threads : list (I * Thread);
  srv_sent : list (Response Body)
}.

Inductive Action : Type :=
| Arrive (req : Request I)
| Work (n : nat).

Definition server_step (a : Action) (s : Server) : Server :=
  match a with
  | Arrive req =>
      match dispatch llm req (srv_world s) with
      | (Ok (resp, tasks), w') => mkServer w' (srv_threads s ++ (spawn <$> tasks)) (srv_sent s ++ [resp])
      | (Err _, w') => mkServer w' (srv_threads s) (srv_sent s)
      end
  | Work n =>
      match srv_threads s !! n with
      | Some (input, t) =>
          match thread_step llm input t (srv_world s) with
          | Some (t', w') => mkServer w' (<[n:=(input, t')]> (srv_threads s)) (srv_sent s)
          | None => s
          end
      | None => s
      end
  end.

Definition run_server (sched : list Action) (s : Server) : Server :=
  foldl (fun s a => server_step a s) s sched.

(** The configurations reachable by some schedule. *)
Definition server_reaches (s s' : Server) : Prop := rtc (fun s1 s2 => exists a, s2 = server_step a s1) s s'.

(** ** The store invariant *)

Definition server_inv (s : Server) : Prop := store_inv (store (srv_world s)).

Lemma dispatch_inv (req : Request I) : preserves (fun w => store_inv (store w)) (dispatch llm req).
Proof. destruct req; cbn [dispatch]; unfold_handlers; solve_preserves. Qed.

Lemma server_step_inv a s : server_inv s -> server_inv (server_step a s).
Proof.
  unfold server_inv. intros Hs. destruct a as [req|n]; cbn [server_step].
  - pose proof (dispatch_inv req (srv_world s) Hs) as Hd.
    destruct (dispatch llm req (srv_world s)) as [[[resp tasks]|e] w']; done.
  - destruct (srv_threads s !! n) as [[input t]|]; [|done].
    destruct (thread_step llm input t (srv_world s)) as [[t' w']|] eqn:Ht; [|done].
    exact (thread_step_inv llm input t _ t' w' Ht Hs).
Qed.

Lemma run_server_app sched1 sched2 s :
  run_server (sched1 ++ sched2) s = run_server sched2 (run_server sched1 s).
Proof. unfold run_server. by rewrite foldl_app. Qed.

Lemma run_server_reaches sched s : server_reaches s (run_server sched s).
Proof.
  revert s. induction sched as [|a sched IH]; intros s; [apply rtc_refl|].
  eapply rtc_l; [by exists a|]. apply IH.
Qed.

End Server.

(** C17: whatever the schedule of arriving requests and worker actions,
    every configuration the server reaches keeps the store invariant if
    the first one had it: row ids match keys and are fresh, no two
    sections of an outline share a position, and every section row
    belongs to a stored outline.  The handlers run whole on the event
    loop, the workers' reads, model calls and writes interleave with
    them and with each other. *)
Theorem server_preserves_store_inv llm {I} `{ScriptInput I} (s s' : Server) :
  server_reaches llm s s' -> server_inv s -> server_inv s'.
Proof. induction 1 as [|s1 s2 s3 [a ->] _ IH]; [done|]. intros Hs. by apply IH, server_step_inv. Qed.

(** Two complete-script requests for the saved demo outline: the first
    request's worker reads section 0 and calls the model for section 1;
    the second request's handler then rewrites section 0 and its worker
    runs to its end; the first worker then stores its section 1 and
    finishes. *)
Definition race_schedule : list (Action (I:=CompleteScriptRequest)) :=
  [Arrive (PostCompleteIncremental demo_request); Work 0; Arrive (PostCompleteIncremental demo_request);
   Work 1; Work 1; Work 1; Work 1; Work 1; Work 0; Work 0; Work 0; Work 0].

Lemma server_preserves_store_inv_witness :
  server_reaches varied_llm (mkServer demo_saved_world [] [])
    (run_server varied_llm race_schedule (mkServer demo_saved_world [] [])) /\
  server_inv (run_server varied_llm race_schedule (mkServer demo_saved_world [] [])).
Proof.
  split; [apply run_server_reaches|].
  exact (server_preserves_store_inv varied_llm (mkServer demo_saved_world [] []) _
           (run_server_reaches varied_llm race_schedule (mkServer demo_saved_world [] []))
           demo_saved_world_inv).
Defined.
