(* ===== verification/Provenance.v ===== *)
(** * Provenance: where the stored section contents come from

    The only write of a section's [content] in src/server is
    [update_section_content(input.section_id, content_output.content)]
    in [ContentService.generate_outline_section_content] (lines 207-211),
    which the handlers run for the first section and the background
    workers run for the others ([Concurrency.section_content_write]);
    [save_outline] inserts the rows with [content: ""].  This file proves
    that, under every schedule of the server of [Server], each stored
    content is empty or is the content of an answer the model gave to a
    section-content call recorded in the trace: no placeholder, no
    error message and no other value ever reaches the column.

    The invariant is stated on the trace of events of [Service]: a call
    of the model is the event [EvModelSection model vars] at some index
    [k], and its answer is [section_output llm model vars] on the [k]
    events before it.  Every operation only appends to the trace (the
    [grows] lemmas), so an answer once given stays an answer; a worker
    between its model call and its write carries the answer it got
    ([thread_ok]), which is what its write stores. *)

From S2P Require Import Prelude.
From S2P Require Import Models.
From S2P Require Import Supabase.
From S2P Require Import Repository.
From S2P Require Import Prompts.
From S2P Require Import Service.
From S2P Require Import Pipeline.
From S2P Require Import Routes.
From S2P Require Import Progress.
From S2P Require Import Validation.
From S2P Require Import Responses.
From S2P Require Import Concurrency.
From S2P Require Import Server.

(** ** The trace only grows *)

Section Grows.
Context (llm : ChatModel) (tr : list Event).
Local Abbreviation Grows := (fun w : World => tr `prefix_of` trace w).

Lemma grows_db {A} (m : PyM Store A) : preserves Grows (db m).
Proof. intros w Hw. unfold db. by destruct (m (store w)). Qed.

Lemma grows_emit e : preserves Grows (emit e).
Proof. intros w Hw. cbn. by apply prefix_app_r. Qed.

Lemma grows_invoke_section model vars : preserves Grows (invoke_section llm model vars).
Proof. intros w Hw. cbn. by apply prefix_app_r. Qed.

Lemma grows_invoke_outline model vars : preserves Grows (invoke_outline llm model vars).
Proof. intros w Hw. cbn. by apply prefix_app_r. Qed.

Lemma grows_log_and_reraise {A} what (m : PyM World A) : preserves Grows m -> preserves Grows (log_and_reraise what m).
Proof. intros Hm. unfold log_and_reraise. solve_preserves. apply grows_emit. Qed.

Lemma grows_previous_section_content prev : preserves Grows (previous_section_content prev).
Proof. intros w Hw. by rewrite previous_section_content_run. Qed.
End Grows.

#[export] Hint Resolve grows_db grows_emit grows_invoke_section grows_invoke_outline
  grows_log_and_reraise grows_previous_section_content : pym.

Section GrowsService.
Context (llm : ChatModel) {I : Type} `{ScriptInput I} (tr : list Event).
Local Abbreviation Grows := (fun w : World => tr `prefix_of` trace w).

Lemma generate_outline_section_content_grows ci : preserves Grows (generate_outline_section_content llm ci).
Proof. unfold generate_outline_section_content. apply grows_log_and_reraise. solve_preserves. Qed.

Lemma save_outline_grows input : preserves Grows (save_outline input).
Proof. unfold save_outline. apply grows_log_and_reraise. solve_preserves. Qed.

Lemma generate_outline_draft_grows input : preserves Grows (generate_outline_draft llm input).
Proof. unfold generate_outline_draft. solve_preserves. Qed.

Lemma remaining_section_step_grows (input : I) i : preserves Grows (remaining_section_step llm input i).
Proof. unfold remaining_section_step. cbv zeta. solve_preserves. apply generate_outline_section_content_grows. Qed.

Lemma generate_complete_script_incremental_grows bt (input : I) :
  preserves Grows (generate_complete_script_incremental llm bt input).
Proof.
  unfold generate_complete_script_incremental. apply grows_log_and_reraise. cbv zeta. solve_preserves.
  apply generate_outline_section_content_grows.
Qed.
End GrowsService.

#[export] Hint Resolve generate_outline_section_content_grows save_outline_grows generate_outline_draft_grows
  generate_complete_script_incremental_grows : pym.

Lemma dispatch_grows llm {I} `{ScriptInput I} (req : Request I) tr :
  preserves (fun w => tr `prefix_of` trace w) (dispatch llm req).
Proof. destruct req; cbn [dispatch]; unfold_handlers; solve_preserves. Qed.

(** ** Answers of the model *)

Section Answers.
Context (llm : ChatModel).

(** [c] is the content of an answer of the model: the [k]-th event of
    [tr] is a section-content call, and the model, asked with that
    call's model and variables after the [k] events before it, answered
    an output whose [content] is [c]. *)
Definition answered (tr : list Event) (c : string) : Prop :=
  exists k model vars out, tr !! k = Some (EvModelSection model vars) /\
    section_output llm model vars (take k tr) = Ok out /\ gco_content out = c.

(** A content the column may hold: [""] or an answer. *)
Definition content_ok (tr : list Event) (c : string) : Prop := c = "" \/ answered tr c.

Definition contents_ok (tr : list Event) (st : Store) : Prop :=
  map_Forall (fun _ r => content_ok tr (srow_content r)) (outline_sections st).

Definition provenance (w : World) : Prop := contents_ok (trace w) (store w).

Lemma answered_prefix tr tr' c : tr `prefix_of` tr' -> answered tr c -> answered tr' c.
Proof.
  intros [l ->] (k & model & vars & out & Hk & Hout & Hc). exists k, model, vars, out.
  split; [by apply lookup_app_l_Some|]. rewrite take_app_le; [done|]. apply lookup_lt_Some in Hk. lia.
Qed.

Lemma contents_ok_prefix tr tr' st : tr `prefix_of` tr' -> contents_ok tr st -> contents_ok tr' st.
Proof.
  intros Hp Hst. eapply map_Forall_impl; [exact Hst|].
  intros _ r [Hr|Hr]; [by left | right; by eapply answered_prefix].
Qed.

(** The call appended to [tr] answers what the model returned on [tr]. *)
Lemma answered_last tr model vars out :
  section_output llm model vars tr = Ok out -> answered (tr ++ [EvModelSection model vars]) (gco_content out).
Proof.
  intros Hout. exists (length tr), model, vars, out. rewrite take_app_length.
  split; [by rewrite lookup_app_r, Nat.sub_diag by lia | done].
Qed.

Lemma contents_ok_insert tr secs o n k r :
  map_Forall (fun _ r => content_ok tr (srow_content r)) secs -> content_ok tr (srow_content r) ->
  contents_ok tr (mkStore o (<[k:=r]> secs) n).
Proof. intros Hs Hr. by apply map_Forall_insert_2. Qed.
End Answers.

#[export] Hint Resolve contents_ok_insert : pym.

(** ** The queries keep the contents *)

Section Queries.
Context (llm : ChatModel) (tr : list Event).
Local Abbreviation Ok_ := (contents_ok llm tr).

Lemma insert_outlines_contents d : preserves Ok_ (insert_outlines d).
Proof. by intros st. Qed.

Lemma select_outlines_eq_id_contents id : preserves Ok_ (select_outlines_eq_id id).
Proof. by intros st. Qed.

Lemma select_sections_eq_id_contents id : preserves Ok_ (select_sections_eq_id id).
Proof. by intros st. Qed.

Lemma select_sections_eq_outline_id_order_contents oid : preserves Ok_ (select_sections_eq_outline_id_order oid).
Proof. by intros st. Qed.

(** [insert] of rows whose [content] is [""]. *)
Lemma insert_outline_sections_contents ds :
  Forall (fun d => sd_content d = "") ds -> preserves Ok_ (insert_outline_sections ds).
Proof.
  intros Hds st Hst. unfold insert_outline_sections. destruct (batch_ok _ ds); [|done].
  destruct (insert_section_rows st ds) as [st' rs] eqn:E. cbn [snd].
  intros k r Hk. replace st' with (fst (insert_section_rows st ds)) in Hk by by rewrite E.
  apply insert_section_rows_lookup in Hk as [(i & d & Hi & -> & ->)|[Hold _]]; [|exact (Hst k r Hold)].
  left. exact (Forall_lookup_1 _ _ _ _ Hds Hi).
Qed.

Lemma update_sections_content_eq_id_contents id c :
  content_ok llm tr c -> preserves Ok_ (update_sections_content_eq_id id c).
Proof. intros Hc st Hst. unfold update_sections_content_eq_id. destruct (_ !! id); [|done]. by apply contents_ok_insert. Qed.
End Queries.

#[export] Hint Resolve insert_outlines_contents select_outlines_eq_id_contents select_sections_eq_id_contents
  select_sections_eq_outline_id_order_contents : pym.

Section RepositoryContents.
Context (llm : ChatModel) (tr : list Event).
Local Abbreviation Ok_ := (contents_ok llm tr).

Lemma create_outline_contents d : preserves Ok_ (create_outline d).
Proof. unfold create_outline. solve_preserves. Qed.

Lemma get_outline_contents id : preserves Ok_ (get_outline id).
Proof. unfold get_outline. solve_preserves. Qed.

Lemma get_outline_sections_contents oid : preserves Ok_ (get_outline_sections oid).
Proof. unfold get_outline_sections. solve_preserves. Qed.

Lemma get_outline_section_contents id : preserves Ok_ (get_outline_section id).
Proof. unfold get_outline_section. solve_preserves. Qed.

(** [save_outline]'s batch: every row with [content: ""]. *)
Lemma create_outline_sections_contents oid secs :
  preserves Ok_ (create_outline_sections (section_data_of oid <$> secs)).
Proof.
  unfold create_outline_sections. destruct (section_data_of oid <$> secs) as [|d ds] eqn:E; [solve_preserves|].
  apply preserves_bind; [|solve_preserves]. apply insert_outline_sections_contents.
  rewrite <- E. apply Forall_fmap, Forall_true. done.
Qed.

Lemma update_section_content_contents id c : content_ok llm tr c -> preserves Ok_ (update_section_content id c).
Proof. intros Hc. unfold update_section_content. apply preserves_bind; [by apply update_sections_content_eq_id_contents|]. solve_preserves. Qed.
End RepositoryContents.

#[export] Hint Resolve create_outline_contents get_outline_contents get_outline_sections_contents
  get_outline_section_contents create_outline_sections_contents : pym.

(** ** The service keeps the provenance *)

Section WorldProvenance.
Context (llm : ChatModel).
Local Abbreviation Prov := (provenance llm).

Lemma provenance_grow w l : Prov w -> Prov (mkWorld (store w) (trace w ++ l)).
Proof. apply contents_ok_prefix. by apply prefix_app_r. Qed.

Lemma provenance_log_error w what e : Prov w -> Prov (log_error w what e).
Proof. apply provenance_grow. Qed.

Lemma provenance_log_background_error w e : Prov w -> Prov (log_background_error w e).
Proof. apply provenance_grow. Qed.

Lemma provenance_section_failure w e : Prov w -> Prov (section_failure w e).
Proof. intros Hw. by apply provenance_log_background_error, provenance_log_error. Qed.

Lemma prov_db {A} (m : PyM Store A) : (forall tr, preserves (contents_ok llm tr) m) -> preserves Prov (db m).
Proof. intros Hm w Hw. unfold db. specialize (Hm (trace w) (store w) Hw). by destruct (m (store w)). Qed.

Lemma prov_emit e : preserves Prov (emit e).
Proof. intros w. apply provenance_grow. Qed.

Lemma prov_invoke_section model vars : preserves Prov (invoke_section llm model vars).
Proof. intros w. apply provenance_grow. Qed.

Lemma prov_invoke_outline model vars : preserves Prov (invoke_outline llm model vars).
Proof. intros w. apply provenance_grow. Qed.

Lemma prov_log_and_reraise {A} what (m : PyM World A) : preserves Prov m -> preserves Prov (log_and_reraise what m).
Proof. intros Hm. unfold log_and_reraise. solve_preserves. apply prov_emit. Qed.

Lemma prov_previous_section_content prev : preserves Prov (previous_section_content prev).
Proof. intros w Hw. by rewrite previous_section_content_run. Qed.
End WorldProvenance.

(** The world after a call of the model and the log lines of a failure. *)
Ltac provenance_grow :=
  cbn [snd emit];
  repeat first [ apply provenance_section_failure | apply provenance_log_error
               | apply provenance_log_background_error ];
  first [assumption | apply provenance_grow; assumption].

#[export] Hint Resolve prov_db prov_emit prov_invoke_section prov_invoke_outline prov_log_and_reraise
  prov_previous_section_content : pym.

(** The write of [generate_outline_section_content] stores the answer
    of the call just made. *)
Lemma generate_outline_section_content_prov llm ci : preserves (provenance llm) (generate_outline_section_content llm ci).
Proof.
  intros w Hw. rewrite generate_outline_section_content_run. cbv zeta.
  destruct (section_output _ _ _ _) as [out|e] eqn:Hout; [|by provenance_grow].
  destruct (str_truthy (gci_section_id ci)); [|by provenance_grow].
  destruct (_ !! gci_section_id ci) as [r|]; [|by provenance_grow].
  apply contents_ok_insert; [apply (contents_ok_prefix llm (trace w)); [by apply prefix_app_r | done]|].
  right. by apply answered_last.
Qed.

#[export] Hint Resolve generate_outline_section_content_prov : pym.

Section ServiceProvenance.
Context (llm : ChatModel) {I : Type} `{ScriptInput I}.
Local Abbreviation Prov := (provenance llm).

Lemma save_outline_prov input : preserves Prov (save_outline input).
Proof. unfold save_outline. apply prov_log_and_reraise. solve_preserves. Qed.

Lemma generate_outline_draft_prov input : preserves Prov (generate_outline_draft llm input).
Proof. unfold generate_outline_draft. solve_preserves. Qed.

Lemma remaining_section_step_prov (input : I) i : preserves Prov (remaining_section_step llm input i).
Proof. unfold remaining_section_step. cbv zeta. solve_preserves. Qed.

Lemma generate_complete_script_incremental_prov bt (input : I) :
  preserves Prov (generate_complete_script_incremental llm bt input).
Proof. unfold generate_complete_script_incremental. apply prov_log_and_reraise. cbv zeta. solve_preserves. Qed.
End ServiceProvenance.

#[export] Hint Resolve save_outline_prov generate_outline_draft_prov generate_complete_script_incremental_prov : pym.

Lemma dispatch_prov llm {I} `{ScriptInput I} (req : Request I) : preserves (provenance llm) (dispatch llm req).
Proof. destruct req; cbn [dispatch]; unfold_handlers; solve_preserves. Qed.

(** ** The workers keep the provenance *)

Section Workers.
Context (llm : ChatModel) {I : Type} `{ScriptInput I}.

(** A worker between its model call and its write carries an answer. *)
Definition thread_ok (tr : list Event) (t : Thread) : Prop :=
  match t with
  | Generated _ _ out => answered llm tr (gco_content out)
  | _ => True
  end.

Lemma threads_ok_prefix tr tr' (ts : list (I * Thread)) :
  tr `prefix_of` tr' -> Forall (fun it => thread_ok tr it.2) ts -> Forall (fun it => thread_ok tr' it.2) ts.
Proof.
  intros Hp Hts. eapply Forall_impl; [exact Hts|]. intros [input [| i ci out | |]]; cbn; try done.
  by apply answered_prefix.
Qed.

(** Lines 135-205 of the section call: one model call on the variables
    built from the stored previous content. *)
Lemma section_content_call_run ci w :
  section_content_call llm ci w =
  (section_output llm (gci_model ci) (section_vars (store w) ci) (trace w),
   mkWorld (store w) (trace w ++ [EvModelSection (gci_model ci) (section_vars (store w) ci)])).
Proof. unfold section_content_call, bind. by rewrite previous_section_content_run. Qed.

Lemma section_content_write_trace ci out w : trace (snd (section_content_write ci out w)) = trace w.
Proof.
  unfold section_content_write, bind, db. destruct (str_truthy (gci_section_id ci)); [|done].
  by destruct (update_section_content _ _ _) as [[]].
Qed.

(** The write stores the answer the worker carries. *)
Lemma section_content_write_prov ci out w :
  answered llm (trace w) (gco_content out) -> provenance llm w -> provenance llm (snd (section_content_write ci out w)).
Proof.
  intros Ha Hw. unfold section_content_write, bind, db. destruct (str_truthy (gci_section_id ci)); [|done].
  pose proof (update_section_content_contents llm (trace w) (gci_section_id ci) (gco_content out)
                (or_intror Ha) (store w) Hw) as Hu.
  by destruct (update_section_content _ _ _) as [[]].
Qed.

Lemma thread_step_prov (input : I) t w t' w' :
  thread_step llm input t w = Some (t', w') -> provenance llm w -> thread_ok (trace w) t ->
  provenance llm w' /\ thread_ok (trace w') t' /\ trace w `prefix_of` trace w'.
Proof.
  intros Hs Hw Ht. unfold thread_step in Hs.
  destruct t as [i|i ci out| |]; [| |done|done].
  - destruct (Nat.ltb i _); [|by simplify_eq].
    destruct (section_input_at input i) as [ci|e];
      [|simplify_eq; split; [by provenance_grow | split; [done | by apply prefix_app_r]]].
    rewrite section_content_call_run in Hs.
    destruct (section_output _ _ _ _) as [out|e] eqn:Hout; simplify_eq;
      (split; [by provenance_grow|]); cbn [trace section_failure log_background_error log_error snd emit].
    + split; [by apply answered_last | by apply prefix_app_r].
    + split; [done|]. rewrite <- !app_assoc. by apply prefix_app_r.
  - pose proof (section_content_write_prov ci out w Ht Hw) as Hp.
    pose proof (section_content_write_trace ci out w) as Htr.
    destruct (section_content_write ci out w) as [[o|e] w1]; simplify_eq; cbn [snd] in *;
      (split; [by provenance_grow|]); cbn [trace section_failure log_background_error log_error snd emit];
      rewrite ?Htr, <- ?app_assoc; (split; [done | by apply prefix_app_r]).
Qed.
End Workers.

(** ** The server keeps the provenance *)

Section ServerProvenance.
Context (llm : ChatModel) {I : Type} `{ScriptInput I}.

Definition server_prov (s : Server) : Prop :=
  provenance llm (srv_world s) /\ Forall (fun it : I * Thread => thread_ok llm (trace (srv_world s)) it.2) (srv_threads s).

Lemma server_step_prov a (s : Server) : server_prov s -> server_prov (server_step llm a s).
Proof.
  intros [Hw Ht]. destruct a as [req|n]; cbn [server_step].
  - pose proof (dispatch_prov llm req _ Hw) as Hp.
    pose proof (dispatch_grows llm req (trace (srv_world s)) _ (reflexivity _)) as Hg.
    destruct (dispatch llm req (srv_world s)) as [[[resp tasks]|e] w']; cbn in Hp, Hg |- *;
      (split; [done|]); [apply Forall_app; split|]; [| |by eapply threads_ok_prefix..].
    + by eapply threads_ok_prefix.
    + apply Forall_fmap, Forall_forall. by intros [input start].
  - destruct (srv_threads s !! n) as [[input t]|] eqn:En; [|done].
    destruct (thread_step llm input t (srv_world s)) as [[t' w']|] eqn:Hs; [|done].
    destruct (thread_step_prov llm input t _ t' w' Hs Hw (Forall_lookup_1 _ _ _ _ Ht En)) as (Hw' & Ht' & Hp).
    split; [done|]. apply Forall_insert; [by eapply threads_ok_prefix | done].
Qed.

Lemma server_reaches_prov (s s' : Server) : server_reaches llm s s' -> server_prov s -> server_prov s'.
Proof. induction 1 as [|s1 s2 s3 [a ->] _ IH]; [done|]. intros Hs. by apply IH, server_step_prov. Qed.
End ServerProvenance.

(** C14: under every schedule of the server, starting with no worker and
    with every stored section content empty, each content stored for a
    section is empty or is the content of an answer the model gave to a
    section-content call recorded in the trace, computed on the events
    before that call: the column holds nothing but the model's answers. *)
Theorem stored_contents_are_answers llm {I} `{ScriptInput I} (s s' : Server) sid r :
  server_reaches llm s s' -> srv_threads s = [] ->
  map_Forall (fun _ r => srow_content r = "") (outline_sections (store (srv_world s))) ->
  outline_sections (store (srv_world s')) !! sid = Some r ->
  srow_content r = "" \/ answered llm (trace (srv_world s')) (srow_content r).
Proof.
  intros Hr Hth Hempty Hsid.
  assert (Hs : server_prov llm s').
  { apply (server_reaches_prov llm s s' Hr). split; [|by rewrite Hth].
    eapply map_Forall_impl; [exact Hempty|]. by left. }
  exact (proj1 Hs sid r Hsid).
Qed.

Lemma stored_contents_are_answers_witness :
  let s' := run_server varied_llm race_schedule (mkServer demo_saved_world [] []) in
  exists r, outline_sections (store (srv_world s')) !! row_id 2 = Some r /\ srow_content r <> "" /\
    (srow_content r = "" \/ answered varied_llm (trace (srv_world s')) (srow_content r)).
Proof.
  intros s'. eexists. split; [vm_compute; reflexivity|]. split; [vm_compute; discriminate|].
  apply (stored_contents_are_answers varied_llm (mkServer demo_saved_world [] []) s' (row_id 2)).
  - apply run_server_reaches.
  - reflexivity.
  - apply (bool_decide_unpack _). vm_compute. reflexivity.
  - vm_compute. reflexivity.
Defined.
